(** * A shallow embedding of [app.py]

    The request handlers of the pediatric-appointment application
    ([signup], [appointment_page], [conversation_page], [extract_diet],
    [reports_page]) are written as functions in a small state-and-exception
    monad over a world made of the SQLite tables, the Flask session, the
    flashed messages and the log of requests sent to the completion service.

    Strings are Rocq strings; a character stands for a code point below 256.
    What the interpreter and the libraries do (the completion service,
    [json.loads], [strptime], password hashing, the text of library errors,
    the long prompt literals) is a field of the [Runtime] record. *)

From Stdlib Require Import ZArith List String Ascii Bool Lia.
From Stdlib Require Import Permutation Sorted SpecFloat DecimalString.
Import ListNotations.

Local Open Scope string_scope.
Local Open Scope Z_scope.
Set Warnings "-register-all".

(** ** Python strings *)

Module PyStr.

Definition nl : string := String (ascii_of_nat 10) EmptyString.

(** [str.isspace] on one character. *)
Definition is_space (c : ascii) : bool :=
  let n := Z.of_nat (nat_of_ascii c) in
  ((9 <=? n) && (n <=? 13)) || ((28 <=? n) && (n <=? 32))
  || (n =? 133) || (n =? 160).

Fixpoint lstrip (s : string) : string :=
  match s with
  | String c t => if is_space c then lstrip t else s
  | EmptyString => EmptyString
  end.

Fixpoint rstrip (s : string) : string :=
  match s with
  | String c t =>
      match rstrip t with
      | EmptyString => if is_space c then EmptyString else String c EmptyString
      | t' => String c t'
      end
  | EmptyString => EmptyString
  end.

(** [s.strip()] *)
Definition strip (s : string) : string := rstrip (lstrip s).

(** [str.lower] on one character. *)
Definition lower_char (c : ascii) : ascii :=
  let n := Z.of_nat (nat_of_ascii c) in
  if ((65 <=? n) && (n <=? 90))
     || ((192 <=? n) && (n <=? 222) && negb (n =? 215))
  then ascii_of_nat (nat_of_ascii c + 32) else c.

(** [s.lower()] *)
Fixpoint lower (s : string) : string :=
  match s with
  | String c t => String (lower_char c) (lower t)
  | EmptyString => EmptyString
  end.

(** [needle in hay] *)
Fixpoint contains (needle hay : string) : bool :=
  String.prefix needle hay
  || match hay with
     | String _ t => contains needle t
     | EmptyString => false
     end.

(** [bool(s)] *)
Definition nonempty (s : string) : bool :=
  match s with EmptyString => false | _ => true end.

(** [str(n)] for an [int]. *)
Definition of_int (n : Z) : string := NilZero.string_of_int (Z.to_int n).

End PyStr.

(** ** Python values

    The values [json.loads] and [request.json] produce.  A [dict] keeps its
    items in insertion order, with string keys. *)

Inductive pyval : Type :=
| PNone
| PBool (b : bool)
| PInt (n : Z)
| PFloat (f : spec_float)
| PStr (s : string)
| PList (l : list pyval)
| PDict (d : list (string * pyval)).

Definition dict := list (string * pyval).

(** [bool(v)] *)
Definition truthy (v : pyval) : bool :=
  match v with
  | PNone => false
  | PBool b => b
  | PInt n => negb (n =? 0)
  | PFloat (S754_zero _) => false
  | PFloat _ => true
  | PStr s => PyStr.nonempty s
  | PList l => match l with [] => false | _ => true end
  | PDict d => match d with [] => false | _ => true end
  end.

(** [type(v).__name__] *)
Definition type_name (v : pyval) : string :=
  match v with
  | PNone => "NoneType"
  | PBool _ => "bool"
  | PInt _ => "int"
  | PFloat _ => "float"
  | PStr _ => "str"
  | PList _ => "list"
  | PDict _ => "dict"
  end.

(** [d.get(key, default)] *)
Fixpoint dict_get (d : dict) (key : string) (default : pyval) : pyval :=
  match d with
  | [] => default
  | (k, v) :: d' => if String.eqb k key then v else dict_get d' key default
  end.

(** [key in d] *)
Definition dict_has (d : dict) (key : string) : bool :=
  existsb (fun kv => String.eqb (fst kv) key) d.

(** [v != s] for a [str] literal [s]: values of another type are unequal
    to every string. *)
Definition ne_str (v : pyval) (s : string) : bool :=
  match v with
  | PStr s' => negb (String.eqb s' s)
  | _ => true
  end.

(** [str(v)], as an f-string renders a value; [repr_of] is the interpreter's
    rendering of floats and containers. *)
Definition py_str (repr_of : pyval -> string) (v : pyval) : string :=
  match v with
  | PNone => "None"
  | PBool true => "True"
  | PBool false => "False"
  | PInt n => PyStr.of_int n
  | PStr s => s
  | _ => repr_of v
  end.

(** ** Exceptions *)

Inductive exn : Type :=
| Exception (msg : string)           (* [raise Exception(msg)] *)
| ServiceError (msg : string)        (* raised by the completion client *)
| JSONDecodeError (msg : string)     (* raised by [json.loads] *)
| IndexError                         (* [choices[0]] on an empty list *)
| AttributeError (ty attr : string)  (* [obj.attr] on an object without it *)
| TypeError (msg : string)
| ValueError (msg : string)          (* raised by [strptime] *)
| OverflowError                      (* an [int] beyond SQLite's 64 bits *)
| BindingError (position : nat) (v : pyval)  (* sqlite3: unsupported type *)
| IntegrityError (msg : string).     (* sqlite3.IntegrityError *)

(** [isinstance(e, sqlite3.IntegrityError)] *)
Definition is_integrity_error (e : exn) : bool :=
  match e with IntegrityError _ => true | _ => false end.

(** [isinstance(e, sqlite3.Error)] *)
Definition is_sqlite_error (e : exn) : bool :=
  match e with IntegrityError _ | BindingError _ _ => true | _ => false end.

(** [isinstance(e, ValueError)]; [JSONDecodeError] is a subclass. *)
Definition is_value_error (e : exn) : bool :=
  match e with ValueError _ | JSONDecodeError _ => true | _ => false end.

Inductive py_result (A : Type) : Type :=
| Ok (a : A)
| Raise (e : exn).
Arguments Ok {A} a.
Arguments Raise {A} e.

(** ** The tables of [init_db] *)

Record user_row : Type := mk_user {
  u_id : Z;                          (* INTEGER PRIMARY KEY AUTOINCREMENT *)
  u_username : string;               (* TEXT UNIQUE NOT NULL *)
  u_password_hash : string;          (* TEXT NOT NULL *)
  u_role : string;                   (* TEXT NOT NULL *)
  u_admin_group : option string;
  u_patient_group : option string;
  u_name : option string;
  u_created_at : string;             (* DEFAULT CURRENT_TIMESTAMP *)
  u_date_of_birth : option string;
  u_gender : option string
}.

(** Every column written by [extract_diet] is declared TEXT: a cell holds
    NULL ([None]) or a text. *)
Record appointment_row : Type := mk_appointment {
  a_id : Z;
  a_user_id : Z;
  a_date : string;
  a_time : string;
  a_age_years : Z;
  a_height : string;                 (* TEXT NOT NULL *)
  a_weight : string;                 (* TEXT NOT NULL *)
  a_concerns : option string;
  a_diet_info : option string;
  a_created_at : string;
  a_toileting_info : option string;
  a_sleep_info : option string;
  a_development_behavior_info : option string;
  a_social_info : option string;
  a_extracted_concerns : option string;
  a_diet_recommendations : option string;
  a_toileting_recommendations : option string;
  a_sleep_recommendations : option string;
  a_development_behavior_recommendations : option string;
  a_social_recommendations : option string;
  a_concerns_recommendations : option string;
  a_growth_percentile_info : option string
}.

(** [users_seq] and [appointments_seq] are the AUTOINCREMENT counters: the
    largest row id handed out so far. *)
Record database : Type := mk_db {
  users : list user_row;
  users_seq : Z;
  appointments : list appointment_row;
  appointments_seq : Z
}.

(** ** The session bag *)

Record message : Type := mk_message {
  m_role : string;
  m_content : pyval
}.

Record appointment_data : Type := mk_appointment_data {
  ad_id : Z;
  ad_date : string;
  ad_time : string;
  ad_age_years : Z;
  ad_height : string;
  ad_weight : string;
  ad_patient_name : string;
  ad_gender : option string
}.

(** A key of the session is [None] when it is absent or holds [None]; the
    handlers read these keys with [in] or [.get] only, which do not tell
    the two apart for the values the handlers store. *)
Record session : Type := mk_session {
  s_permanent : bool;
  s_user_id : option Z;
  s_username : option string;
  s_name : option string;
  s_role : option string;
  s_admin_group : option string;
  s_patient_group : option string;
  s_appointment_data : option appointment_data;
  s_conversation_history : option (list message)
}.

(** ** Requests to the completion service *)

Record request : Type := mk_request {
  rq_model : string;
  rq_messages : list message;
  rq_temperature_tenths : Z;         (* 3 for [temperature=0.3] *)
  rq_max_tokens : Z;
  rq_response_format : option string
}.

(** What the handlers read of a completion: for each element of
    [response.choices] its [message.content], which may be [None]. *)
Definition completion := list (option string).

Record date : Type := mk_date { year : Z; month : Z; day : Z }.

(** The clock of one request: [date.today()], the two [strftime] renderings
    of [datetime.now()], and SQLite's CURRENT_TIMESTAMP. *)
Record clock : Type := mk_clock {
  today : date;
  now_date : string;
  now_time : string;
  current_timestamp : string
}.

(** ** The environment of the program *)

Record Runtime : Type := mk_runtime {
  (* [client.chat.completions.create]: a completion, or [str(e)] *)
  chat_completions_create : request -> string + completion;
  (* [json.loads]: a value, or the message of the decode error *)
  json_loads : string -> string + pyval;
  (* [repr] of floats, lists and dicts *)
  py_repr : pyval -> string;
  (* how SQLite renders a REAL stored in a TEXT column *)
  real_to_text : spec_float -> string;
  (* the text of sqlite3's binding error *)
  binding_error_text : nat -> pyval -> string;
  generate_password_hash : string -> string;
  (* [datetime.strptime(s, "%Y-%m-%d").date()], or the message of the
     ValueError it raises *)
  strptime_ymd : string -> string + date;
  (* the literal part of [extraction_prompt] before the conversation *)
  extraction_preamble : string;
  (* [system_prompt] as a function of the values it interpolates:
     patient name, age, height, weight *)
  pediatrician_prompt : string -> Z -> string -> string -> string
}.

(** [str(e)] *)
Definition str_exn (rt : Runtime) (e : exn) : string :=
  match e with
  | Exception m | ServiceError m | JSONDecodeError m
  | TypeError m | ValueError m | IntegrityError m => m
  | IndexError => "list index out of range"
  | AttributeError ty attr =>
      "'" ++ ty ++ "' object has no attribute '" ++ attr ++ "'"
  | OverflowError => "Python int too large to convert to SQLite INTEGER"
  | BindingError i v => binding_error_text rt i v
  end.

(** ** Responses *)

Inductive template_context : Type :=
| NoContext
| ErrorContext (error : string)
| ConversationContext (appointment : appointment_data)
| ReportsContext (appointments : list appointment_row)
                 (viewing_other_user : bool)
                 (user_info : option (option string * string)).

Inductive response : Type :=
| Redirect (endpoint : string)                          (* redirect(url_for(..)) *)
| Render (template : string) (ctx : template_context)   (* render_template *)
| Jsonify (status : Z) (body : dict).                   (* jsonify(..), status *)

(** ** The world and the handler monad *)

Record world : Type := mk_world {
  w_db : database;
  w_session : session;
  w_flashes : list (string * string);   (* message, category *)
  w_calls : list request                (* requests sent, oldest first *)
}.

Definition io (A : Type) : Type := world -> py_result A * world.

Definition ret {A} (a : A) : io A := fun w => (Ok a, w).

Definition raise {A} (e : exn) : io A := fun w => (Raise e, w).

Definition bind {A B} (m : io A) (k : A -> io B) : io B :=
  fun w => match m w with
           | (Ok a, w') => k a w'
           | (Raise e, w') => (Raise e, w')
           end.

Notation "x <- m ;; k" := (bind m (fun x => k))
  (at level 61, m at next level, right associativity).
Notation "m ;;; k" := (bind m (fun _ => k))
  (at level 61, right associativity).

(** [try: m except C as e: h e], where [catches] decides [isinstance(e, C)]. *)
Definition try_except {A} (m : io A) (catches : exn -> bool)
  (h : exn -> io A) : io A :=
  fun w => match m w with
           | (Raise e, w') => if catches e then h e w' else (Raise e, w')
           | r => r
           end.

Definition any_exception (e : exn) : bool := true.

Definition get_session : io session := fun w => (Ok (w_session w), w).

Definition get_db : io database := fun w => (Ok (w_db w), w).

Definition put_session (s : session) : io unit :=
  fun w => (Ok tt, mk_world (w_db w) s (w_flashes w) (w_calls w)).

Definition put_db (d : database) : io unit :=
  fun w => (Ok tt, mk_world d (w_session w) (w_flashes w) (w_calls w)).

(** [flash(msg, category)] *)
Definition flash (msg category : string) : io unit :=
  fun w => (Ok tt, mk_world (w_db w) (w_session w)
                     (w_flashes w ++ [(msg, category)]) (w_calls w)).

(** ** The handlers *)

Section Handlers.

Variable rt : Runtime.

(** [client.chat.completions.create(..)]: the request is sent, then the
    client returns or raises. *)
Definition create (rq : request) : io completion :=
  fun w =>
    let w' := mk_world (w_db w) (w_session w) (w_flashes w)
                (w_calls w ++ [rq]) in
    match chat_completions_create rt rq with
    | inl msg => (Raise (ServiceError msg), w')
    | inr c => (Ok c, w')
    end.

(** [response.choices[0].message.content.strip()] *)
Definition first_content_stripped (c : completion) : io string :=
  match c with
  | [] => raise IndexError
  | None :: _ => raise (AttributeError "NoneType" "strip")
  | Some content :: _ => ret (PyStr.strip content)
  end.

(** [json.loads(s)] *)
Definition loads (s : string) : io pyval :=
  match json_loads rt s with
  | inl msg => raise (JSONDecodeError msg)
  | inr v => ret v
  end.

(** [data.get(key, default)] on whatever [json.loads] returned. *)
Definition data_get (data : pyval) (key : string) (default : pyval)
  : io pyval :=
  match data with
  | PDict d => ret (dict_get d key default)
  | _ => raise (AttributeError (type_name data) "get")
  end.

(** *** SQLite: binding a parameter that lands in a TEXT column

    sqlite3 accepts [None], [int] (and [bool]), [float] and [str]; a NaN is
    bound as NULL; a number stored in a TEXT column is kept as its text. *)

Definition fits_int64 (n : Z) : bool :=
  (- 2 ^ 63 <=? n) && (n <? 2 ^ 63).

Definition bind_text (position : nat) (v : pyval)
  : py_result (option string) :=
  match v with
  | PNone => Ok None
  | PBool b => Ok (Some (if b then "1" else "0"))
  | PInt n => if fits_int64 n then Ok (Some (PyStr.of_int n))
              else Raise OverflowError
  | PFloat S754_nan => Ok None
  | PFloat f => Ok (Some (real_to_text rt f))
  | PStr s => Ok (Some s)
  | PList _ | PDict _ => Raise (BindingError position v)
  end.

(** Binding inside a handler: the error of a parameter that cannot be
    bound is raised. *)
Definition bind_param (position : nat) (v : pyval) : io (option string) :=
  match bind_text position v with
  | Ok c => ret c
  | Raise e => raise e
  end.

(** The SET clause of the UPDATE in [extract_diet]. *)
Definition set_extracted (r : appointment_row) (height weight : string)
  (growth diet toileting sleep development social concerns
   diet_r toileting_r sleep_r development_r social_r concerns_r
   : option string) : appointment_row :=
  {| a_id := a_id r;
     a_user_id := a_user_id r;
     a_date := a_date r;
     a_time := a_time r;
     a_age_years := a_age_years r;
     a_height := height;
     a_weight := weight;
     a_concerns := a_concerns r;
     a_diet_info := diet;
     a_created_at := a_created_at r;
     a_toileting_info := toileting;
     a_sleep_info := sleep;
     a_development_behavior_info := development;
     a_social_info := social;
     a_extracted_concerns := concerns;
     a_diet_recommendations := diet_r;
     a_toileting_recommendations := toileting_r;
     a_sleep_recommendations := sleep_r;
     a_development_behavior_recommendations := development_r;
     a_social_recommendations := social_r;
     a_concerns_recommendations := concerns_r;
     a_growth_percentile_info := growth |}.

Definition has_appointment (d : database) (id : Z) : bool :=
  existsb (fun r => a_id r =? id) (appointments d).

(** [conn.execute('UPDATE appointments SET .. WHERE id = ?', params)] followed
    by [commit].  The sixteen parameters are bound in their order, the first
    one that cannot be bound raises; the NOT NULL columns are checked on the
    rows that match. *)
Definition update_appointment
  (extracted_height extracted_weight growth_percentile_info diet toileting
   sleep development_behavior social concerns diet_r toileting_r sleep_r
   development_behavior_r social_r concerns_r : pyval) (appointment_id : Z)
  : io unit :=
  height <- bind_param 1 extracted_height ;;
  weight <- bind_param 2 extracted_weight ;;
  growth <- bind_param 3 growth_percentile_info ;;
  c_diet <- bind_param 4 diet ;;
  c_toileting <- bind_param 5 toileting ;;
  c_sleep <- bind_param 6 sleep ;;
  c_development <- bind_param 7 development_behavior ;;
  c_social <- bind_param 8 social ;;
  c_concerns <- bind_param 9 concerns ;;
  c_diet_r <- bind_param 10 diet_r ;;
  c_toileting_r <- bind_param 11 toileting_r ;;
  c_sleep_r <- bind_param 12 sleep_r ;;
  c_development_r <- bind_param 13 development_behavior_r ;;
  c_social_r <- bind_param 14 social_r ;;
  c_concerns_r <- bind_param 15 concerns_r ;;
  _ <- bind_param 16 (PInt appointment_id) ;;
  d <- get_db ;;
  if has_appointment d appointment_id then
    match height, weight with
    | None, _ =>
        raise (IntegrityError
                 "NOT NULL constraint failed: appointments.height")
    | Some _, None =>
        raise (IntegrityError
                 "NOT NULL constraint failed: appointments.weight")
    | Some h, Some w =>
        put_db
          (mk_db (users d) (users_seq d)
             (map (fun r =>
                     if a_id r =? appointment_id
                     then set_extracted r h w growth c_diet c_toileting
                            c_sleep c_development c_social c_concerns
                            c_diet_r c_toileting_r c_sleep_r c_development_r
                            c_social_r c_concerns_r
                     else r)
                  (appointments d))
             (appointments_seq d))
    end
  else ret tt.

Definition extraction_request (conversation_history : list message)
  : request :=
  let conversation_text :=
    String.concat PyStr.nl
      (map (fun msg => m_role msg ++ ": " ++ py_str (py_repr rt) (m_content msg))
           conversation_history) in
  let extraction_prompt :=
    extraction_preamble rt ++ conversation_text ++ PyStr.nl ++ PyStr.nl
    ++ "Extract the information in JSON format:" in
  mk_request "gpt-4o-mini" [mk_message "user" (PStr extraction_prompt)]
    3 2000 (Some "json_object").

Definition growth_request (extracted_height extracted_weight : pyval)
  (patient_age : Z) (patient_gender : string) : request :=
  let growth_prompt :=
    "with a " ++ py_str (py_repr rt) extracted_height ++ ", "
    ++ py_str (py_repr rt) extracted_weight ++ ", "
    ++ PyStr.of_int patient_age ++ " year old " ++ patient_gender
    ++ " can you tell me the BMI, BMI Percentile, Height Percentile, and Weight Percentile. use pediatric growth charts from CDC. ONLY give me name: answer." in
  mk_request "gpt-4o-mini" [mk_message "user" (PStr growth_prompt)]
    3 200 None.

(** The condition in front of the growth-percentile call:
    [extracted_height != 'N/A' and extracted_weight != 'N/A' and patient_age
    and patient_gender]. *)
Definition growth_wanted (extracted_height extracted_weight : pyval)
  (patient_age : Z) (patient_gender : option string) : bool :=
  ne_str extracted_height "N/A" && ne_str extracted_weight "N/A"
  && negb (patient_age =? 0)
  && match patient_gender with
     | Some g => PyStr.nonempty g
     | None => false
     end.

(** The growth-percentile step of [extract_diet]: the guarded call with an
    [except] branch of its own. *)
Definition growth_percentiles (extracted_height extracted_weight : pyval)
  (patient_age : Z) (patient_gender : option string) : io string :=
  if growth_wanted extracted_height extracted_weight patient_age
       patient_gender
  then
    try_except
      (growth_response <-
         create (growth_request extracted_height extracted_weight patient_age
                   (match patient_gender with Some g => g | None => "" end)) ;;
       first_content_stripped growth_response)
      any_exception
      (fun _ => ret "N/A")
  else ret "N/A".

(** The [try] block of [extract_diet]. *)
Definition extract_diet_body (appointment_data : appointment_data)
  (conversation_history : list message) : io response :=
  response <- create (extraction_request conversation_history) ;;
  extracted_data <- first_content_stripped response ;;
  data <- loads extracted_data ;;
  let patient_age := ad_age_years appointment_data in
  let patient_gender := ad_gender appointment_data in
  extracted_height <- data_get data "height" (PStr "N/A") ;;
  extracted_weight <- data_get data "weight" (PStr "N/A") ;;
  growth_percentile_info <-
    growth_percentiles extracted_height extracted_weight patient_age
      patient_gender ;;
  diet <- data_get data "diet" (PStr "") ;;
  toileting <- data_get data "toileting" (PStr "") ;;
  sleep <- data_get data "sleep" (PStr "") ;;
  development_behavior <- data_get data "development_behavior" (PStr "") ;;
  social <- data_get data "social" (PStr "") ;;
  concerns <- data_get data "concerns" (PStr "") ;;
  diet_r <- data_get data "diet_recommendations" (PStr "None") ;;
  toileting_r <- data_get data "toileting_recommendations" (PStr "None") ;;
  sleep_r <- data_get data "sleep_recommendations" (PStr "None") ;;
  development_behavior_r <-
    data_get data "development_behavior_recommendations" (PStr "None") ;;
  social_r <- data_get data "social_recommendations" (PStr "None") ;;
  concerns_r <- data_get data "concerns_recommendations" (PStr "None") ;;
  update_appointment
    extracted_height extracted_weight (PStr growth_percentile_info)
    diet toileting sleep development_behavior social concerns
    diet_r toileting_r sleep_r development_behavior_r social_r
    concerns_r (ad_id appointment_data) ;;;
  ret (Jsonify 200 [("success", PBool true); ("data", data)]).

(** [POST /extract-diet] *)
Definition extract_diet : io response :=
  s <- get_session ;;
  match s_appointment_data s with
  | None => ret (Jsonify 400 [("error", PStr "No active appointment")])
  | Some appointment_data =>
      let appointment_id := ad_id appointment_data in
      let conversation_history :=
        match s_conversation_history s with Some h => h | None => [] end in
      if (appointment_id =? 0)
         || match conversation_history with [] => true | _ => false end
      then ret (Jsonify 400 [("error", PStr "No conversation data available")])
      else
        try_except
          (extract_diet_body appointment_data conversation_history)
          any_exception
          (fun e => ret (Jsonify 500 [("error", PStr (str_exn rt e))]))
  end.

(** *** [conversation_page] *)

Inductive http_method : Type := GET | POST.

(** The two tests of the [except] branch on [error_msg]. *)
Definition mentions_rate_limit (error_msg : string) : bool :=
  PyStr.contains "rate_limit" (PyStr.lower error_msg)
  || PyStr.contains "429" error_msg.

Definition mentions_authentication (error_msg : string) : bool :=
  PyStr.contains "api key" (PyStr.lower error_msg)
  || PyStr.contains "authentication" (PyStr.lower error_msg).

Definition rate_limit_apology : string :=
  "I'm currently experiencing high demand. Please wait about 20 seconds and try again. Thank you for your patience!".

Definition authentication_apology : string :=
  "There was an authentication issue. Please contact support if this persists.".

Definition generic_apology : string :=
  "Sorry, I encountered an error processing your message. Please try again in a moment.".

(** The user-facing text chosen in the [except] branch. *)
Definition apology (error_msg : string) : string :=
  if mentions_rate_limit error_msg then rate_limit_apology
  else if mentions_authentication error_msg then authentication_apology
  else generic_apology.

Definition chat_request (appointment : appointment_data)
  (conversation_history : list message) (user_message : pyval) : request :=
  let system_prompt :=
    pediatrician_prompt rt (ad_patient_name appointment)
      (ad_age_years appointment) (ad_height appointment)
      (ad_weight appointment) in
  mk_request "gpt-4o-mini"
    ([mk_message "system" (PStr system_prompt)]
     ++ conversation_history
     ++ [mk_message "user" user_message])
    7 500 None.

(** The transcript a handler works on: [session.get('conversation_history',
    [])]. *)
Definition transcript (s : session) : list message :=
  match s_conversation_history s with Some h => h | None => [] end.

Definition set_conversation_history (s : session) (h : list message)
  : session :=
  mk_session (s_permanent s) (s_user_id s) (s_username s) (s_name s)
    (s_role s) (s_admin_group s) (s_patient_group s) (s_appointment_data s)
    (Some h).

(** The [try] block of a chat turn. *)
Definition chat_turn (s : session) (appointment : appointment_data)
  (user_message : pyval) : io response :=
  let conversation_history := transcript s in
  response <- create (chat_request appointment conversation_history
                        user_message) ;;
  match response with
  | [] => raise (Exception "OpenAI API returned an empty response")
  | None :: _ | Some EmptyString :: _ =>
      raise (Exception "OpenAI API returned a message with no content")
  | Some assistant_message :: _ =>
      put_session
        (set_conversation_history s
           (conversation_history
            ++ [mk_message "user" user_message;
                mk_message "assistant" (PStr assistant_message)])) ;;;
      ret (Jsonify 200 [("message", PStr assistant_message)])
  end.

(** [GET, POST /conversation]; [body] is [request.json].  Every entry of
    the transcript has a role and a content, so the handler's filter on the
    history keeps all of them. *)
Definition conversation_page (method : http_method) (body : pyval)
  : io response :=
  s <- get_session ;;
  match s_appointment_data s with
  | None => ret (Redirect "appointment_page")
  | Some appointment =>
      match method with
      | POST =>
          user_message <- data_get body "message" (PStr "") ;;
          if negb (truthy user_message)
          then ret (Jsonify 400 [("error", PStr "No message provided")])
          else
            try_except
              (chat_turn s appointment user_message)
              any_exception
              (fun e =>
                 let error_msg := str_exn rt e in
                 ret (Jsonify 500 [("error", PStr error_msg);
                                   ("message", PStr (apology error_msg))]))
      | GET => ret (Render "conversation.html" (ConversationContext appointment))
      end
  end.

(** *** Ages *)

(** [(a, b) < (c, d)] on pairs of integers. *)
Definition pair_lt (a b c d : Z) : bool :=
  (a <? c) || ((a =? c) && (b <? d)).

(** [today.year - dob.year - ((today.month, today.day) < (dob.month,
    dob.day))], the expression of [signup] and of [appointment_page]. *)
Definition age_on (today dob : date) : Z :=
  year today - year dob
  - (if pair_lt (month today) (day today) (month dob) (day dob)
     then 1 else 0).

(** [datetime.strptime(s, "%Y-%m-%d").date()] *)
Definition strptime (s : option string) : io date :=
  match s with
  | None => raise (TypeError "strptime() argument 1 must be str, not None")
  | Some s' =>
      match strptime_ymd rt s' with
      | inl msg => raise (ValueError msg)
      | inr d => ret d
      end
  end.

(** *** [signup] *)

Definition form_get (form : string -> option string) (key default : string)
  : string :=
  match form key with Some v => v | None => default end.

(** SQLite's LOWER: the letters A to Z only. *)
Definition sql_lower_char (c : ascii) : ascii :=
  let n := Z.of_nat (nat_of_ascii c) in
  if (65 <=? n) && (n <=? 90) then ascii_of_nat (nat_of_ascii c + 32) else c.

Fixpoint sql_lower (s : string) : string :=
  match s with
  | String c t => String (sql_lower_char c) (sql_lower t)
  | EmptyString => EmptyString
  end.

(** [SELECT * FROM users WHERE LOWER(username) = LOWER(?)], [fetchone] *)
Definition find_user_nocase (d : database) (username : string)
  : option user_row :=
  find (fun u => String.eqb (sql_lower (u_username u)) (sql_lower username))
       (users d).

(** [SELECT * FROM users WHERE username = ?], [fetchone] *)
Definition find_user_by_username (d : database) (username : string)
  : option user_row :=
  find (fun u => String.eqb (u_username u) username) (users d).

(** [SELECT .. FROM users WHERE id = ?], [fetchone] *)
Definition find_user (d : database) (id : Z) : option user_row :=
  find (fun u => u_id u =? id) (users d).

(** The INSERT of [signup] followed by [commit]; [username] is UNIQUE. *)
Definition insert_user (clk : clock)
  (username password_hash role : string)
  (admin_group patient_group : option string)
  (name date_of_birth gender : string) : io unit :=
  d <- get_db ;;
  if existsb (fun u => String.eqb (u_username u) username) (users d)
  then raise (IntegrityError "UNIQUE constraint failed: users.username")
  else
    put_db
      (mk_db
         (users d
          ++ [mk_user (users_seq d + 1) username password_hash role
                admin_group patient_group (Some name)
                (current_timestamp clk) (Some date_of_birth) (Some gender)])
         (users_seq d + 1) (appointments d) (appointments_seq d)).

(** The auto-login at the end of [signup]. *)
Definition log_in (s : session) (user : user_row) : session :=
  mk_session true (Some (u_id user)) (Some (u_username user)) (u_name user)
    (Some (u_role user)) (u_admin_group user) (u_patient_group user)
    (s_appointment_data s) (s_conversation_history s).

Definition signup_error (msg : string) : response :=
  Render "signup.html" (ErrorContext msg).

(** [GET, POST /signup]; [form] is [request.form.get]. *)
Definition signup (method : http_method) (form : string -> option string)
  (clk : clock) : io response :=
  match method with
  | GET => ret (Render "signup.html" NoContext)
  | POST =>
      let first_name := PyStr.strip (form_get form "first_name" "") in
      let last_name := PyStr.strip (form_get form "last_name" "") in
      let admin_group := PyStr.strip (form_get form "admin_group" "") in
      let patient_group := PyStr.strip (form_get form "patient_group" "") in
      let date_of_birth := PyStr.strip (form_get form "date_of_birth" "") in
      let gender := PyStr.strip (form_get form "gender" "") in
      let full_name := PyStr.strip (first_name ++ " " ++ last_name) in
      match form "username", form "password", form "role" with
      | Some username, Some password, Some role =>
          if negb (PyStr.nonempty first_name) || negb (PyStr.nonempty last_name)
             || negb (PyStr.nonempty username)
             || negb (PyStr.nonempty password) || negb (PyStr.nonempty role)
             || negb (PyStr.nonempty date_of_birth)
             || negb (PyStr.nonempty gender)
          then ret (signup_error "Please fill in all required fields")
          else if negb (String.eqb gender "male" || String.eqb gender "female")
          then ret (signup_error "Please select a valid gender")
          else
            rejected <-
              try_except
                (dob <- strptime (Some date_of_birth) ;;
                 let age := age_on (today clk) dob in
                 if age <? 0
                 then ret (Some (signup_error
                                   "Date of birth cannot be in the future"))
                 else if String.eqb role "patient" && (18 <? age)
                 then ret (Some (signup_error
                                   "This service is only for pediatric appointments (18 years and under). Please contact your healthcare provider for adult services."))
                 else ret None)
                is_value_error
                (fun _ =>
                   ret (Some (signup_error
                                "Please enter a valid date of birth"))) ;;
            match rejected with
            | Some r => ret r
            | None =>
                if String.eqb role "admin" && negb (PyStr.nonempty admin_group)
                then ret (signup_error
                            "Please enter the name of the group you are admining")
                else
                  d <- get_db ;;
                  match find_user_nocase d username with
                  | Some _ =>
                      ret (signup_error
                             "Username already exists. Please choose a different username.")
                  | None =>
                      let password_hash := generate_password_hash rt password in
                      try_except
                        (insert_user clk username password_hash role
                           (if String.eqb role "admin"
                            then Some admin_group else None)
                           (if String.eqb role "patient"
                            then Some patient_group else None)
                           full_name date_of_birth gender ;;;
                         d' <- get_db ;;
                         match find_user_by_username d' username with
                         | None =>
                             raise (TypeError
                                      "'NoneType' object is not subscriptable")
                         | Some user =>
                             s <- get_session ;;
                             put_session (log_in s user) ;;;
                             ret (Redirect "main_page")
                         end)
                        is_sqlite_error
                        (fun e =>
                           if is_integrity_error e
                           then ret (signup_error
                                       "Username already exists. Please choose a different username.")
                           else ret (signup_error
                                       "An error occurred. Please try again."))
                  end
            end
      | _, _, _ => ret (signup_error "Please fill in all required fields")
      end
  end.

(** *** [appointment_page] *)

(** The INSERT of [appointment_page] followed by [commit]; the result is
    [cursor.lastrowid].  The columns it does not name are NULL. *)
Definition insert_appointment (clk : clock) (user_id : Z)
  (appointment_date appointment_time : string) (age_years : Z) : io Z :=
  d <- get_db ;;
  let id := appointments_seq d + 1 in
  put_db
    (mk_db (users d) (users_seq d)
       (appointments d
        ++ [mk_appointment id user_id appointment_date appointment_time
              age_years "N/A" "N/A" None None (current_timestamp clk)
              None None None None None None None None None None None None])
       id) ;;;
  ret id.

Definition start_appointment (s : session) (a : appointment_data) : session :=
  mk_session (s_permanent s) (s_user_id s) (s_username s) (s_name s)
    (s_role s) (s_admin_group s) (s_patient_group s) (Some a) (Some []).

(** [GET /appointment] *)
Definition appointment_page (clk : clock) : io response :=
  try_except
    (s <- get_session ;;
     match s_user_id s with
     | None => ret (Redirect "login")
     | Some user_id =>
         if user_id =? 0 then ret (Redirect "login")
         else
           let appointment_date := now_date clk in
           let appointment_time := now_time clk in
           d <- get_db ;;
           match find_user d user_id with
           | None =>
               flash "User not found. Please log in again." "error" ;;;
               ret (Redirect "login")
           | Some user =>
               let patient_name :=
                 match u_name user with
                 | Some n => if PyStr.nonempty n then n else u_username user
                 | None => u_username user
                 end in
               let gender := u_gender user in
               dob <- strptime (u_date_of_birth user) ;;
               let age_years := age_on (today clk) dob in
               created <-
                 try_except
                   (appointment_id <-
                      insert_appointment clk user_id appointment_date
                        appointment_time age_years ;;
                    ret (inr appointment_id))
                   is_sqlite_error
                   (fun e =>
                      flash ("Error creating appointment: " ++ str_exn rt e
                             ++ ". Please try again.") "error" ;;;
                      ret (inl (Redirect "main_page"))) ;;
               match created with
               | inl r => ret r
               | inr appointment_id =>
                   s' <- get_session ;;
                   put_session
                     (start_appointment s'
                        (mk_appointment_data appointment_id appointment_date
                           appointment_time age_years "N/A" "N/A"
                           patient_name gender)) ;;;
                   ret (Redirect "conversation_page")
               end
           end
     end)
    any_exception
    (fun e =>
       flash ("An error occurred: " ++ str_exn rt e ++ ". Please try again.")
         "error" ;;;
       ret (Redirect "main_page")).

(** *** [reports_page] *)

(** [a] comes no later than [b] under ORDER BY date DESC, time DESC; TEXT
    columns compare character by character. *)
Definition newer_or_same (a b : appointment_row) : bool :=
  String.ltb (a_date b) (a_date a)
  || (String.eqb (a_date a) (a_date b) && String.leb (a_time b) (a_time a)).

Fixpoint insert_by_date (a : appointment_row) (l : list appointment_row)
  : list appointment_row :=
  match l with
  | [] => [a]
  | b :: l' => if newer_or_same a b then a :: l else b :: insert_by_date a l'
  end.

(** The rows in the order of the query; rows with the same date and time
    keep their table order. *)
Definition order_by_date_time_desc (l : list appointment_row)
  : list appointment_row :=
  fold_right insert_by_date [] l.

(** [SELECT * FROM appointments WHERE user_id = ? ORDER BY date DESC,
    time DESC], [fetchall] *)
Definition appointments_of (d : database) (user_id : Z)
  : list appointment_row :=
  order_by_date_time_desc
    (filter (fun a => a_user_id a =? user_id) (appointments d)).

(** [x != y] on values that are a string or [None]. *)
Definition opt_str_ne (x y : option string) : bool :=
  match x, y with
  | Some a, Some b => negb (String.eqb a b)
  | None, None => false
  | _, _ => true
  end.

(** [SELECT .. FROM users WHERE id = ?] with an id taken from the URL: the
    converter yields any number that is not negative, and sqlite3 raises
    OverflowError for an [int] beyond 64 bits. *)
Definition select_user (d : database) (id : Z) : io (option user_row) :=
  if fits_int64 id then ret (find_user d id) else raise OverflowError.

(** [GET /reports] and [GET /reports/<int:view_user_id>]; the converter
    yields a number that is not negative.  The handler has no [try]: what
    the first SELECT raises leaves it unhandled. *)
Definition reports_page (view_user_id : option Z) : io response :=
  s <- get_session ;;
  match s_user_id s with
  | None =>
      flash "Please log in to view your reports." "error" ;;;
      ret (Redirect "login")
  | Some current_user_id =>
      let current_user_role := s_role s in
      d <- get_db ;;
      let own := ret (inr (current_user_id, false)) in
      selected <-
        match view_user_id with
        | Some v =>
            if negb (v =? 0) then
              if opt_str_ne current_user_role (Some "admin")
              then
                flash "Access denied. Admin access required." "error" ;;;
                ret (inl (Redirect "reports_page"))
              else
                target_user <- select_user d v ;;
                let admin_group := s_admin_group s in
                match target_user with
                | Some t =>
                    if opt_str_ne (u_patient_group t) admin_group
                    then
                      flash "Access denied. User not in your admin group."
                        "error" ;;;
                      ret (inl (Redirect "people_page"))
                    else ret (inr (v, true))
                | None =>
                    flash "Access denied. User not in your admin group."
                      "error" ;;;
                    ret (inl (Redirect "people_page"))
                end
            else own
        | None => own
        end ;;
      match selected with
      | inl r => ret r
      | inr (user_id, viewing_other_user) =>
          let appointments := appointments_of d user_id in
          let user_info :=
            if viewing_other_user
            then option_map (fun u => (u_name u, u_username u))
                   (find_user d user_id)
            else None in
          ret (Render "reports.html"
                 (ReportsContext appointments viewing_other_user user_info))
      end
  end.

End Handlers.

(** * The account pages

    [login], [logout], [people_page], [account_page] and [edit_profile],
    with the two landing pages.  [check_password_hash] is werkzeug's. *)

(** [session.clear()]: no key is left, the permanent flag included. *)
Definition session_clear : session :=
  mk_session false None None None None None None None None.

(** The columns [people_page] selects of a user. *)
Record person : Type := mk_person {
  p_id : Z;
  p_username : string;
  p_name : option string;
  p_role : string;
  p_date_of_birth : option string;
  p_gender : option string;
  p_created_at : string;
  p_patient_group : option string
}.

(** What the account pages answer: a response as before, or one of their
    templates with the rows it is given. *)
Inductive page : Type :=
| Plain (r : response)
| PeoplePage (users : list person)              (* people.html *)
| AccountPage (user : user_row)                 (* account.html *)
              (group_members : list (string * option string))
              (group_admin : option (string * option string))
| EditProfilePage (user : user_row) (error : option string).
                                                (* edit_profile.html *)

(** Insertion into a list that is in the order [before]. *)
Fixpoint insert_in_order {A : Type} (before : A -> A -> bool) (a : A)
  (l : list A) : list A :=
  match l with
  | [] => [a]
  | b :: l' =>
      if before a b then a :: l else b :: insert_in_order before a l'
  end.

(** The rows of a query in the order of its ORDER BY; rows that compare
    equal keep their table order. *)
Definition order_by {A : Type} (before : A -> A -> bool) (l : list A)
  : list A :=
  fold_right (insert_in_order before) [] l.

(** [column = ?] in a WHERE clause, for a parameter that is a string: NULL
    equals nothing. *)
Definition sql_eq (cell : option string) (param : string) : bool :=
  match cell with
  | Some s => String.eqb s param
  | None => false
  end.

(** [bool(v)] for a cell that is a string or [None]. *)
Definition cell_truthy (cell : option string) : bool :=
  match cell with
  | Some s => PyStr.nonempty s
  | None => false
  end.

Definition person_of (u : user_row) : person :=
  mk_person (u_id u) (u_username u) (u_name u) (u_role u)
    (u_date_of_birth u) (u_gender u) (u_created_at u) (u_patient_group u).

(** [GET /]. *)
Definition cover_page : io response := ret (Redirect "main_page").

(** [GET /main]. *)
Definition main_page : io response := ret (Render "main.html" NoContext).

(** [SELECT id, username, .. FROM users WHERE patient_group = ? ORDER BY
    created_at DESC], [fetchall] *)
Definition people_of (d : database) (admin_group : string) : list person :=
  order_by (fun a b => String.leb (p_created_at b) (p_created_at a))
    (map person_of
       (filter (fun u => sql_eq (u_patient_group u) admin_group) (users d))).

(** [GET /people] *)
Definition people_page : io page :=
  s <- get_session ;;
  match s_user_id s with
  | None =>
      flash "Please log in to view this page." "error" ;;;
      ret (Plain (Redirect "login"))
  | Some _ =>
      if opt_str_ne (s_role s) (Some "admin")
      then
        flash "Access denied. Admin access required." "error" ;;;
        ret (Plain (Redirect "main_page"))
      else
        match s_admin_group s with
        | Some (String c t) =>
            let admin_group := String c t in
            d <- get_db ;;
            ret (PeoplePage (people_of d admin_group))
        | _ =>
            flash "No admin group assigned. Please contact support." "error" ;;;
            ret (Plain (Redirect "main_page"))
        end
  end.

(** [GET /account] *)
Definition account_page : io page :=
  s <- get_session ;;
  match s_user_id s with
  | None => ret (Plain (Redirect "cover_page"))
  | Some user_id =>
      d <- get_db ;;
      match find_user d user_id with
      | None =>
          put_session session_clear ;;;
          ret (Plain (Redirect "cover_page"))
      | Some user =>
          if String.eqb (u_role user) "admin"
             && cell_truthy (u_admin_group user)
          then
            let admin_group :=
              match u_admin_group user with Some g => g | None => "" end in
            let group_members :=
              map (fun u => (u_username u, u_name u))
                (filter (fun u => sql_eq (u_patient_group u) admin_group
                                  && String.eqb (u_role u) "patient")
                   (users d)) in
            ret (AccountPage user group_members None)
          else if String.eqb (u_role user) "patient"
                  && cell_truthy (u_patient_group user)
          then
            let patient_group :=
              match u_patient_group user with Some g => g | None => "" end in
            let admin :=
              find (fun u => sql_eq (u_admin_group u) patient_group
                             && String.eqb (u_role u) "admin")
                (users d) in
            ret (AccountPage user []
                   (option_map (fun u => (u_username u, u_name u)) admin))
          else ret (AccountPage user [] None)
      end
  end.

(** [session['username'] = v] *)
Definition set_session_username (s : session) (v : string) : session :=
  mk_session (s_permanent s) (s_user_id s) (Some v) (s_name s) (s_role s)
    (s_admin_group s) (s_patient_group s) (s_appointment_data s)
    (s_conversation_history s).

(** [session['name'] = v] *)
Definition set_session_name (s : session) (v : option string) : session :=
  mk_session (s_permanent s) (s_user_id s) (s_username s) v (s_role s)
    (s_admin_group s) (s_patient_group s) (s_appointment_data s)
    (s_conversation_history s).

Definition with_username (u : user_row) (v : string) : user_row :=
  mk_user (u_id u) v (u_password_hash u) (u_role u) (u_admin_group u)
    (u_patient_group u) (u_name u) (u_created_at u) (u_date_of_birth u)
    (u_gender u).

Definition with_password_hash (u : user_row) (v : string) : user_row :=
  mk_user (u_id u) (u_username u) v (u_role u) (u_admin_group u)
    (u_patient_group u) (u_name u) (u_created_at u) (u_date_of_birth u)
    (u_gender u).

Definition with_name (u : user_row) (v : option string) : user_row :=
  mk_user (u_id u) (u_username u) (u_password_hash u) (u_role u)
    (u_admin_group u) (u_patient_group u) v (u_created_at u)
    (u_date_of_birth u) (u_gender u).

(** [UPDATE users SET .. WHERE id = ?] with the SET clause [change]. *)
Definition update_users (change : user_row -> user_row) (id : Z) : io unit :=
  d <- get_db ;;
  put_db (mk_db (map (fun u => if u_id u =? id then change u else u)
                   (users d))
            (users_seq d) (appointments d) (appointments_seq d)).

(** [UPDATE users SET username = ? WHERE id = ?]: the column is UNIQUE, so
    the statement fails when another row holds that username. *)
Definition update_username (username : string) (id : Z) : io unit :=
  d <- get_db ;;
  if existsb (fun u => String.eqb (u_username u) username
                       && negb (u_id u =? id))
       (users d)
     && existsb (fun u => u_id u =? id) (users d)
  then raise (IntegrityError "UNIQUE constraint failed: users.username")
  else update_users (fun u => with_username u username) id.

Section Accounts.

Variable rt : Runtime.

(** werkzeug's [check_password_hash(pwhash, password)] *)
Variable check_password_hash : string -> string -> bool.

(** [GET, POST /login] *)
Definition login (method : http_method) (form : string -> option string)
  : io response :=
  match method with
  | POST =>
      match form "username", form "password" with
      | Some (String c t), Some (String c' t') =>
          let username := String c t in
          let password := String c' t' in
          d <- get_db ;;
          match find_user_nocase d username with
          | Some user =>
              if check_password_hash (u_password_hash user) password
              then
                s <- get_session ;;
                put_session (log_in s user) ;;;
                ret (Redirect "main_page")
              else
                flash "Invalid username or password" "error" ;;;
                ret (Render "login.html" NoContext)
          | None =>
              flash "Invalid username or password" "error" ;;;
              ret (Render "login.html" NoContext)
          end
      | _, _ =>
          flash "Please provide both username and password" "error" ;;;
          ret (Render "login.html" NoContext)
      end
  | GET => ret (Render "login.html" NoContext)
  end.

(** [GET /logout] *)
Definition logout : io response :=
  put_session session_clear ;;;
  ret (Redirect "cover_page").

(** [GET, POST /edit-profile].  The statements of a POST run in one
    transaction; the only one that can fail is the first, so a failure
    leaves the table as it was. *)
Definition edit_profile (method : http_method)
  (form : string -> option string) : io page :=
  s <- get_session ;;
  match s_user_id s with
  | None => ret (Plain (Redirect "cover_page"))
  | Some user_id =>
      d <- get_db ;;
      match find_user d user_id with
      | None =>
          put_session session_clear ;;;
          ret (Plain (Redirect "cover_page"))
      | Some user =>
          match method with
          | POST =>
              let new_username := PyStr.strip (form_get form "username" "") in
              let new_password := PyStr.strip (form_get form "password" "") in
              let new_name := PyStr.strip (form_get form "name" "") in
              if negb (PyStr.nonempty new_username)
              then ret (EditProfilePage user (Some "Username is required."))
              else if negb (String.eqb (PyStr.lower new_username)
                              (PyStr.lower (u_username user)))
                      && existsb
                           (fun u =>
                              String.eqb (sql_lower (u_username u))
                                (sql_lower new_username)
                              && negb (u_id u =? u_id user))
                           (users d)
              then ret (EditProfilePage user
                          (Some "Username already exists. Please choose a different username."))
              else
                update_username new_username (u_id user) ;;;
                s1 <- get_session ;;
                put_session (set_session_username s1 new_username) ;;;
                (if PyStr.nonempty new_password
                 then update_users
                        (fun u => with_password_hash u
                                    (generate_password_hash rt new_password))
                        (u_id user)
                 else ret tt) ;;;
                let name_cell :=
                  if PyStr.nonempty new_name then Some new_name else None in
                update_users (fun u => with_name u name_cell) (u_id user) ;;;
                s2 <- get_session ;;
                put_session (set_session_name s2 name_cell) ;;;
                ret (Plain (Redirect "account_page"))
          | GET => ret (EditProfilePage user None)
          end
      end
  end.

End Accounts.

(** * The schema and [init_db]

    The statements of [init_db] act on the schema of the database file: for
    each table its columns, by name and declaration, and its table
    constraints.  A failing ALTER raises sqlite3.OperationalError, which
    [init_db] catches and passes over. *)

Module Schema.

Record column : Type := mk_column { c_name : string; c_decl : string }.

Record table : Type := mk_table {
  t_name : string;
  t_columns : list column;
  t_constraints : list string
}.

Definition schema : Type := list table.

(** SQLite compares the names of tables and columns without regard to the
    case of the letters A to Z. *)
Definition same_name (a b : string) : bool :=
  String.eqb (sql_lower a) (sql_lower b).

Definition lookup (s : schema) (name : string) : option table :=
  find (fun t => same_name (t_name t) name) s.

Definition has_column (t : table) (name : string) : bool :=
  existsb (fun c => same_name (c_name c) name) (t_columns t).

(** The table [tn] exists and has the column [cn]. *)
Definition table_has (s : schema) (tn cn : string) : bool :=
  match lookup s tn with
  | Some t => has_column t cn
  | None => false
  end.

(** [CREATE TABLE IF NOT EXISTS ..] *)
Definition create_table_if_not_exists (t : table) (s : schema) : schema :=
  match lookup s (t_name t) with
  | Some _ => s
  | None => (s ++ [t])%list
  end.

Definition on_table (tn : string) (change : table -> table) (s : schema)
  : schema :=
  map (fun t => if same_name (t_name t) tn then change t else t) s.

(** [ALTER TABLE tn ADD COLUMN ..]: the schema after it, or the message of
    the OperationalError. *)
Definition add_column (tn : string) (c : column) (s : schema)
  : string + schema :=
  match lookup s tn with
  | None => inl ("no such table: " ++ tn)
  | Some t =>
      if has_column t (c_name c)
      then inl ("duplicate column name: " ++ c_name c)
      else inr (on_table tn
                  (fun t' => mk_table (t_name t') (t_columns t' ++ [c])
                               (t_constraints t'))
                  s)
  end.

(** [ALTER TABLE tn RENAME COLUMN old TO new] *)
Definition rename_column (tn old new : string) (s : schema)
  : string + schema :=
  match lookup s tn with
  | None => inl ("no such table: " ++ tn)
  | Some t =>
      if negb (has_column t old) then inl ("no such column: " ++ old)
      else if negb (same_name old new) && has_column t new
      then inl ("duplicate column name: " ++ new)
      else inr (on_table tn
                  (fun t' =>
                     mk_table (t_name t')
                       (map (fun c => if same_name (c_name c) old
                                      then mk_column new (c_decl c) else c)
                          (t_columns t'))
                       (t_constraints t'))
                  s)
  end.

(** [try: statement except sqlite3.OperationalError: pass] *)
Definition attempt (statement : schema -> string + schema) (s : schema)
  : schema :=
  match statement s with
  | inr s' => s'
  | inl _ => s
  end.

Definition users_table : table :=
  mk_table "users"
    [ mk_column "id" "INTEGER PRIMARY KEY AUTOINCREMENT";
      mk_column "username" "TEXT UNIQUE NOT NULL";
      mk_column "password_hash" "TEXT NOT NULL";
      mk_column "role" "TEXT NOT NULL";
      mk_column "admin_group" "TEXT";
      mk_column "patient_group" "TEXT";
      mk_column "name" "TEXT";
      mk_column "created_at" "TIMESTAMP DEFAULT CURRENT_TIMESTAMP" ]
    [].

Definition appointments_table : table :=
  mk_table "appointments"
    [ mk_column "id" "INTEGER PRIMARY KEY AUTOINCREMENT";
      mk_column "user_id" "INTEGER NOT NULL";
      mk_column "date" "TEXT NOT NULL";
      mk_column "time" "TEXT NOT NULL";
      mk_column "age_years" "INTEGER NOT NULL";
      mk_column "height" "TEXT NOT NULL";
      mk_column "weight" "TEXT NOT NULL";
      mk_column "concerns" "TEXT";
      mk_column "diet_info" "TEXT";
      mk_column "created_at" "TIMESTAMP DEFAULT CURRENT_TIMESTAMP" ]
    [ "FOREIGN KEY (user_id) REFERENCES users(id) ON DELETE CASCADE" ].

(** [for column in names: try: ALTER TABLE tn ADD COLUMN {column} TEXT
    except OperationalError: pass] *)
Definition add_text_columns (tn : string) (names : list string) (s : schema)
  : schema :=
  fold_left (fun s' name => attempt (add_column tn (mk_column name "TEXT")) s')
    names s.

Definition section_columns : list string :=
  [ "toileting_info"; "sleep_info"; "development_behavior_info";
    "social_info"; "extracted_concerns" ].

Definition recommendation_columns : list string :=
  [ "diet_recommendations"; "toileting_recommendations";
    "sleep_recommendations"; "development_behavior_recommendations";
    "social_recommendations"; "concerns_recommendations" ].

(** The statements that the source indents under the [except] branch of the
    RENAME: they run when the RENAME fails. *)
Definition create_appointments (s : schema) : schema :=
  let s1 := create_table_if_not_exists appointments_table s in
  let s2 := attempt (add_column "appointments" (mk_column "diet_info" "TEXT"))
              s1 in
  let s3 := add_text_columns "appointments" section_columns s2 in
  let s4 := add_text_columns "appointments" recommendation_columns s3 in
  attempt (add_column "appointments"
             (mk_column "growth_percentile_info" "TEXT")) s4.

(** [init_db] *)
Definition init_db (s : schema) : schema :=
  let s1 := create_table_if_not_exists users_table s in
  let s2 := attempt (add_column "users" (mk_column "name" "TEXT")) s1 in
  let s3 := attempt (add_column "users" (mk_column "date_of_birth" "TEXT"))
              s2 in
  let s4 := attempt (add_column "users" (mk_column "gender" "TEXT")) s3 in
  match rename_column "users" "sex_assigned_at_birth" "gender" s4 with
  | inr s5 => s5
  | inl _ => create_appointments s4
  end.

(** The columns the handlers rely on that [init_db] adds when they are
    missing. *)
Definition migrated_columns : list (string * string) :=
  [ ("users", "name"); ("users", "date_of_birth"); ("users", "gender");
    ("appointments", "diet_info"); ("appointments", "toileting_info");
    ("appointments", "sleep_info");
    ("appointments", "development_behavior_info");
    ("appointments", "social_info"); ("appointments", "extracted_concerns");
    ("appointments", "diet_recommendations");
    ("appointments", "toileting_recommendations");
    ("appointments", "sleep_recommendations");
    ("appointments", "development_behavior_recommendations");
    ("appointments", "social_recommendations");
    ("appointments", "concerns_recommendations");
    ("appointments", "growth_percentile_info") ].

(** A schema from before the gender column: the users table still has
    [sex_assigned_at_birth]. *)
Definition legacy_schema : schema :=
  [ mk_table "users"
      [ mk_column "id" "INTEGER PRIMARY KEY AUTOINCREMENT";
        mk_column "username" "TEXT UNIQUE NOT NULL";
        mk_column "password_hash" "TEXT NOT NULL";
        mk_column "role" "TEXT NOT NULL";
        mk_column "sex_assigned_at_birth" "TEXT" ]
      [] ].

End Schema.

(** * Vocabulary of the properties *)

(** The world after a request [rq] has been sent. *)
Definition sent (w : world) (rq : request) : world :=
  mk_world (w_db w) (w_session w) (w_flashes w) (w_calls w ++ [rq]).

(** The session holds an appointment and a transcript to extract from: the
    two guards in front of the [try] block of [extract_diet] pass. *)
Definition extraction_ready (s : session) (a : appointment_data) : Prop :=
  s_appointment_data s = Some a /\ ad_id a <> 0 /\ transcript s <> [].

(** A chat turn fails with the detail [e]: the completion call raises
    with that text, or it returns no choice, or a first choice whose content
    is absent or empty. *)
Inductive turn_fails (rt : Runtime) (rq : request) : string -> Prop :=
| fails_raising msg :
    chat_completions_create rt rq = inl msg -> turn_fails rt rq msg
| fails_without_choice :
    chat_completions_create rt rq = inr [] ->
    turn_fails rt rq "OpenAI API returned an empty response"
| fails_without_content others :
    chat_completions_create rt rq = inr (None :: others) ->
    turn_fails rt rq "OpenAI API returned a message with no content"
| fails_with_empty_content others :
    chat_completions_create rt rq = inr (Some EmptyString :: others) ->
    turn_fails rt rq "OpenAI API returned a message with no content".

(** [needle] occurs in [hay]. *)
Definition occurs (needle hay : string) : Prop :=
  exists before after, hay = before ++ needle ++ after.

(** [needle], which has no capital letter, occurs in [hay] in some mix of
    upper and lower case. *)
Definition occurs_nocase (needle hay : string) : Prop :=
  exists before word after,
    hay = before ++ word ++ after /\ PyStr.lower word = needle.

(** The classes of a failure, read off its text. *)
Definition indicates_rate_limit (detail : string) : Prop :=
  occurs "429" detail \/ occurs_nocase "rate_limit" detail.

Definition indicates_authentication (detail : string) : Prop :=
  occurs_nocase "api key" detail \/ occurs_nocase "authentication" detail.


(** The request of the growth-percentile step for a payload [d] and the
    appointment [a] of the session. *)
Definition growth_request_for (rt : Runtime) (a : appointment_data)
  (d : dict) : request :=
  growth_request rt (dict_get d "height" (PStr "N/A"))
    (dict_get d "weight" (PStr "N/A")) (ad_age_years a)
    (match ad_gender a with Some g => g | None => "" end).

Definition growth_wanted_for (a : appointment_data) (d : dict) : bool :=
  growth_wanted (dict_get d "height" (PStr "N/A"))
    (dict_get d "weight" (PStr "N/A")) (ad_age_years a) (ad_gender a).

(** The growth-percentile call does not deliver: the client raises, or
    reading the first choice's content raises. *)
Definition growth_call_raises (rt : Runtime) (rq : request) : Prop :=
  match chat_completions_create rt rq with
  | inl _ | inr [] | inr (None :: _) => True
  | inr (Some _ :: _) => False
  end.

(** What a TEXT column holds for a bound value. *)
Definition text_cell (rt : Runtime) (v : pyval) : option string :=
  match bind_text rt 0 v with Ok c => c | Raise _ => None end.

(** The UPDATE of [extract_diet] for the payload [d] and the growth text
    [info]. *)
Definition store_extraction (rt : Runtime) (d : dict) (info : string)
  (id : Z) : io unit :=
  update_appointment rt
    (dict_get d "height" (PStr "N/A")) (dict_get d "weight" (PStr "N/A"))
    (PStr info)
    (dict_get d "diet" (PStr "")) (dict_get d "toileting" (PStr ""))
    (dict_get d "sleep" (PStr ""))
    (dict_get d "development_behavior" (PStr ""))
    (dict_get d "social" (PStr "")) (dict_get d "concerns" (PStr ""))
    (dict_get d "diet_recommendations" (PStr "None"))
    (dict_get d "toileting_recommendations" (PStr "None"))
    (dict_get d "sleep_recommendations" (PStr "None"))
    (dict_get d "development_behavior_recommendations" (PStr "None"))
    (dict_get d "social_recommendations" (PStr "None"))
    (dict_get d "concerns_recommendations" (PStr "None"))
    id.

(** The twelve category columns: the key of the payload each is filled
    from, the default of that key, and the column. *)
Definition category_columns
  : list (string * string * (appointment_row -> option string)) :=
  [ ("diet", "", a_diet_info);
    ("toileting", "", a_toileting_info);
    ("sleep", "", a_sleep_info);
    ("development_behavior", "", a_development_behavior_info);
    ("social", "", a_social_info);
    ("concerns", "", a_extracted_concerns);
    ("diet_recommendations", "None", a_diet_recommendations);
    ("toileting_recommendations", "None", a_toileting_recommendations);
    ("sleep_recommendations", "None", a_sleep_recommendations);
    ("development_behavior_recommendations", "None",
     a_development_behavior_recommendations);
    ("social_recommendations", "None", a_social_recommendations);
    ("concerns_recommendations", "None", a_concerns_recommendations) ].

(** The rows of the appointments table with the given id. *)
Definition rows_with_id (d : database) (id : Z) : list appointment_row :=
  filter (fun r => a_id r =? id) (appointments d).

(** The text of a cell that is not NULL. *)
Definition cell_string (rt : Runtime) (v : pyval) : string :=
  match text_cell rt v with Some s => s | None => EmptyString end.

(** A row after the UPDATE of [extract_diet] for the payload [d]. *)
Definition extracted_row (rt : Runtime) (d : dict) (info : string)
  (r : appointment_row) : appointment_row :=
  set_extracted r
    (cell_string rt (dict_get d "height" (PStr "N/A")))
    (cell_string rt (dict_get d "weight" (PStr "N/A")))
    (Some info)
    (text_cell rt (dict_get d "diet" (PStr "")))
    (text_cell rt (dict_get d "toileting" (PStr "")))
    (text_cell rt (dict_get d "sleep" (PStr "")))
    (text_cell rt (dict_get d "development_behavior" (PStr "")))
    (text_cell rt (dict_get d "social" (PStr "")))
    (text_cell rt (dict_get d "concerns" (PStr "")))
    (text_cell rt (dict_get d "diet_recommendations" (PStr "None")))
    (text_cell rt (dict_get d "toileting_recommendations" (PStr "None")))
    (text_cell rt (dict_get d "sleep_recommendations" (PStr "None")))
    (text_cell rt
       (dict_get d "development_behavior_recommendations" (PStr "None")))
    (text_cell rt (dict_get d "social_recommendations" (PStr "None")))
    (text_cell rt (dict_get d "concerns_recommendations" (PStr "None"))).

(** The world after that UPDATE on the rows with the given id. *)
Definition stored_world (rt : Runtime) (d : dict) (info : string) (id : Z)
  (w : world) : world :=
  mk_world
    (mk_db (users (w_db w)) (users_seq (w_db w))
       (map (fun r => if a_id r =? id then extracted_row rt d info r else r)
          (appointments (w_db w)))
       (appointments_seq (w_db w)))
    (w_session w) (w_flashes w) (w_calls w).

(** sqlite3 can bind the value. *)
Definition bindable (v : pyval) : bool :=
  match v with
  | PList _ | PDict _ => false
  | PInt n => fits_int64 n
  | _ => true
  end.

(** The value is bound as something other than NULL. *)
Definition not_null (v : pyval) : bool :=
  match v with
  | PNone | PFloat S754_nan => false
  | _ => true
  end.

(** sqlite3 can bind the value of each of the twelve category keys. *)
Definition categories_bindable (d : dict) : bool :=
  forallb (fun c => bindable (dict_get d (fst (fst c)) (PStr (snd (fst c)))))
    category_columns.


(** [request.form.get(key, "").strip()] *)
Definition submitted (form : string -> option string) (key : string)
  : string :=
  PyStr.strip (form_get form key "").

(** The row the INSERT of [signup] adds to the table of [d]. *)
Definition new_user (rt : Runtime) (clk : clock)
  (form : string -> option string) (d : database)
  (username password role : string) : user_row :=
  mk_user (users_seq d + 1) username (generate_password_hash rt password) role
    (if String.eqb role "admin"
     then Some (submitted form "admin_group") else None)
    (if String.eqb role "patient"
     then Some (submitted form "patient_group") else None)
    (Some (PyStr.strip (submitted form "first_name" ++ " "
                        ++ submitted form "last_name")))
    (current_timestamp clk)
    (Some (submitted form "date_of_birth"))
    (Some (submitted form "gender")).

(** The world after a signup that went through: one more row, and the
    session logged in as the new user. *)
Definition signed_up (rt : Runtime) (clk : clock)
  (form : string -> option string) (username password role : string)
  (w : world) : world :=
  let u := new_user rt clk form (w_db w) username password role in
  mk_world
    (mk_db (users (w_db w) ++ [u]) (users_seq (w_db w) + 1)
       (appointments (w_db w)) (appointments_seq (w_db w)))
    (log_in (w_session w) u) (w_flashes w) (w_calls w).

(** A signup is accepted: the handler redirects to the main page and the
    new row is in the table. *)
Definition accepted (rt : Runtime) (clk : clock)
  (form : string -> option string) (w : world)
  (o : py_result response * world) : Prop :=
  exists username password role,
    form "username" = Some username
    /\ form "password" = Some password
    /\ form "role" = Some role
    /\ o = (Ok (Redirect "main_page"),
            signed_up rt clk form username password role w).

Definition pediatric_only : string :=
  "This service is only for pediatric appointments (18 years and under). Please contact your healthcare provider for adult services.".

Definition group_required : string :=
  "Please enter the name of the group you are admining".

(** The error texts of [signup]. *)
Definition signup_errors : list string :=
  [ "Please fill in all required fields";
    "Please select a valid gender";
    "Date of birth cannot be in the future";
    pediatric_only;
    "Please enter a valid date of birth";
    group_required;
    "Username already exists. Please choose a different username.";
    "An error occurred. Please try again." ].

(** A signup is rejected: the form is rendered again with one of the error
    texts, and the world is as it was. *)
Definition rejected (w : world) (o : py_result response * world) : Prop :=
  exists msg, In msg signup_errors /\ o = (Ok (signup_error msg), w).

(** A signup form whose fields are valid, the age limit and the admin group
    apart: the required fields are filled in, the gender is one of the two,
    the date of birth parses to [dob] and is not in a later year than today,
    and the username is free. *)
Record valid_signup (rt : Runtime) (clk : clock)
  (form : string -> option string) (d : database)
  (username password role : string) (dob : date) : Prop := {
  vs_username : form "username" = Some username;
  vs_password : form "password" = Some password;
  vs_role : form "role" = Some role;
  vs_first_name : submitted form "first_name" <> "";
  vs_last_name : submitted form "last_name" <> "";
  vs_username_filled : username <> "";
  vs_password_filled : password <> "";
  vs_role_filled : role <> "";
  vs_date_filled : submitted form "date_of_birth" <> "";
  vs_gender :
    submitted form "gender" = "male" \/ submitted form "gender" = "female";
  vs_date : strptime_ymd rt (submitted form "date_of_birth") = inr dob;
  vs_not_future : 0 <= age_on (today clk) dob;
  vs_username_free : find_user_nocase d username = None
}.

(** The world after [flash(msg, category)]. *)
Definition flashed (w : world) (msg category : string) : world :=
  mk_world (w_db w) (w_session w) (w_flashes w ++ [(msg, category)])
    (w_calls w).

(** The requester may see the reports of user [v]: logged in, with the
    role admin, and the patient group of [v] equal to the admin group of the
    session. *)
Definition access_granted (w : world) (v : Z) : Prop :=
  s_user_id (w_session w) <> None
  /\ s_role (w_session w) = Some "admin"
  /\ exists t, find_user (w_db w) v = Some t
               /\ u_patient_group t = s_admin_group (w_session w).

(** The refusals of [reports_page]: where it redirects to, and the text it
    flashes. *)
Definition denials : list (string * string) :=
  [ ("login", "Please log in to view your reports.");
    ("reports_page", "Access denied. Admin access required.");
    ("people_page", "Access denied. User not in your admin group.") ].

(** The same permission told by the table alone: the requester is logged
    in with the role admin, and a user row has the id [v] and a patient
    group equal to the admin group of the session. *)
Definition may_view (w : world) (v : Z) : Prop :=
  s_user_id (w_session w) <> None
  /\ s_role (w_session w) = Some "admin"
  /\ exists t, In t (users (w_db w)) /\ u_id t = v
               /\ u_patient_group t = s_admin_group (w_session w).

(** * A runtime to evaluate the handlers with

    The completion service answers the three kinds of request the handlers
    send (told apart by their response format and token limit) with the
    three given replies, and [json.loads] yields the given result. *)

Definition test_runtime (chat_reply extraction_reply growth_reply
                         : string + completion)
  (payload : string + pyval) (parse_date : string -> string + date)
  : Runtime :=
  {| chat_completions_create := fun rq =>
       match rq_response_format rq with
       | Some _ => extraction_reply
       | None => if rq_max_tokens rq =? 200 then growth_reply else chat_reply
       end;
     json_loads := fun _ => payload;
     py_repr := fun _ => "?";
     real_to_text := fun _ => "?";
     binding_error_text := fun _ _ => "Error binding parameter";
     generate_password_hash := fun p => "hash:" ++ p;
     strptime_ymd := parse_date;
     extraction_preamble := "Conversation:" ++ PyStr.nl;
     pediatrician_prompt := fun name _ _ _ => "Patient: " ++ name |}.

Definition no_date (s : string) : string + date := inl "no date".

Definition empty_db : database := mk_db [] 0 [] 0.

Definition anonymous : session :=
  mk_session false None None None None None None None None.

(** ** Sample data *)

Definition sample_history : list message :=
  [ mk_message "user" (PStr "My name is Bob, I'm her dad");
    mk_message "assistant" (PStr "Nice to meet you, Bob. How is your day going?") ].

(** An appointment of a seven-year-old and one of an infant. *)
Definition sample_appointment : appointment_data :=
  mk_appointment_data 1 "2024-06-15" "10:30" 7 "N/A" "N/A" "Alice"
    (Some "female").

Definition infant_appointment : appointment_data :=
  mk_appointment_data 1 "2024-06-15" "10:30" 0 "N/A" "N/A" "Alice"
    (Some "female").

Definition sample_user : user_row :=
  mk_user 1 "alice" "hash:secret" "patient" None (Some "clinic")
    (Some "Alice Doe") "2024-06-01 09:00:00" (Some "2017-03-02")
    (Some "female").

Definition sample_admin : user_row :=
  mk_user 2 "drbob" "hash:secret" "admin" (Some "clinic") None
    (Some "Bob Roe") "2024-05-01 09:00:00" (Some "1980-01-01")
    (Some "male").

Definition sample_row (age : Z) : appointment_row :=
  mk_appointment 1 1 "2024-06-15" "10:30" age "N/A" "N/A" None None
    "2024-06-15 10:30:00" None None None None None None None None None None
    None None.

Definition sample_db (age : Z) : database :=
  mk_db [sample_user; sample_admin] 2 [sample_row age] 1.

(** A patient in the middle of an appointment. *)
Definition sample_world (a : appointment_data) : world :=
  mk_world (sample_db (ad_age_years a))
    (mk_session true (Some 1) (Some "alice") (Some "Alice Doe")
       (Some "patient") None (Some "clinic") (Some a) (Some sample_history))
    [] [].

(** The admin of the group, logged in. *)
Definition admin_world : world :=
  mk_world (sample_db 7)
    (mk_session true (Some 2) (Some "drbob") (Some "Bob Roe") (Some "admin")
       (Some "clinic") None None None)
    [] [].

Definition no_reply : string + completion := inl "Connection error.".

(** Payloads: measured, with a null category, with a null height. *)
Definition measured_payload : dict :=
  [ ("height", PStr "60 cm"); ("weight", PStr "6 kg");
    ("diet", PStr "- breast milk") ].

Definition null_diet_payload : dict :=
  [ ("height", PStr "120 cm"); ("weight", PStr "25 kg"); ("diet", PNone) ].


(** A runtime whose extraction call returns a JSON object that parses to
    [payload], and whose growth call answers with [growth_reply]. *)
Definition extraction_runtime (payload : dict)
  (growth_reply : string + completion) : Runtime :=
  test_runtime no_reply (inr [Some "{}"]) growth_reply (inr (PDict payload))
    no_date.

(** A runtime whose extraction call returns text that is not JSON. *)
Definition unparsable_runtime : Runtime :=
  test_runtime no_reply (inr [Some "Sorry, I cannot help."]) no_reply
    (inl "Expecting value: line 1 column 1 (char 0)") no_date.

(** A runtime whose chat call answers with [chat_reply]. *)
Definition chat_runtime (chat_reply : string + completion) : Runtime :=
  test_runtime chat_reply no_reply no_reply (inl "no payload") no_date.

Definition sample_body : dict := [("message", PStr "She is 120 cm tall")].

(** The text of a failure: the service rejects the API key. *)
Definition rejected_key_detail : string :=
  "Error code: 401 - Incorrect API key provided (request id req_14290)".

(** A signup form of a patient, or of an admin, born on 2006-06-15. *)
Definition sample_form (role admin_group : string) (key : string)
  : option string :=
  if String.eqb key "first_name" then Some "Carol"
  else if String.eqb key "last_name" then Some "Poe"
  else if String.eqb key "username" then Some "carol"
  else if String.eqb key "password" then Some "secret"
  else if String.eqb key "role" then Some role
  else if String.eqb key "admin_group" then Some admin_group
  else if String.eqb key "patient_group" then Some "clinic"
  else if String.eqb key "date_of_birth" then Some "2006-06-15"
  else if String.eqb key "gender" then Some "female"
  else None.

Definition signup_runtime : Runtime :=
  test_runtime no_reply no_reply no_reply (inl "no payload")
    (fun _ => inr (mk_date 2006 6 15)).

Definition sample_clock : clock :=
  mk_clock (mk_date 2024 6 15) "2024-06-15" "10:30" "2024-06-15 10:30:00".


(** ** Vocabulary for the schema *)

(** A table after statements that only add: the same name and constraints,
    the same columns in the same order, and new columns after them. *)
Definition grows (t t' : Schema.table) : Prop :=
  Schema.t_name t' = Schema.t_name t
  /\ Schema.t_constraints t' = Schema.t_constraints t
  /\ exists added, Schema.t_columns t' = (Schema.t_columns t ++ added)%list.

(** A schema after statements that only add: the tables of before, each
    grown, in their order, and new tables after them. *)
Definition extends (s s' : Schema.schema) : Prop :=
  exists kept added, Forall2 grows s kept /\ s' = (kept ++ added)%list.

(** Both tables exist with every column [init_db] migrates. *)
Definition migrated (s : Schema.schema) : Prop :=
  Forall (fun p => Schema.table_has s (fst p) (snd p) = true)
    Schema.migrated_columns.

(** The schema in front of the RENAME of [init_db]. *)
Definition before_rename (s : Schema.schema) : Schema.schema :=
  Schema.attempt
    (Schema.add_column "users" (Schema.mk_column "gender" "TEXT"))
    (Schema.attempt
       (Schema.add_column "users" (Schema.mk_column "date_of_birth" "TEXT"))
       (Schema.attempt
          (Schema.add_column "users" (Schema.mk_column "name" "TEXT"))
          (Schema.create_table_if_not_exists Schema.users_table s))).

(** ** Vocabulary for appointments *)

(** The date of birth of a user row as [appointment_page] reads it. *)
Definition birth_date (rt : Runtime) (user : user_row) : py_result date :=
  match u_date_of_birth user with
  | None => Raise (TypeError "strptime() argument 1 must be str, not None")
  | Some s =>
      match strptime_ymd rt s with
      | inl msg => Raise (ValueError msg)
      | inr d => Ok d
      end
  end.

(** [user['name'] or user['username']] *)
Definition display_name (user : user_row) : string :=
  match u_name user with
  | Some (String c t) => String c t
  | _ => u_username user
  end.

(** The row [appointment_page] inserts for [user] at age [age]. *)
Definition fresh_row (clk : clock) (d : database) (user_id age : Z)
  : appointment_row :=
  mk_appointment (appointments_seq d + 1) user_id (now_date clk)
    (now_time clk) age "N/A" "N/A" None None (current_timestamp clk)
    None None None None None None None None None None None None.

(** The appointment it puts in the session. *)
Definition fresh_appointment (clk : clock) (d : database) (user : user_row)
  (age : Z) : appointment_data :=
  mk_appointment_data (appointments_seq d + 1) (now_date clk) (now_time clk)
    age "N/A" "N/A" (display_name user) (u_gender user).

(** The world after [appointment_page] has started an appointment for the
    user [user_id], whose row is [user] and date of birth [dob]. *)
Definition appointment_started (clk : clock) (user_id : Z) (user : user_row)
  (dob : date) (w : world) : world :=
  let d := w_db w in
  let age := age_on (today clk) dob in
  mk_world
    (mk_db (users d) (users_seq d)
       (appointments d ++ [fresh_row clk d user_id age])
       (appointments_seq d + 1))
    (start_appointment (w_session w) (fresh_appointment clk d user age))
    (w_flashes w) (w_calls w).

(** The session belongs to a user of the table whose date of birth
    parses. *)
Definition can_start (rt : Runtime) (w : world) (user_id : Z)
  (user : user_row) (dob : date) : Prop :=
  s_user_id (w_session w) = Some user_id
  /\ user_id <> 0
  /\ find_user (w_db w) user_id = Some user
  /\ birth_date rt user = Ok dob.

(** ** Vocabulary for the frame properties *)

(** The world after the requests [rqs] have been sent. *)
Definition more_calls (w : world) (rqs : list request) : world :=
  mk_world (w_db w) (w_session w) (w_flashes w) (w_calls w ++ rqs).

(** What an UPDATE of [extract_diet] leaves of a row: the columns it does
    not set, and the whole row when the id is not [id]. *)
Definition same_appointment (id : Z) (r r' : appointment_row) : Prop :=
  a_id r' = a_id r
  /\ a_user_id r' = a_user_id r
  /\ a_date r' = a_date r
  /\ a_time r' = a_time r
  /\ a_age_years r' = a_age_years r
  /\ a_concerns r' = a_concerns r
  /\ a_created_at r' = a_created_at r
  /\ (a_id r <> id -> r' = r).

(** ** Vocabulary for the tables *)

(** The tables as SQLite keeps them: row ids are positive, distinct and not
    above the AUTOINCREMENT counter, and no two usernames are equal without
    regard to case.  The counters start at 0. *)
Record db_ok (d : database) : Prop := {
  ok_users_seq : 0 <= users_seq d;
  ok_appointments_seq : 0 <= appointments_seq d;
  ok_user_ids : Forall (fun u => 0 < u_id u <= users_seq d) (users d);
  ok_user_ids_distinct : NoDup (map u_id (users d));
  ok_usernames_distinct :
    NoDup (map (fun u => sql_lower (u_username u)) (users d));
  ok_appointment_ids :
    Forall (fun r => 0 < a_id r <= appointments_seq d) (appointments d);
  ok_appointment_ids_distinct : NoDup (map a_id (appointments d))
}.

(** The same world under another session. *)
Definition with_session (w : world) (s : session) : world :=
  mk_world (w_db w) s (w_flashes w) (w_calls w).

(** ** Vocabulary for the listings *)

(** The session of an admin of the group [g]. *)
Definition admin_of (w : world) (g : string) : Prop :=
  s_user_id (w_session w) <> None
  /\ s_role (w_session w) = Some "admin"
  /\ s_admin_group (w_session w) = Some g
  /\ g <> "".

(** The rows are in the order [before]: each comes before every later
    one. *)
Definition in_order {A : Type} (before : A -> A -> bool) (l : list A)
  : Prop :=
  StronglySorted (fun a b => before a b = true) l.

(** [ORDER BY created_at DESC] on the rows of [people_page]. *)
Definition joined_later (a b : person) : bool :=
  String.leb (p_created_at b) (p_created_at a).

(** ** Vocabulary for the profile *)

(** The session belongs to the row [user] of the table. *)
Definition logged_in_as (w : world) (user : user_row) : Prop :=
  s_user_id (w_session w) = Some (u_id user)
  /\ find_user (w_db w) (u_id user) = Some user.

(** The fields of the form of [edit_profile], stripped. *)
Definition profile_username (form : string -> option string) : string :=
  PyStr.strip (form_get form "username" "").

Definition profile_password (form : string -> option string) : string :=
  PyStr.strip (form_get form "password" "").

Definition profile_name (form : string -> option string) : string :=
  PyStr.strip (form_get form "name" "").

(** [new_name if new_name else None] *)
Definition profile_name_cell (form : string -> option string)
  : option string :=
  if PyStr.nonempty (profile_name form) then Some (profile_name form)
  else None.

(** A user row after the three UPDATEs of [edit_profile]. *)
Definition edited_row (rt : Runtime) (form : string -> option string)
  (u : user_row) : user_row :=
  mk_user (u_id u) (profile_username form)
    (if PyStr.nonempty (profile_password form)
     then generate_password_hash rt (profile_password form)
     else u_password_hash u)
    (u_role u) (u_admin_group u) (u_patient_group u)
    (profile_name_cell form) (u_created_at u) (u_date_of_birth u)
    (u_gender u).

(** The world after [edit_profile] has stored the form for the user
    [id]. *)
Definition profile_edited (rt : Runtime) (form : string -> option string)
  (id : Z) (w : world) : world :=
  let d := w_db w in
  mk_world
    (mk_db (map (fun u => if u_id u =? id then edited_row rt form u else u)
              (users d))
       (users_seq d) (appointments d) (appointments_seq d))
    (set_session_name
       (set_session_username (w_session w) (profile_username form))
       (profile_name_cell form))
    (w_flashes w) (w_calls w).

(** Another row than [id] holds the username [name] itself. *)
Definition held_by_other (d : database) (id : Z) (name : string) : Prop :=
  exists u, In u (users d) /\ u_id u <> id /\ u_username u = name.

(** Another row than [id] holds [name] in the eyes of SQLite's LOWER. *)
Definition taken_by_other (d : database) (id : Z) (name : string) : Prop :=
  exists u, In u (users d) /\ u_id u <> id
            /\ sql_lower (u_username u) = sql_lower name.

(** Python's [lower] and SQLite's LOWER agree on [s], as on every string
    without a capital letter beyond Z. *)
Definition same_case_rules (s : string) : Prop :=
  PyStr.lower s = sql_lower s.

(** What [edit_profile] leaves of a user row: all but the username, the
    password hash and the name, and the whole row when the id is not
    [id]. *)
Definition same_account (id : Z) (u u' : user_row) : Prop :=
  u_id u' = u_id u
  /\ u_role u' = u_role u
  /\ u_admin_group u' = u_admin_group u
  /\ u_patient_group u' = u_patient_group u
  /\ u_created_at u' = u_created_at u
  /\ u_date_of_birth u' = u_date_of_birth u
  /\ u_gender u' = u_gender u
  /\ (u_id u <> id -> u' = u).

(** What [edit_profile] leaves of a session that it does not clear. *)
Definition same_login (s s' : session) : Prop :=
  s_permanent s' = s_permanent s
  /\ s_user_id s' = s_user_id s
  /\ s_role s' = s_role s
  /\ s_admin_group s' = s_admin_group s
  /\ s_patient_group s' = s_patient_group s
  /\ s_appointment_data s' = s_appointment_data s
  /\ s_conversation_history s' = s_conversation_history s.

(** ** Further sample data *)

(** [strptime] on the date of birth of the sample patient. *)
Definition sample_birth (s : string) : string + date :=
  if String.eqb s "2017-03-02" then inr (mk_date 2017 3 2)
  else inl "time data does not match format".

(** A runtime that reads that date and whose chat call answers with
    [chat_reply]. *)
Definition appointment_runtime (chat_reply : string + completion)
  : Runtime :=
  test_runtime chat_reply no_reply no_reply (inl "no payload") sample_birth.

(** A runtime whose extraction call returns a JSON array. *)
Definition array_runtime : Runtime :=
  test_runtime no_reply (inr [Some "[]"]) no_reply (inr (PList [])) no_date.

(** The patient, logged in, with no appointment open. *)
Definition patient_world : world :=
  mk_world (sample_db 7)
    (mk_session true (Some 1) (Some "alice") (Some "Alice Doe")
       (Some "patient") None (Some "clinic") None None)
    [] [].

(** A password check to go with the hashes of [test_runtime]. *)
Definition sample_check (pwhash password : string) : bool :=
  String.eqb pwhash ("hash:" ++ password).

Definition login_form (username password : string) (key : string)
  : option string :=
  if String.eqb key "username" then Some username
  else if String.eqb key "password" then Some password
  else None.

(** The form of [edit_profile]. *)
Definition profile_form (username password name : string) (key : string)
  : option string :=
  if String.eqb key "username" then Some username
  else if String.eqb key "password" then Some password
  else if String.eqb key "name" then Some name
  else None.

(** Two users whose usernames are one letter beyond Z, small and capital:
    U+00E0 and U+00C0.  SQLite's LOWER tells them apart, so both could sign
    up; Python's [lower] does not. *)
Definition a_grave : string := String (ascii_of_nat 224) EmptyString.

Definition capital_a_grave : string := String (ascii_of_nat 192) EmptyString.

Definition latin_db : database :=
  mk_db
    [ mk_user 1 a_grave "hash:secret" "patient" None None (Some "A")
        "2024-06-01 09:00:00" (Some "2017-03-02") (Some "female");
      mk_user 2 capital_a_grave "hash:secret" "patient" None None (Some "B")
        "2024-06-02 09:00:00" (Some "2016-03-02") (Some "male") ]
    2 [] 0.

(** The first of them, logged in. *)
Definition latin_world : world :=
  mk_world latin_db
    (mk_session true (Some 1) (Some a_grave) (Some "A") (Some "patient")
       None None None None)
    [] [].

(** * Properties *)

(** ** Ages *)

(** C8.  The age expression gives 13 for a date of birth 2010-06-15 on
    2024-06-14 and 14 on 2024-06-15; in general it is the difference of the
    calendar years, less one exactly when today's (month, day) comes before
    the birthday's (month, day). *)
Theorem age_on_birthday_rule :
  age_on (mk_date 2024 6 14) (mk_date 2010 6 15) = 13
  /\ age_on (mk_date 2024 6 15) (mk_date 2010 6 15) = 14
  /\ forall today dob : date,
       let before_birthday :=
         month today < month dob
         \/ (month today = month dob /\ day today < day dob) in
       (age_on today dob = year today - year dob - 1 <-> before_birthday)
       /\ (age_on today dob = year today - year dob <-> ~ before_birthday).
Proof.
  split; [reflexivity | split; [reflexivity | ]].
  intros t d; unfold age_on, pair_lt; cbv zeta.
  destruct (month t <? month d) eqn:Hm; cbn [orb].
  - apply Z.ltb_lt in Hm. repeat split; intros; try lia.
  - apply Z.ltb_ge in Hm.
    destruct (month t =? month d) eqn:He; cbn [andb].
    + apply Z.eqb_eq in He.
      destruct (day t <? day d) eqn:Hd;
        [apply Z.ltb_lt in Hd | apply Z.ltb_ge in Hd];
        repeat split; intros; try lia.
    + apply Z.eqb_neq in He. repeat split; intros; try lia.
Qed.

(** ** Extraction *)

Lemma extract_diet_ready (rt : Runtime) (w : world) (a : appointment_data) :
  extraction_ready (w_session w) a ->
  extract_diet rt w
  = try_except (extract_diet_body rt a (transcript (w_session w)))
      any_exception
      (fun e => ret (Jsonify 500 [("error", PStr (str_exn rt e))])) w.
Proof.
  intros (Ha & Hid & Hh).
  unfold extract_diet, bind, get_session. rewrite Ha.
  apply Z.eqb_neq in Hid. rewrite Hid.
  unfold transcript in *.
  destruct (s_conversation_history (w_session w)) as [[|m h]|];
    try contradiction; reflexivity.
Qed.

(** C1.  When the completion call of an extraction raises, or the content
    it returns is not parseable as JSON, the handler answers 500 with the
    text of the error, and no table, session key or flash has changed: the
    world differs only by the request that was sent. *)
Theorem extract_diet_fails_whole (rt : Runtime) (w : world)
  (a : appointment_data) (msg : string) :
  extraction_ready (w_session w) a ->
  let rq := extraction_request rt (transcript (w_session w)) in
  (chat_completions_create rt rq = inl msg
   \/ exists content others,
        chat_completions_create rt rq = inr (Some content :: others)
        /\ json_loads rt (PyStr.strip content) = inl msg) ->
  extract_diet rt w
  = (Ok (Jsonify 500 [("error", PStr msg)]), sent w rq)
  /\ w_db (snd (extract_diet rt w)) = w_db w.
Proof.
  intros Hready rq Hfail.
  assert (E : extract_diet rt w
              = (Ok (Jsonify 500 [("error", PStr msg)]), sent w rq)).
  { rewrite (extract_diet_ready rt w a Hready).
    unfold try_except, extract_diet_body, bind, create. fold rq.
    destruct Hfail as [Hraise | (content & others & Hret & Hparse)].
    - rewrite Hraise. reflexivity.
    - rewrite Hret. cbn [first_content_stripped ret].
      unfold loads. rewrite Hparse. reflexivity. }
  split; [exact E | rewrite E; reflexivity].
Qed.

(** ** Conversation *)

Lemma conversation_page_post (rt : Runtime) (w : world)
  (a : appointment_data) (d : dict) :
  s_appointment_data (w_session w) = Some a ->
  truthy (dict_get d "message" (PStr "")) = true ->
  conversation_page rt POST (PDict d) w
  = try_except
      (chat_turn rt (w_session w) a (dict_get d "message" (PStr "")))
      any_exception
      (fun e =>
         ret (Jsonify 500 [("error", PStr (str_exn rt e));
                           ("message", PStr (apology (str_exn rt e)))])) w.
Proof.
  intros Ha Hm.
  unfold conversation_page, bind, get_session. rewrite Ha.
  cbn [data_get ret]. rewrite Hm. reflexivity.
Qed.

(** C2.  A chat turn with a non-empty user message, for which the
    completion service returns a first choice with non-empty content,
    answers with that content and leaves the transcript of the session
    extended by exactly two entries, the user's message and then the
    assistant's; the entries that were there stay as they were, in place. *)
Theorem conversation_turn_appends_two (rt : Runtime) (w : world)
  (a : appointment_data) (d : dict) (assistant_message : string)
  (others : completion) :
  s_appointment_data (w_session w) = Some a ->
  let user_message := dict_get d "message" (PStr "") in
  let rq := chat_request rt a (transcript (w_session w)) user_message in
  truthy user_message = true ->
  chat_completions_create rt rq = inr (Some assistant_message :: others) ->
  assistant_message <> "" ->
  exists w',
    conversation_page rt POST (PDict d) w
    = (Ok (Jsonify 200 [("message", PStr assistant_message)]), w')
    /\ transcript (w_session w')
       = (transcript (w_session w)
          ++ [mk_message "user" user_message;
              mk_message "assistant" (PStr assistant_message)])%list
    /\ w_session w'
       = set_conversation_history (w_session w)
           (transcript (w_session w)
            ++ [mk_message "user" user_message;
                mk_message "assistant" (PStr assistant_message)])
    /\ w_db w' = w_db w.
Proof.
  intros Ha user_message rq Hm Hreply Hne.
  rewrite (conversation_page_post rt w a d Ha Hm).
  unfold try_except, chat_turn, bind, create.
  fold user_message. fold rq. rewrite Hreply.
  destruct assistant_message as [|c t]; [contradiction|].
  eexists; split; [reflexivity|].
  cbn. repeat split.
Qed.

Lemma prefix_app (n b : string) : String.prefix n (n ++ b) = true.
Proof.
  induction n as [|c n IH]; cbn; [destruct b; reflexivity|].
  destruct (ascii_dec c c); [exact IH | contradiction].
Qed.

Lemma contains_prefix (n h : string) :
  String.prefix n h = true -> PyStr.contains n h = true.
Proof.
  intros H. destruct h; cbn [PyStr.contains]; rewrite H; reflexivity.
Qed.

Lemma contains_app (n a b : string) :
  PyStr.contains n (a ++ n ++ b) = true.
Proof.
  induction a as [|c a IH].
  - cbn [append]. apply contains_prefix, prefix_app.
  - cbn [append PyStr.contains]. rewrite IH. apply orb_true_r.
Qed.

Lemma lower_app (a b : string) :
  PyStr.lower (a ++ b) = PyStr.lower a ++ PyStr.lower b.
Proof.
  induction a as [|c a IH]; cbn; [reflexivity|]. rewrite IH. reflexivity.
Qed.

Lemma prefix_occurs (n : string) :
  forall h, String.prefix n h = true -> exists after, h = n ++ after.
Proof.
  induction n as [|c n IH]; intros h H; [exists h; reflexivity|].
  destruct h as [|c' h]; cbn in H; [discriminate H|].
  destruct (ascii_dec c c') as [<-|]; [|discriminate H].
  destruct (IH h H) as (after & ->). exists after. reflexivity.
Qed.

Lemma contains_occurs (n h : string) :
  PyStr.contains n h = true <-> occurs n h.
Proof.
  unfold occurs. split.
  - induction h as [|c h IH]; cbn [PyStr.contains]; intros H;
      apply orb_true_iff in H; destruct H as [H | H]; try discriminate H.
    + apply prefix_occurs in H. destruct H as (after & ->).
      exists "", after. reflexivity.
    + apply prefix_occurs in H. destruct H as (after & E).
      exists "", after. exact E.
    + destruct (IH H) as (before & after & ->).
      exists (String c before), after. reflexivity.
  - intros (before & after & ->). apply contains_app.
Qed.

Lemma lower_split (x y : string) :
  forall h, PyStr.lower h = x ++ y ->
            exists h1 h2, h = h1 ++ h2 /\ PyStr.lower h1 = x
                          /\ PyStr.lower h2 = y.
Proof.
  induction x as [|c x IH]; intros h H.
  - exists "", h. repeat split. exact H.
  - destruct h as [|c' h]; cbn in H; [discriminate H|].
    injection H as Hc Ht.
    destruct (IH h Ht) as (h1 & h2 & -> & H1 & H2).
    exists (String c' h1), h2. cbn. rewrite Hc, H1. repeat split. exact H2.
Qed.

Lemma contains_lower_occurs (n h : string) :
  PyStr.contains n (PyStr.lower h) = true <-> occurs_nocase n h.
Proof.
  unfold occurs_nocase. split.
  - intros H. apply contains_occurs in H.
    destruct H as (before & after & H).
    apply lower_split in H. destruct H as (h1 & h' & -> & _ & H).
    apply lower_split in H. destruct H as (word & h3 & -> & Hw & _).
    exists h1, word, h3. split; [reflexivity | exact Hw].
  - intros (before & word & after & -> & Hw).
    rewrite !lower_app, Hw. apply contains_app.
Qed.

(** The two tests of the handler find exactly the texts of the two
    classes. *)
Lemma mentions_rate_limit_iff (detail : string) :
  mentions_rate_limit detail = true <-> indicates_rate_limit detail.
Proof.
  unfold mentions_rate_limit, indicates_rate_limit.
  rewrite orb_true_iff, contains_lower_occurs, contains_occurs. tauto.
Qed.

Lemma mentions_authentication_iff (detail : string) :
  mentions_authentication detail = true <-> indicates_authentication detail.
Proof.
  unfold mentions_authentication, indicates_authentication.
  rewrite orb_true_iff, !contains_lower_occurs. tauto.
Qed.

(** C3, as the code has it.  When the completion call of a chat turn
    raises, or returns no choice, or a first choice with absent or empty
    content, nothing is appended: the session (so its transcript) and the
    tables are as before.  The answer is a 500 whose [error] field is the
    detail of the failure and whose [message] field is the apology picked
    by the class of that detail, the rate limit first: the rate-limit text
    when "429" occurs in the detail or "rate_limit" does in any letter
    case; if not, the authentication text when "api key" or
    "authentication" occurs in it in any letter case; the generic text
    otherwise. *)
Theorem conversation_turn_failure (rt : Runtime) (w : world)
  (a : appointment_data) (d : dict) (detail : string) :
  s_appointment_data (w_session w) = Some a ->
  let user_message := dict_get d "message" (PStr "") in
  let rq := chat_request rt a (transcript (w_session w)) user_message in
  truthy user_message = true ->
  turn_fails rt rq detail ->
  exists text,
    conversation_page rt POST (PDict d) w
    = (Ok (Jsonify 500 [("error", PStr detail); ("message", PStr text)]),
       sent w rq)
    /\ transcript (w_session (sent w rq)) = transcript (w_session w)
    /\ (indicates_rate_limit detail -> text = rate_limit_apology)
    /\ (~ indicates_rate_limit detail ->
        indicates_authentication detail ->
        text = authentication_apology)
    /\ (~ indicates_rate_limit detail ->
        ~ indicates_authentication detail ->
        text = generic_apology).
Proof.
  intros Ha user_message rq Hm Hfail.
  exists (apology detail).
  split.
  - rewrite (conversation_page_post rt w a d Ha Hm).
    unfold try_except, chat_turn, bind, create.
    fold user_message. fold rq.
    destruct Hfail as [msg H | H | others H | others H]; rewrite H;
      reflexivity.
  - split; [reflexivity|].
    unfold apology.
    pose proof (mentions_rate_limit_iff detail) as Hrate.
    pose proof (mentions_authentication_iff detail) as Hauth.
    destruct (mentions_rate_limit detail);
      destruct (mentions_authentication detail);
      repeat split; intros H1; try intros H2; try reflexivity;
      exfalso; intuition congruence.
Qed.

(** *** How an extraction runs once the payload is a JSON object *)

Lemma growth_percentiles_skipped (rt : Runtime) (h wt : pyval) (age : Z)
  (g : option string) (w : world) :
  growth_wanted h wt age g = false ->
  growth_percentiles rt h wt age g w = (Ok "N/A", w).
Proof.
  intros H. unfold growth_percentiles. rewrite H. reflexivity.
Qed.

Lemma growth_percentiles_called (rt : Runtime) (h wt : pyval) (age : Z)
  (g : option string) (w : world) :
  growth_wanted h wt age g = true ->
  let rq := growth_request rt h wt age
              (match g with Some g' => g' | None => "" end) in
  growth_percentiles rt h wt age g w
  = (Ok (match chat_completions_create rt rq with
         | inr (Some content :: _) => PyStr.strip content
         | _ => "N/A"
         end),
     sent w rq).
Proof.
  intros H rq. unfold growth_percentiles. rewrite H.
  unfold try_except, bind, create. fold rq.
  destruct (chat_completions_create rt rq) as [msg | [|[c|] others]];
    reflexivity.
Qed.

Lemma extract_diet_parsed (rt : Runtime) (w : world) (a : appointment_data)
  (content : string) (others : completion) (d : dict) :
  extraction_ready (w_session w) a ->
  let rq := extraction_request rt (transcript (w_session w)) in
  chat_completions_create rt rq = inr (Some content :: others) ->
  json_loads rt (PyStr.strip content) = inr (PDict d) ->
  extract_diet rt w
  = match growth_percentiles rt (dict_get d "height" (PStr "N/A"))
            (dict_get d "weight" (PStr "N/A")) (ad_age_years a)
            (ad_gender a) (sent w rq) with
    | (Ok info, w2) =>
        match store_extraction rt d info (ad_id a) w2 with
        | (Ok _, w3) =>
            (Ok (Jsonify 200 [("success", PBool true); ("data", PDict d)]),
             w3)
        | (Raise e, w3) =>
            (Ok (Jsonify 500 [("error", PStr (str_exn rt e))]), w3)
        end
    | (Raise e, w2) =>
        (Ok (Jsonify 500 [("error", PStr (str_exn rt e))]), w2)
    end.
Proof.
  intros Hready rq Hreply Hparse.
  rewrite (extract_diet_ready rt w a Hready).
  unfold try_except, extract_diet_body.
  unfold bind at 1. unfold bind at 1. unfold create. fold rq.
  rewrite Hreply. cbn [first_content_stripped ret].
  unfold bind at 1. unfold loads. rewrite Hparse. cbn [ret].
  cbn [data_get]. unfold bind at 1. cbn [ret].
  unfold bind at 1. cbn [ret]. unfold bind at 1.
  fold (sent w rq).
  destruct (growth_percentiles rt _ _ _ _ (sent w rq)) as [[info|e] w2];
    [|reflexivity].
  unfold bind, ret, store_extraction.
  destruct (update_appointment rt _ _ _ _ _ _ _ _ _ _ _ _ _ _ _ _ w2)
    as [[[]|e] w3]; reflexivity.
Qed.

(** *** The UPDATE *)

Lemma bind_text_ok (rt : Runtime) (i : nat) (v : pyval) (c : option string) :
  bind_text rt i v = Ok c -> c = text_cell rt v /\ bindable v = true.
Proof.
  unfold text_cell.
  destruct v as [|b|n|f|s|l|d]; cbn; try (intros H; inversion H; auto; fail).
  - destruct (fits_int64 n); intros H; inversion H; auto.
  - destruct f; intros H; inversion H; auto.
Qed.


Lemma text_cell_not_null (rt : Runtime) (v : pyval) :
  bindable v = true -> not_null v = true -> text_cell rt v <> None.
Proof.
  unfold text_cell.
  destruct v as [|b|n|f|s|l|d]; cbn; try discriminate.
  - intros H _; rewrite H; discriminate.
  - destruct f; discriminate.
Qed.

Lemma no_row_no_change (rt : Runtime) (d : dict) (info : string) (id : Z)
  (w : world) :
  has_appointment (w_db w) id = false -> stored_world rt d info id w = w.
Proof.
  unfold has_appointment, stored_world.
  destruct w as [[us useq aps aseq] s f c]; cbn.
  intros H. do 2 f_equal.
  induction aps as [|r aps IH]; cbn in *; [reflexivity|].
  apply orb_false_iff in H. destruct H as [Hr Haps].
  rewrite Hr, (IH Haps). reflexivity.
Qed.

Ltac bind_next H :=
  unfold bind at 1 in H; unfold bind_param at 1 in H;
  match type of H with
  | context [bind_text ?rt ?i ?v] =>
      let E := fresh "E" in
      destruct (bind_text rt i v) eqn:E;
      [apply bind_text_ok in E; destruct E as [E ?]; subst;
       unfold ret at 1 in H
      | unfold raise at 1 in H;
        try (inversion H; subst; reflexivity); try discriminate H];
      cbv beta iota in H
  end.

Lemma store_extraction_raise (rt : Runtime) (d : dict) (info : string)
  (id : Z) (w w' : world) (e : exn) :
  store_extraction rt d info id w = (Raise e, w') -> w' = w.
Proof.
  unfold store_extraction, update_appointment. intros H.
  do 16 bind_next H.
  unfold bind, get_db, put_db, raise, ret in H.
  destruct (has_appointment (w_db w) id);
    [|inversion H; reflexivity].
  destruct (text_cell rt (dict_get d "height" (PStr "N/A")));
    [|inversion H; reflexivity].
  destruct (text_cell rt (dict_get d "weight" (PStr "N/A")));
    [discriminate H|inversion H; reflexivity].
Qed.

Lemma store_extraction_ok (rt : Runtime) (d : dict) (info : string)
  (id : Z) (w w' : world) (u : unit) :
  store_extraction rt d info id w = (Ok u, w') ->
  w' = stored_world rt d info id w
  /\ categories_bindable d = true.
Proof.
  unfold store_extraction, update_appointment. intros H.
  do 16 bind_next H.
  split.
  - unfold bind, get_db, put_db, raise, ret in H.
    destruct (has_appointment (w_db w) id) eqn:Hrow.
    + unfold stored_world, extracted_row, cell_string.
      destruct (text_cell rt (dict_get d "height" (PStr "N/A")));
        [|discriminate H].
      destruct (text_cell rt (dict_get d "weight" (PStr "N/A")));
        [|discriminate H].
      inversion H. reflexivity.
    + inversion H. subst. symmetry. apply no_row_no_change. exact Hrow.
  - unfold categories_bindable. cbn [forallb category_columns fst snd].
    repeat match goal with
           | Hb : bindable _ = true |- _ => rewrite Hb; clear Hb
           end.
    reflexivity.
Qed.


Lemma stored_rows (rt : Runtime) (d : dict) (info : string) (id : Z)
  (w : world) (r : appointment_row) :
  In r (rows_with_id (w_db (stored_world rt d info id w)) id) ->
  exists r0, In r0 (appointments (w_db w))
             /\ r = extracted_row rt d info r0.
Proof.
  unfold rows_with_id, stored_world. cbn [w_db appointments].
  rewrite filter_In, in_map_iff.
  intros [(r0 & Hr & Hin) Hid].
  exists r0. split; [exact Hin|].
  destruct (a_id r0 =? id) eqn:E; [now symmetry|].
  subst r. rewrite E in Hid. discriminate.
Qed.

Lemma dict_get_missing (d : dict) (key : string) (default : pyval) :
  dict_has d key = false -> dict_get d key default = default.
Proof.
  unfold dict_has.
  induction d as [|[k v] d IH]; cbn; [reflexivity|].
  intros H. apply orb_false_iff in H. destruct H as [Hk Hd].
  rewrite Hk. exact (IH Hd).
Qed.

Lemma ne_str_true (v : pyval) (s : string) :
  ne_str v s = true <-> v <> PStr s.
Proof.
  destruct v; cbn; try (split; [discriminate|reflexivity]).
  rewrite negb_true_iff, String.eqb_neq. split; congruence.
Qed.

Ltac fails_with Hrun H :=
  cbv [any_exception ret raise data_get bind] in Hrun;
  rewrite Hrun in H; discriminate H.

(** A successful answer of [extract_diet] comes from a run in which the
    completion had a first choice with content and that content parsed to a
    JSON object. *)
Lemma extract_diet_success (rt : Runtime) (w w' : world)
  (a : appointment_data) (body : dict) :
  extraction_ready (w_session w) a ->
  extract_diet rt w = (Ok (Jsonify 200 body), w') ->
  exists content others d,
    chat_completions_create rt
      (extraction_request rt (transcript (w_session w)))
    = inr (Some content :: others)
    /\ json_loads rt (PyStr.strip content) = inr (PDict d)
    /\ body = [("success", PBool true); ("data", PDict d)].
Proof.
  intros Hready H.
  pose proof (extract_diet_ready rt w a Hready) as Hrun.
  unfold try_except, extract_diet_body in Hrun.
  unfold bind at 1 in Hrun. unfold bind at 1 in Hrun. unfold create in Hrun.
  destruct (chat_completions_create rt
              (extraction_request rt (transcript (w_session w))))
    as [msg | [|[content|] others]] eqn:Hreply;
    try (fails_with Hrun H).
  cbn [first_content_stripped ret] in Hrun.
  unfold bind at 1 in Hrun. unfold loads in Hrun.
  destruct (json_loads rt (PyStr.strip content)) as [msg | data] eqn:Hparse;
    [fails_with Hrun H|].
  destruct data as [|b|n|f|s|l|d];
    try (fails_with Hrun H).
  clear Hrun.
  rewrite (extract_diet_parsed rt w a content others d Hready Hreply Hparse)
    in H.
  destruct (growth_percentiles rt _ _ _ _ _) as [[info|e] w2];
    [|discriminate H].
  destruct (store_extraction rt d info (ad_id a) w2) as [[u|e] w3];
    [|discriminate H].
  inversion H. exists content, others, d.
  repeat split; try reflexivity; exact Hparse.
Qed.

Lemma extracted_row_categories (rt : Runtime) (d : dict) (info : string)
  (r0 : appointment_row) :
  Forall (fun c =>
            snd c (extracted_row rt d info r0)
            = text_cell rt (dict_get d (fst (fst c)) (PStr (snd (fst c)))))
    category_columns.
Proof.
  repeat constructor.
Qed.

Lemma growth_wanted_inv (h wt : pyval) (age : Z) (g : option string) :
  growth_wanted h wt age g = true <->
  h <> PStr "N/A" /\ wt <> PStr "N/A" /\ age <> 0
  /\ exists g', g = Some g' /\ g' <> "".
Proof.
  unfold growth_wanted.
  rewrite !andb_true_iff, !ne_str_true, negb_true_iff, Z.eqb_neq.
  split.
  - intros [[[Hh Hw] Ha] Hg]. repeat split; try assumption.
    destruct g as [[|c t]|]; try discriminate.
    exists (String c t). split; [reflexivity | discriminate].
  - intros (Hh & Hw & Ha & g' & -> & Hg). repeat split; try assumption.
    destruct g'; [contradiction | reflexivity].
Qed.

(** The run of a successful extraction, in one equation: the requests sent
    and the world it leaves. *)
Lemma extract_diet_success_world (rt : Runtime) (w w' : world)
  (a : appointment_data) (body : dict) :
  extraction_ready (w_session w) a ->
  extract_diet rt w = (Ok (Jsonify 200 body), w') ->
  exists d,
    body = [("success", PBool true); ("data", PDict d)]
    /\ categories_bindable d = true
    /\ let rq := extraction_request rt (transcript (w_session w)) in
       (growth_wanted_for a d = false
        /\ w' = stored_world rt d "N/A" (ad_id a) (sent w rq))
       \/ (growth_wanted_for a d = true
           /\ exists info,
                w' = stored_world rt d info (ad_id a)
                       (sent (sent w rq) (growth_request_for rt a d))
                /\ (growth_call_raises rt (growth_request_for rt a d) ->
                    info = "N/A")).
Proof.
  intros Hready H.
  destruct (extract_diet_success rt w w' a body Hready H)
    as (content & others & d & Hreply & Hparse & ->).
  exists d. split; [reflexivity|]. cbv zeta.
  rewrite (extract_diet_parsed rt w a content others d Hready Hreply Hparse)
    in H.
  fold (growth_wanted_for a d).
  destruct (growth_wanted_for a d) eqn:Hw.
  - unfold growth_wanted_for in Hw.
    rewrite (growth_percentiles_called rt _ _ _ _ _ Hw) in H.
    fold (growth_request_for rt a d) in H.
    match type of H with
    | context [store_extraction rt d ?i (ad_id a) ?w2] =>
        destruct (store_extraction rt d i (ad_id a) w2)
          as [[u|e] w3] eqn:Hstore; [|discriminate H];
        apply store_extraction_ok in Hstore; destruct Hstore as [-> Hb];
        split; [exact Hb|]; right; split; [reflexivity|]; exists i
    end.
    inversion H. split; [reflexivity|].
    unfold growth_call_raises.
    destruct (chat_completions_create rt (growth_request_for rt a d))
      as [msg | [|[c|] o]]; intros Hr; try reflexivity; contradiction.
  - unfold growth_wanted_for in Hw.
    rewrite (growth_percentiles_skipped rt _ _ _ _ _ Hw) in H.
    destruct (store_extraction rt d "N/A" (ad_id a) _)
      as [[u|e] w3] eqn:Hstore; [|discriminate H].
    apply store_extraction_ok in Hstore. destruct Hstore as [-> Hb].
    split; [exact Hb|]. left. split; [reflexivity|].
    inversion H. reflexivity.
Qed.

(** X30.  The growth request of a successful extraction.  The requests
    sent are the extraction request alone or followed by the growth
    request.  The growth request is sent exactly when the extracted height
    and weight are not the N/A sentinel, the age of the session is not zero
    and its gender is a non-empty string.  When it is not sent, every row
    of the appointment holds N/A as its growth text. *)
Theorem growth_call_exact (rt : Runtime) (w w' : world)
  (a : appointment_data) (body : dict) :
  extraction_ready (w_session w) a ->
  extract_diet rt w = (Ok (Jsonify 200 body), w') ->
  exists d,
    body = [("success", PBool true); ("data", PDict d)]
    /\ let height := dict_get d "height" (PStr "N/A") in
       let weight := dict_get d "weight" (PStr "N/A") in
       let rq := extraction_request rt (transcript (w_session w)) in
       let invoked :=
         w_calls w' = (w_calls w ++ [rq; growth_request_for rt a d])%list in
       let skipped := w_calls w' = (w_calls w ++ [rq])%list in
       (invoked \/ skipped)
       /\ (invoked <->
           height <> PStr "N/A" /\ weight <> PStr "N/A"
           /\ ad_age_years a <> 0
           /\ exists g, ad_gender a = Some g /\ g <> "")
       /\ (skipped ->
           forall r, In r (rows_with_id (w_db w') (ad_id a)) ->
                     a_growth_percentile_info r = Some "N/A").
Proof.
  intros Hready H.
  destruct (extract_diet_success_world rt w w' a body Hready H)
    as (d & -> & _ & Hrun).
  exists d. split; [reflexivity|]. cbv zeta in *.
  assert (Hlen : forall (l : list request) x y,
             (l ++ [x; y])%list <> (l ++ [x])%list).
  { intros l x y E. apply app_inv_head in E. discriminate E. }
  destruct Hrun as [[Hw ->] | [Hw (info & -> & _)]];
    unfold growth_wanted_for in Hw; cbn [stored_world sent w_calls].
  - split; [right; reflexivity|].
    split.
    + split; [intros E; exfalso; exact (Hlen _ _ _ (eq_sym E))|].
      intros Hg. apply growth_wanted_inv in Hg.
      rewrite Hg in Hw. discriminate Hw.
    + intros _ r Hr. apply stored_rows in Hr.
      destruct Hr as (r0 & _ & ->). reflexivity.
  - rewrite <- app_assoc. cbn [app].
    split; [left; reflexivity|].
    apply growth_wanted_inv in Hw.
    split; [split; [intros _; exact Hw | intros _; reflexivity]|].
    intros E. exfalso. exact (Hlen _ _ _ E).
Qed.

(** C5, as the code has it.  After a successful extraction, in every row of
    the appointment each of the twelve category columns holds what a TEXT
    column keeps of the payload's value for its key, the default of the key
    ([""] for an info field, ["None"] for a recommendations field) standing
    in when the payload omits it: the default itself when the key is
    omitted, the string itself when the value is a string, and a text, not
    NULL, whenever the value is neither JSON null nor NaN. *)
Theorem extraction_fills_categories (rt : Runtime) (w w' : world)
  (a : appointment_data) (body : dict) :
  extraction_ready (w_session w) a ->
  extract_diet rt w = (Ok (Jsonify 200 body), w') ->
  exists d,
    body = [("success", PBool true); ("data", PDict d)]
    /\ forall r, In r (rows_with_id (w_db w') (ad_id a)) ->
         Forall (fun c =>
                   let key := fst (fst c) in
                   let default := snd (fst c) in
                   let column := snd c in
                   let value := dict_get d key (PStr default) in
                   column r = text_cell rt value
                   /\ (dict_has d key = false -> column r = Some default)
                   /\ (forall s, value = PStr s -> column r = Some s)
                   /\ (not_null value = true -> column r <> None))
           category_columns.
Proof.
  intros Hready H.
  destruct (extract_diet_success_world rt w w' a body Hready H)
    as (d & -> & Hb & Hrun).
  exists d. split; [reflexivity|].
  intros r Hr.
  assert (Hrow : exists info r0, r = extracted_row rt d info r0).
  { cbv zeta in Hrun.
    destruct Hrun as [[_ ->] | [_ (info & -> & _)]];
      apply stored_rows in Hr; destruct Hr as (r0 & _ & ->); eauto. }
  destruct Hrow as (info & r0 & ->).
  unfold categories_bindable in Hb. rewrite forallb_forall in Hb.
  pose proof (extracted_row_categories rt d info r0) as Hcells.
  rewrite Forall_forall in *.
  intros c Hc. cbv zeta.
  specialize (Hcells c Hc). specialize (Hb c Hc).
  split; [exact Hcells|].
  rewrite Hcells.
  split; [|split].
  - intros Hmiss. rewrite (dict_get_missing d _ _ Hmiss). reflexivity.
  - intros s ->. reflexivity.
  - intros Hn. apply text_cell_not_null; assumption.
Qed.


(** ** Signup *)

Lemma sql_lower_same (a b : string) :
  String.eqb a b = true -> String.eqb (sql_lower a) (sql_lower b) = true.
Proof.
  intros H. apply String.eqb_eq in H. subst. apply String.eqb_refl.
Qed.

(** A username that no row matches without regard to case is not taken
    exactly either: the UNIQUE constraint cannot fail after the check. *)
Lemma free_username_is_unique (d : database) (username : string) :
  find_user_nocase d username = None ->
  existsb (fun u => String.eqb (u_username u) username) (users d) = false.
Proof.
  unfold find_user_nocase.
  induction (users d) as [|u l IH]; cbn; [reflexivity|].
  destruct (String.eqb (sql_lower (u_username u)) (sql_lower username))
    eqn:E; [discriminate|].
  intros H. rewrite (IH H), orb_false_r.
  destruct (String.eqb (u_username u) username) eqn:Ex; [|reflexivity].
  rewrite (sql_lower_same _ _ Ex) in E. discriminate.
Qed.

Lemma find_appended {A : Type} (p : A -> bool) (l : list A) (x : A) :
  existsb p l = false -> p x = true -> find p (l ++ [x]) = Some x.
Proof.
  induction l as [|y l IH]; cbn; intros Hl Hx.
  - rewrite Hx. reflexivity.
  - apply orb_false_iff in Hl. destruct Hl as [Hy Hl].
    rewrite Hy. exact (IH Hl Hx).
Qed.

Lemma nonempty_true (s : string) : PyStr.nonempty s = true <-> s <> "".
Proof.
  destruct s; cbn; split; congruence.
Qed.

Lemma nonempty_false (s : string) : PyStr.nonempty s = false <-> s = "".
Proof.
  destruct s; cbn; split; congruence.
Qed.

(** The run of [signup] on a form that is valid, the age limit and the admin
    group apart. *)
Lemma signup_valid_run (rt : Runtime) (clk : clock)
  (form : string -> option string) (w : world)
  (username password role : string) (dob : date) :
  valid_signup rt clk form (w_db w) username password role dob ->
  signup rt POST form clk w
  = if String.eqb role "patient" && (18 <? age_on (today clk) dob)
    then (Ok (signup_error pediatric_only), w)
    else if String.eqb role "admin"
            && negb (PyStr.nonempty (submitted form "admin_group"))
    then (Ok (signup_error group_required), w)
    else (Ok (Redirect "main_page"),
          signed_up rt clk form username password role w).
Proof.
  intros [Hu Hp Hr Hfn Hln Hun Hpn Hrn Hdn Hg Hd Hage Hfree].
  unfold signup. rewrite Hu, Hp, Hr.
  fold (submitted form "first_name") (submitted form "last_name")
       (submitted form "admin_group") (submitted form "patient_group")
       (submitted form "date_of_birth") (submitted form "gender").
  apply nonempty_true in Hfn, Hln, Hun, Hpn, Hrn, Hdn.
  rewrite Hfn, Hln, Hun, Hpn, Hrn, Hdn.
  assert (Hgn : PyStr.nonempty (submitted form "gender") = true)
    by (destruct Hg as [-> | ->]; reflexivity).
  rewrite Hgn. cbn [negb orb].
  assert (Hgv : String.eqb (submitted form "gender") "male"
                || String.eqb (submitted form "gender") "female" = true)
    by (destruct Hg as [-> | ->]; reflexivity).
  rewrite Hgv. cbn [negb].
  unfold bind at 1. unfold try_except at 1. unfold bind at 1.
  unfold strptime. rewrite Hd. cbn [ret].
  apply Z.ltb_ge in Hage. rewrite Hage.
  destruct (String.eqb role "patient" && (18 <? age_on (today clk) dob));
    [reflexivity|].
  cbn [ret].
  destruct (String.eqb role "admin"
            && negb (PyStr.nonempty (submitted form "admin_group")));
    [reflexivity|].
  unfold bind at 1. unfold get_db at 1. rewrite Hfree.
  unfold try_except, insert_user. unfold bind, get_db. cbv beta iota.
  rewrite (free_username_is_unique _ _ Hfree).
  unfold put_db, find_user_by_username, get_session, put_session, ret.
  cbn [w_db users].
  rewrite find_appended;
    [reflexivity
    | exact (free_username_is_unique _ _ Hfree)
    | cbn [u_username]; apply String.eqb_refl].
Qed.

Ltac signup_rejects Hrej :=
  cbv beta iota delta [ret raise bind try_except is_value_error];
  apply Hrej;
  unfold signup_errors, pediatric_only, group_required;
  repeat (first [left; reflexivity | right]).

(** Case analysis on a POST to [signup]: the handler ends in a redirect
    with the new row inserted, or in the form rendered again with an error
    text and the world untouched. *)
Lemma signup_cases (rt : Runtime) (clk : clock)
  (form : string -> option string) (w : world)
  (P : py_result response * world -> Prop) :
  (forall username password role,
     form "username" = Some username ->
     form "password" = Some password ->
     form "role" = Some role ->
     P (Ok (Redirect "main_page"),
        signed_up rt clk form username password role w)) ->
  (forall msg, In msg signup_errors -> P (Ok (signup_error msg), w)) ->
  P (signup rt POST form clk w).
Proof.
  intros Hacc Hrej.
  unfold signup.
  fold (submitted form "first_name") (submitted form "last_name")
       (submitted form "admin_group") (submitted form "patient_group")
       (submitted form "date_of_birth") (submitted form "gender").
  destruct (form "username") as [username|]; [|signup_rejects Hrej].
  destruct (form "password") as [password|]; [|signup_rejects Hrej].
  destruct (form "role") as [role|]; [|signup_rejects Hrej].
  specialize (Hacc username password role eq_refl eq_refl eq_refl).
  match goal with
  | |- context [if ?c then ret (signup_error "Please fill in all required fields") else _] =>
      destruct c; [signup_rejects Hrej|]
  end.
  destruct (negb (String.eqb (submitted form "gender") "male"
                  || String.eqb (submitted form "gender") "female"));
    [signup_rejects Hrej|].
  unfold bind at 1. unfold try_except at 1. unfold bind at 1.
  unfold strptime.
  destruct (strptime_ymd rt (submitted form "date_of_birth")) as [msg|dob];
    [signup_rejects Hrej|].
  cbn [ret].
  destruct (age_on (today clk) dob <? 0); [signup_rejects Hrej|].
  destruct (String.eqb role "patient" && (18 <? age_on (today clk) dob));
    [signup_rejects Hrej|].
  cbn [ret].
  destruct (String.eqb role "admin"
            && negb (PyStr.nonempty (submitted form "admin_group")));
    [signup_rejects Hrej|].
  unfold bind at 1. unfold get_db at 1.
  destruct (find_user_nocase (w_db w) username) as [u|] eqn:Hfree;
    [signup_rejects Hrej|].
  unfold try_except, insert_user. unfold bind, get_db. cbv beta iota.
  rewrite (free_username_is_unique _ _ Hfree).
  unfold put_db, find_user_by_username, get_session, put_session, ret.
  cbn [w_db users].
  rewrite find_appended;
    [exact Hacc
    | exact (free_username_is_unique _ _ Hfree)
    | cbn [u_username]; apply String.eqb_refl].
Qed.

Lemma signup_accepts_or_rejects (rt : Runtime) (clk : clock)
  (form : string -> option string) (w : world) :
  accepted rt clk form w (signup rt POST form clk w)
  \/ rejected w (signup rt POST form clk w).
Proof.
  apply signup_cases.
  - intros u p r Hu Hp Hr. left. exists u, p, r. repeat split; assumption.
  - intros msg Hin. right. exists msg. split; [exact Hin | reflexivity].
Qed.

(** C7.  For a signup whose fields are valid, the age limit and the admin
    group apart: a patient of computed age 19 is rejected with the
    pediatric-only text; a patient of computed age 18 is accepted; an admin,
    whatever the computed age, is accepted exactly when the admin group,
    stripped of white space, is not empty, and is otherwise rejected with
    the text that asks for the group.  Every POST to [signup], valid or not,
    is either accepted or rejected, and a rejected one leaves the world as
    it was (no row is created) and renders the form again with one of the
    error texts. *)
Theorem signup_age_and_group_rules (rt : Runtime) (clk : clock)
  (form : string -> option string) (w : world)
  (username password role : string) (dob : date) :
  valid_signup rt clk form (w_db w) username password role dob ->
  let age := age_on (today clk) dob in
  let o := signup rt POST form clk w in
  (role = "patient" -> age = 19 ->
   o = (Ok (signup_error pediatric_only), w))
  /\ (role = "patient" -> age = 18 -> accepted rt clk form w o)
  /\ (role = "admin" ->
      (accepted rt clk form w o <-> submitted form "admin_group" <> ""))
  /\ (role = "admin" -> submitted form "admin_group" = "" ->
      o = (Ok (signup_error group_required), w))
  /\ (forall form' clk' w',
        let o' := signup rt POST form' clk' w' in
        (accepted rt clk' form' w' o' \/ rejected w' o')
        /\ (rejected w' o' ->
            snd o' = w'
            /\ exists msg, In msg signup_errors
                           /\ fst o' = Ok (Render "signup.html"
                                             (ErrorContext msg)))).
Proof.
  intros Hvalid age o.
  assert (Hrun : o = if String.eqb role "patient" && (18 <? age)
                     then (Ok (signup_error pediatric_only), w)
                     else if String.eqb role "admin"
                             && negb (PyStr.nonempty
                                        (submitted form "admin_group"))
                     then (Ok (signup_error group_required), w)
                     else (Ok (Redirect "main_page"),
                           signed_up rt clk form username password role w))
    by (apply signup_valid_run; exact Hvalid).
  assert (Hacc : o = (Ok (Redirect "main_page"),
                      signed_up rt clk form username password role w) ->
                 accepted rt clk form w o).
  { intros E. exists username, password, role.
    destruct Hvalid. repeat split; assumption. }
  clearbody o age.
  split; [|split; [|split; [|split]]].
  - intros Hrole Hage. subst role age. exact Hrun.
  - intros Hrole Hage. apply Hacc. subst role age. exact Hrun.
  - intros Hrole. subst role.
    destruct (PyStr.nonempty (submitted form "admin_group")) eqn:Hg.
    + apply nonempty_true in Hg. split; [intros _; exact Hg|].
      intros _. apply Hacc. exact Hrun.
    + apply nonempty_false in Hg. split.
      * intros (u & p & r & _ & _ & _ & E).
        rewrite Hrun in E. discriminate E.
      * intros Hne. contradiction.
  - intros Hrole Hg. subst role. rewrite Hg in Hrun. exact Hrun.
  - intros form' clk' w' o'. split.
    + apply signup_accepts_or_rejects.
    + intros (msg & Hin & E). rewrite E. split; [reflexivity|].
      exists msg. split; [exact Hin | reflexivity].
Qed.

Ltac close_group_case :=
  first [ reflexivity
        | discriminate
        | contradiction
        | exfalso; match goal with H : ?x <> ?x |- _ => apply H; reflexivity end ].

(** C10.  Every row that a POST to [signup] adds to the users table has an
    admin group only if its role is admin and a patient group only if its
    role is patient: for a patient the submitted admin group is stored as
    NULL, for an admin the submitted patient group is stored as NULL. *)
Theorem signup_row_groups (rt : Runtime) (clk : clock)
  (form : string -> option string) (w : world) (row : user_row) :
  In row (users (w_db (snd (signup rt POST form clk w)))) ->
  ~ In row (users (w_db w)) ->
  (u_admin_group row <> None -> u_role row = "admin")
  /\ (u_patient_group row <> None -> u_role row = "patient")
  /\ (u_role row = "patient" -> u_admin_group row = None)
  /\ (u_role row = "admin" -> u_patient_group row = None).
Proof.
  apply (signup_cases rt clk form w
           (fun o => In row (users (w_db (snd o))) ->
                     ~ In row (users (w_db w)) -> _)).
  - intros username password role _ _ _ Hin Hnew.
    cbn [snd signed_up w_db users] in Hin.
    apply in_app_or in Hin. destruct Hin as [Hold | [<- | []]];
      [contradiction|].
    unfold new_user. cbn [u_admin_group u_patient_group u_role].
    destruct (String.eqb role "admin") eqn:Ea.
    + apply String.eqb_eq in Ea. subst role. cbn.
      repeat split; intros; close_group_case.
    + apply String.eqb_neq in Ea.
      destruct (String.eqb role "patient") eqn:Ep.
      * apply String.eqb_eq in Ep. subst role.
        repeat split; intros; close_group_case.
      * apply String.eqb_neq in Ep.
        repeat split; intros; close_group_case.
  - intros msg _ Hin Hnew. contradiction.
Qed.

(** ** Reports *)

Lemma opt_str_ne_false (x y : option string) :
  opt_str_ne x y = false <-> x = y.
Proof.
  destruct x as [a|], y as [b|]; cbn; try (split; congruence).
  rewrite negb_false_iff, String.eqb_eq. split; congruence.
Qed.

Lemma insert_by_date_perm (a : appointment_row) (l : list appointment_row) :
  Permutation (insert_by_date a l) (a :: l).
Proof.
  induction l as [|b l IH]; cbn; [reflexivity|].
  destruct (newer_or_same a b); [reflexivity|].
  rewrite IH. apply perm_swap.
Qed.

Lemma order_by_date_time_desc_perm (l : list appointment_row) :
  Permutation (order_by_date_time_desc l) l.
Proof.
  unfold order_by_date_time_desc.
  induction l as [|a l IH]; cbn; [reflexivity|].
  rewrite insert_by_date_perm. now constructor.
Qed.

(** The query returns the appointments of the user, all of them and no
    other. *)
Lemma appointments_of_user (d : database) (user_id : Z)
  (a : appointment_row) :
  In a (appointments_of d user_id)
  <-> In a (appointments d) /\ a_user_id a = user_id.
Proof.
  unfold appointments_of. split.
  - intros H.
    apply (Permutation_in _ (order_by_date_time_desc_perm _)) in H.
    apply filter_In in H. destruct H as [Hin Hid].
    split; [exact Hin | apply Z.eqb_eq; exact Hid].
  - intros [Hin Hid].
    apply (Permutation_in _
             (Permutation_sym (order_by_date_time_desc_perm _))).
    apply filter_In. split; [exact Hin | apply Z.eqb_eq; exact Hid].
Qed.

Lemma find_user_in (d : database) (id : Z) (t : user_row) :
  find_user d id = Some t -> In t (users d) /\ u_id t = id.
Proof.
  unfold find_user. intros H. apply find_some in H.
  destruct H as [Hin Hid]. split; [exact Hin | apply Z.eqb_eq; exact Hid].
Qed.

Lemma find_first_of_distinct (l : list user_row) (u : user_row) :
  NoDup (map u_id l) -> In u l ->
  find (fun x => u_id x =? u_id u) l = Some u.
Proof.
  induction l as [|x l IH]; intros Hnd Hin; [destruct Hin|].
  cbn in Hnd. apply NoDup_cons_iff in Hnd. destruct Hnd as [Hx Hnd].
  cbn. destruct Hin as [-> | Hin].
  - rewrite Z.eqb_refl. reflexivity.
  - destruct (u_id x =? u_id u) eqn:E.
    + apply Z.eqb_eq in E. exfalso. apply Hx. rewrite E.
      apply in_map. exact Hin.
    + exact (IH Hnd Hin).
Qed.

Lemma find_user_of_distinct (d : database) (u : user_row) :
  NoDup (map u_id (users d)) -> In u (users d) ->
  find_user d (u_id u) = Some u.
Proof.
  apply find_first_of_distinct.
Qed.

Lemma may_view_access (w : world) (v : Z) :
  NoDup (map u_id (users (w_db w))) ->
  may_view w v <-> access_granted w v.
Proof.
  intros Hnd. unfold may_view, access_granted.
  split; intros (Hu & Hr & t & H).
  - destruct H as (Hin & <- & Hg).
    repeat split; try assumption. exists t.
    split; [exact (find_user_of_distinct _ t Hnd Hin) | exact Hg].
  - destruct H as (Hfind & Hg). apply find_user_in in Hfind.
    destruct Hfind as [Hin Hid].
    repeat split; try assumption. exists t. auto.
Qed.

Lemma reports_page_cases (w : world) (v : Z) :
  v <> 0 ->
  fits_int64 v = true ->
  (access_granted w v
   /\ exists t, find_user (w_db w) v = Some t
                /\ reports_page (Some v) w
                   = (Ok (Render "reports.html"
                            (ReportsContext (appointments_of (w_db w) v) true
                               (Some (u_name t, u_username t)))), w))
  \/ (~ access_granted w v
      /\ exists target msg,
           In (target, msg) denials
           /\ reports_page (Some v) w
              = (Ok (Redirect target), flashed w msg "error")).
Proof.
  intros Hv Hfit. apply Z.eqb_neq in Hv.
  unfold access_granted, reports_page, select_user, bind, get_session,
    get_db, flash.
  rewrite Hfit. unfold ret. cbv beta iota.
  destruct (s_user_id (w_session w)) as [current|].
  - rewrite Hv. cbn [negb].
    destruct (opt_str_ne (s_role (w_session w)) (Some "admin")) eqn:Hrole.
    + right. split.
      * intros (_ & Hr & _). apply opt_str_ne_false in Hr. congruence.
      * exists "reports_page", "Access denied. Admin access required.".
        split; [cbn; auto | reflexivity].
    + apply opt_str_ne_false in Hrole.
      destruct (find_user (w_db w) v) as [t|] eqn:Ht.
      * destruct (opt_str_ne (u_patient_group t)
                    (s_admin_group (w_session w))) eqn:Hgroup.
        -- right. split.
           ++ intros (_ & _ & t' & Ht' & Hg). inversion Ht'; subst t'.
              apply opt_str_ne_false in Hg. congruence.
           ++ exists "people_page",
                "Access denied. User not in your admin group.".
              split; [cbn; auto | reflexivity].
        -- apply opt_str_ne_false in Hgroup. left. split.
           ++ repeat split; [discriminate | exact Hrole |].
              exists t. split; [reflexivity | exact Hgroup].
           ++ exists t. split; [reflexivity|].
              cbn. rewrite Ht. reflexivity.
      * right. split.
        -- intros (_ & _ & t' & Ht' & _). discriminate Ht'.
        -- exists "people_page",
             "Access denied. User not in your admin group.".
           split; [cbn; auto | reflexivity].
  - right. split.
    + intros (Hu & _). contradiction.
    + exists "login", "Please log in to view your reports.".
      split; [cbn; auto | reflexivity].
Qed.

(** An admin who asks for an id that SQLite cannot hold is answered by the
    unhandled OverflowError of the first SELECT. *)
Lemma reports_page_overflow (w : world) (v current : Z) :
  s_user_id (w_session w) = Some current ->
  s_role (w_session w) = Some "admin" ->
  v <> 0 ->
  fits_int64 v = false ->
  reports_page (Some v) w = (Raise OverflowError, w).
Proof.
  intros Hs Hr Hv Hfit. apply Z.eqb_neq in Hv.
  unfold reports_page, select_user, bind, get_session, get_db.
  rewrite Hs, Hr, Hv, Hfit. reflexivity.
Qed.

(** C9, as the code has it.  With distinct user ids, a request for the
    reports of an explicit user id that is not 0 and that SQLite can hold
    renders the appointments of that user, all of them and no other,
    exactly when the requester is logged in, the role of the session is
    admin, and a user row has that id and a patient group equal to the
    admin group of the session; in every other case the answer is a
    redirect with one of the three refusals flashed as an error, and
    nothing is rendered.  The id 0 is taken for no id, and a logged-in
    requester without an explicit user id is shown their own appointments
    only. *)
Theorem reports_access (w : world) (v : Z) :
  NoDup (map u_id (users (w_db w))) ->
  v <> 0 ->
  fits_int64 v = true ->
  let d := w_db w in
  let o := reports_page (Some v) w in
  (may_view w v ->
   exists t, In t (users d) /\ u_id t = v
             /\ o = (Ok (Render "reports.html"
                           (ReportsContext (appointments_of d v) true
                              (Some (u_name t, u_username t)))), w))
  /\ (forall template ctx, fst o = Ok (Render template ctx) -> may_view w v)
  /\ (~ may_view w v ->
      exists target msg,
        In (target, msg) denials
        /\ o = (Ok (Redirect target), flashed w msg "error"))
  /\ (forall a, In a (appointments_of d v)
                <-> In a (appointments d) /\ a_user_id a = v)
  /\ (forall current,
        s_user_id (w_session w) = Some current ->
        reports_page None w
        = (Ok (Render "reports.html"
                 (ReportsContext (appointments_of d current) false None)), w)
        /\ reports_page (Some 0) w = reports_page None w
        /\ forall a, In a (appointments_of d current)
                     <-> In a (appointments d) /\ a_user_id a = current).
Proof.
  intros Hnd Hv Hfit d o.
  pose proof (reports_page_cases w v Hv Hfit) as Hcases.
  pose proof (may_view_access w v Hnd) as Hsame.
  fold o in Hcases. fold d in Hcases. clearbody o.
  split; [|split; [|split; [|split]]].
  - intros Hg. apply Hsame in Hg.
    destruct Hcases as [[_ (t & Ht & E)] | [Hn _]]; [|contradiction].
    apply find_user_in in Ht. destruct Ht as [Hin Hid].
    exists t. auto.
  - intros template ctx Hctx. apply Hsame.
    destruct Hcases as [[Hg _] | [_ (target & msg & _ & E)]];
      [exact Hg|].
    rewrite E in Hctx. discriminate Hctx.
  - intros Hn. destruct Hcases as [[Hg _] | [_ H]]; [|exact H].
    exfalso. apply Hn, Hsame. exact Hg.
  - intros a. apply appointments_of_user.
  - intros current Hc.
    split; [|split; [|intros a; apply appointments_of_user]];
      unfold reports_page, bind, get_session, get_db; cbv beta iota;
      rewrite Hc; reflexivity.
Qed.

(** * The properties at sample inputs *)

Lemma extract_diet_fails_whole_witness :
  extraction_ready (w_session (sample_world sample_appointment))
    sample_appointment
  /\ extract_diet unparsable_runtime (sample_world sample_appointment)
     = (Ok (Jsonify 500
              [("error", PStr "Expecting value: line 1 column 1 (char 0)")]),
        sent (sample_world sample_appointment)
          (extraction_request unparsable_runtime sample_history))
  /\ w_db (snd (extract_diet unparsable_runtime
                  (sample_world sample_appointment)))
     = sample_db 7.
Proof.
  assert (H : extraction_ready (w_session (sample_world sample_appointment))
                sample_appointment)
    by (repeat split; discriminate).
  split; [exact H|].
  apply (extract_diet_fails_whole unparsable_runtime
           (sample_world sample_appointment) sample_appointment
           "Expecting value: line 1 column 1 (char 0)" H).
  right. exists "Sorry, I cannot help.", []. split; reflexivity.
Defined.

Lemma conversation_turn_appends_two_witness :
  exists w',
    conversation_page (chat_runtime (inr [Some "Thank you. And her weight?"]))
      POST (PDict sample_body) (sample_world sample_appointment)
    = (Ok (Jsonify 200 [("message", PStr "Thank you. And her weight?")]), w')
    /\ transcript (w_session w')
       = (sample_history
          ++ [mk_message "user" (PStr "She is 120 cm tall");
              mk_message "assistant" (PStr "Thank you. And her weight?")])%list.
Proof.
  destruct (conversation_turn_appends_two
              (chat_runtime (inr [Some "Thank you. And her weight?"]))
              (sample_world sample_appointment) sample_appointment
              sample_body "Thank you. And her weight?" [])
    as (w' & Hrun & Ht & _);
    [reflexivity | reflexivity | reflexivity | discriminate |].
  exists w'. split; [exact Hrun | exact Ht].
Defined.

Lemma conversation_turn_failure_witness :
  exists text,
    conversation_page (chat_runtime (inl "Error code: 429 - Too Many Requests"))
      POST (PDict sample_body) (sample_world sample_appointment)
    = (Ok (Jsonify 500 [("error", PStr "Error code: 429 - Too Many Requests");
                        ("message", PStr text)]),
       sent (sample_world sample_appointment)
         (chat_request (chat_runtime (inl "Error code: 429 - Too Many Requests"))
            sample_appointment sample_history (PStr "She is 120 cm tall")))
    /\ text = rate_limit_apology.
Proof.
  destruct (conversation_turn_failure
              (chat_runtime (inl "Error code: 429 - Too Many Requests"))
              (sample_world sample_appointment) sample_appointment
              sample_body "Error code: 429 - Too Many Requests")
    as (text & Hrun & _ & Hrate & _);
    [reflexivity | reflexivity | apply fails_raising; reflexivity |].
  exists text. split; [exact Hrun|]. apply Hrate.
  left. exists "Error code: ", " - Too Many Requests". reflexivity.
Defined.

(** Counterexample to C3 as stated: the failure is an authentication
    problem, its text says so and names an API key, and the message is the
    rate-limit apology, because "429" occurs in the text (here in the
    request id) and the handler tests for the rate limit first. *)
Lemma authentication_failure_gets_rate_limit_text :
  indicates_authentication rejected_key_detail
  /\ conversation_page (chat_runtime (inl rejected_key_detail))
       POST (PDict sample_body) (sample_world sample_appointment)
     = (Ok (Jsonify 500 [("error", PStr rejected_key_detail);
                         ("message", PStr rate_limit_apology)]),
        sent (sample_world sample_appointment)
          (chat_request (chat_runtime (inl rejected_key_detail))
             sample_appointment sample_history (PStr "She is 120 cm tall")))
  /\ rate_limit_apology <> authentication_apology.
Proof.
  split; [|split; [reflexivity | discriminate]].
  left. exists "Error code: 401 - Incorrect ", "API key",
          " provided (request id req_14290)".
  split; reflexivity.
Qed.

Lemma growth_call_exact_witness :
  extraction_ready (w_session (sample_world sample_appointment))
    sample_appointment
  /\ w_calls (snd (extract_diet
                     (extraction_runtime measured_payload
                        (inr [Some "BMI: 16.7"]))
                     (sample_world sample_appointment)))
     = [ extraction_request
           (extraction_runtime measured_payload (inr [Some "BMI: 16.7"]))
           sample_history;
         growth_request_for
           (extraction_runtime measured_payload (inr [Some "BMI: 16.7"]))
           sample_appointment measured_payload ].
Proof.
  pose (rt := extraction_runtime measured_payload (inr [Some "BMI: 16.7"])).
  assert (H : extraction_ready (w_session (sample_world sample_appointment))
                sample_appointment)
    by (repeat split; discriminate).
  split; [exact H|].
  destruct (growth_call_exact rt (sample_world sample_appointment)
              (snd (extract_diet rt (sample_world sample_appointment)))
              sample_appointment
              [("success", PBool true); ("data", PDict measured_payload)]
              H eq_refl)
    as (d & Hbody & _ & Hsent & _).
  inversion Hbody. subst d.
  apply Hsent. repeat split; try discriminate.
  exists "female". split; [reflexivity | discriminate].
Defined.

(** C4.  The growth call is missed for an infant.  In the first year of
    life the age of the session is 0; height and weight are extracted, age
    and gender are present, the extraction succeeds, and yet the only
    request sent is the extraction request and the growth text of the row
    is N/A: the guard of [extract_diet] takes the age 0 for no age. *)
Lemma growth_call_skipped_at_age_zero :
  s_appointment_data (w_session (sample_world infant_appointment))
  = Some infant_appointment
  /\ ad_age_years infant_appointment = 0
  /\ ad_gender infant_appointment = Some "female"
  /\ dict_get measured_payload "height" (PStr "N/A") = PStr "60 cm"
  /\ dict_get measured_payload "weight" (PStr "N/A") = PStr "6 kg"
  /\ fst (extract_diet
            (extraction_runtime measured_payload (inr [Some "BMI: 16.7"]))
            (sample_world infant_appointment))
     = Ok (Jsonify 200
             [("success", PBool true); ("data", PDict measured_payload)])
  /\ w_calls (snd (extract_diet
                     (extraction_runtime measured_payload
                        (inr [Some "BMI: 16.7"]))
                     (sample_world infant_appointment)))
     = [ extraction_request
           (extraction_runtime measured_payload (inr [Some "BMI: 16.7"]))
           sample_history ]
  /\ map a_growth_percentile_info
       (appointments
          (w_db (snd (extract_diet
                        (extraction_runtime measured_payload
                           (inr [Some "BMI: 16.7"]))
                        (sample_world infant_appointment)))))
     = [Some "N/A"].
Proof.
  repeat split.
Qed.

Lemma extraction_fills_categories_witness :
  extraction_ready (w_session (sample_world sample_appointment))
    sample_appointment
  /\ Forall (fun r => a_diet_info r = Some "- breast milk"
                      /\ a_diet_recommendations r = Some "None")
       (rows_with_id
          (w_db (snd (extract_diet
                        (extraction_runtime measured_payload no_reply)
                        (sample_world sample_appointment))))
          1).
Proof.
  pose (rt := extraction_runtime measured_payload no_reply).
  assert (H : extraction_ready (w_session (sample_world sample_appointment))
                sample_appointment)
    by (repeat split; discriminate).
  split; [exact H|].
  destruct (extraction_fills_categories rt (sample_world sample_appointment)
              (snd (extract_diet rt (sample_world sample_appointment)))
              sample_appointment
              [("success", PBool true); ("data", PDict measured_payload)]
              H eq_refl)
    as (d & Hbody & Hrows).
  inversion Hbody. subst d.
  apply Forall_forall. intros r Hr.
  specialize (Hrows r Hr). rewrite Forall_forall in Hrows.
  split.
  - apply (Hrows ("diet", "", a_diet_info)); [cbn; auto | reflexivity].
  - apply (Hrows ("diet_recommendations", "None", a_diet_recommendations));
      [cbn; auto 10 | reflexivity].
Defined.

(** Counterexample to C5 as stated: a payload whose [diet] is JSON null makes a
    successful extraction that leaves the diet column NULL, not a string. *)
Lemma extraction_keeps_null_category :
  s_appointment_data (w_session (sample_world sample_appointment))
  = Some sample_appointment
  /\ dict_get null_diet_payload "diet" (PStr "") = PNone
  /\ fst (extract_diet (extraction_runtime null_diet_payload no_reply)
            (sample_world sample_appointment))
     = Ok (Jsonify 200
             [("success", PBool true); ("data", PDict null_diet_payload)])
  /\ map a_diet_info
       (rows_with_id
          (w_db (snd (extract_diet
                        (extraction_runtime null_diet_payload no_reply)
                        (sample_world sample_appointment))))
          1)
     = [None].
Proof.
  repeat split.
Qed.



Lemma sample_signup_valid (role group : string) :
  role <> "" ->
  valid_signup signup_runtime sample_clock (sample_form role group)
    (w_db admin_world) "carol" "secret" role (mk_date 2006 6 15).
Proof.
  intros Hrole.
  constructor; try reflexivity; try discriminate; try exact Hrole.
  right. reflexivity.
Qed.

Lemma signup_age_and_group_rules_witness :
  age_on (today sample_clock) (mk_date 2006 6 15) = 18
  /\ accepted signup_runtime sample_clock (sample_form "patient" "")
       admin_world
       (signup signup_runtime POST (sample_form "patient" "") sample_clock
          admin_world).
Proof.
  split; [reflexivity|].
  destruct (signup_age_and_group_rules signup_runtime sample_clock
              (sample_form "patient" "") admin_world "carol" "secret"
              "patient" (mk_date 2006 6 15))
    as (_ & Heighteen & _);
    [apply sample_signup_valid; discriminate|].
  exact (Heighteen eq_refl eq_refl).
Defined.

Lemma signup_row_groups_witness :
  u_role (new_user signup_runtime sample_clock (sample_form "patient" "staff")
            (w_db admin_world) "carol" "secret" "patient")
  = "patient"
  /\ u_admin_group
       (new_user signup_runtime sample_clock (sample_form "patient" "staff")
          (w_db admin_world) "carol" "secret" "patient")
     = None.
Proof.
  split; [reflexivity|].
  destruct (signup_row_groups signup_runtime sample_clock
              (sample_form "patient" "staff") admin_world
              (new_user signup_runtime sample_clock
                 (sample_form "patient" "staff") (w_db admin_world)
                 "carol" "secret" "patient"))
    as (_ & _ & Hpatient & _).
  - right. right. left. reflexivity.
  - intros [H | [H | []]]; discriminate H.
  - exact (Hpatient eq_refl).
Defined.

Lemma reports_access_witness :
  may_view admin_world 1
  /\ reports_page (Some 1) admin_world
     = (Ok (Render "reports.html"
              (ReportsContext [sample_row 7] true
                 (Some (Some "Alice Doe", "alice")))),
        admin_world)
  /\ ~ may_view admin_world 2
  /\ exists target msg,
       In (target, msg) denials
       /\ reports_page (Some 2) admin_world
          = (Ok (Redirect target), flashed admin_world msg "error").
Proof.
  assert (Hnd : NoDup (map u_id (users (w_db admin_world)))).
  { repeat constructor; cbn; intuition discriminate. }
  assert (Hg : may_view admin_world 1).
  { repeat split; [discriminate|].
    exists sample_user. repeat split. left. reflexivity. }
  assert (Hn : ~ may_view admin_world 2).
  { intros (_ & _ & t & Hin & Hid & Hgroup).
    destruct Hin as [<- | [<- | []]]; discriminate. }
  split; [exact Hg|]. split.
  - destruct (reports_access admin_world 1 Hnd) as [Hshown _];
      [discriminate | reflexivity|].
    destruct (Hshown Hg) as (t & Hin & Hid & Hrun).
    destruct Hin as [<- | [<- | []]]; [exact Hrun | discriminate Hid].
  - split; [exact Hn|].
    destruct (reports_access admin_world 2 Hnd) as (_ & _ & Hdenied & _);
      [discriminate | reflexivity|].
    exact (Hdenied Hn).
Defined.

(** Counterexample to C9 as stated: a patient who asks for the reports of
    the user id 0 is not redirected; the handler takes 0 for no id and
    renders the patient's own appointments.  And an admin who asks for the
    id 2^63 is not redirected either: the SELECT raises OverflowError,
    which the handler leaves unhandled. *)
Lemma reports_of_user_zero_are_rendered :
  s_role (w_session patient_world) = Some "patient"
  /\ reports_page (Some 0) patient_world
     = (Ok (Render "reports.html" (ReportsContext [sample_row 7] false None)),
        patient_world)
  /\ reports_page (Some (2 ^ 63)) admin_world
     = (Raise OverflowError, admin_world).
Proof.
  repeat split.
Qed.

(** * Further properties *)

(** ** The schema *)

Section SchemaFacts.

Import Schema.

Lemma same_name_refl (a : string) : same_name a a = true.
Proof. apply String.eqb_refl. Qed.

Lemma grows_refl (t : table) : grows t t.
Proof.
  repeat split. exists []. symmetry. apply app_nil_r.
Qed.

Lemma grows_trans (a b c : table) : grows a b -> grows b c -> grows a c.
Proof.
  intros (Hn & Hc & x & Hx) (Hn' & Hc' & y & Hy).
  repeat split; try congruence.
  exists (x ++ y)%list. rewrite Hy, Hx. symmetry. apply app_assoc.
Qed.

Lemma Forall2_grows_refl (s : schema) : Forall2 grows s s.
Proof.
  induction s; constructor; auto using grows_refl.
Qed.

Lemma Forall2_grows_trans (a b c : schema) :
  Forall2 grows a b -> Forall2 grows b c -> Forall2 grows a c.
Proof.
  intros Hab. revert c.
  induction Hab as [|x y l l' Hxy _ IH]; intros c Hbc; inversion Hbc; subst;
    constructor; eauto using grows_trans.
Qed.

Lemma extends_refl (s : schema) : extends s s.
Proof.
  exists s, []. split; [apply Forall2_grows_refl | symmetry; apply app_nil_r].
Qed.

Lemma extends_trans (a b c : schema) :
  extends a b -> extends b c -> extends a c.
Proof.
  intros (k & e & Hk & ->) (k' & e' & Hk' & ->).
  apply Forall2_app_inv_l in Hk'.
  destruct Hk' as (k1 & k2 & H1 & H2 & ->).
  exists k1, (k2 ++ e')%list. split.
  - eapply Forall2_grows_trans; eauto.
  - symmetry. apply app_assoc.
Qed.

Lemma on_table_grows (tn : string) (f : table -> table) (s : schema) :
  (forall t, grows t (f t)) -> Forall2 grows s (on_table tn f s).
Proof.
  intros Hf. unfold on_table.
  induction s as [|t s IH]; cbn; constructor; auto.
  destruct (same_name (t_name t) tn); auto using grows_refl.
Qed.

Lemma create_extends (t : table) (s : schema) :
  extends s (create_table_if_not_exists t s).
Proof.
  unfold create_table_if_not_exists.
  destruct (lookup s (t_name t)); [apply extends_refl|].
  exists s, [t]. split; [apply Forall2_grows_refl | reflexivity].
Qed.

Lemma attempt_add_extends (tn : string) (c : column) (s : schema) :
  extends s (attempt (add_column tn c) s).
Proof.
  unfold attempt, add_column.
  destruct (lookup s tn) as [t|]; [|apply extends_refl].
  destruct (has_column t (c_name c)); [apply extends_refl|].
  exists (on_table tn
            (fun t' => mk_table (t_name t') (t_columns t' ++ [c])
                         (t_constraints t')) s), [].
  split; [|symmetry; apply app_nil_r].
  apply on_table_grows. intros t'. repeat split. exists [c]. reflexivity.
Qed.

Lemma add_text_columns_extends (tn : string) (names : list string)
  (s : schema) :
  extends s (add_text_columns tn names s).
Proof.
  unfold add_text_columns. revert s.
  induction names as [|n names IH]; intros s; cbn; [apply extends_refl|].
  eapply extends_trans; [apply attempt_add_extends | apply IH].
Qed.

Lemma has_column_grows (t t' : table) (cn : string) :
  grows t t' -> has_column t cn = true -> has_column t' cn = true.
Proof.
  intros (_ & _ & added & Hc). unfold has_column. rewrite Hc, existsb_app.
  intros ->. reflexivity.
Qed.

Lemma lookup_extends (s s' : schema) (tn : string) (t : table) :
  extends s s' -> lookup s tn = Some t ->
  exists t', lookup s' tn = Some t' /\ grows t t'.
Proof.
  intros (k & e & Hk & ->). unfold lookup.
  induction Hk as [|x y l l' Hxy _ IH]; cbn; [discriminate|].
  destruct Hxy as (Hn & Hrest). rewrite Hn.
  destruct (same_name (t_name x) tn).
  - intros E. inversion E. subst. exists y. split; [reflexivity|].
    split; assumption.
  - exact IH.
Qed.

Lemma table_has_extends (s s' : schema) (tn cn : string) :
  extends s s' -> table_has s tn cn = true -> table_has s' tn cn = true.
Proof.
  intros He. unfold table_has.
  destruct (lookup s tn) as [t|] eqn:E; [|discriminate].
  destruct (lookup_extends s s' tn t He E) as (t' & -> & Hg).
  apply has_column_grows. exact Hg.
Qed.

Lemma lookup_create (t : table) (s : schema) :
  lookup (create_table_if_not_exists t s) (t_name t) <> None.
Proof.
  unfold create_table_if_not_exists.
  destruct (lookup s (t_name t)) eqn:E; [congruence|].
  unfold lookup in *.
  induction s as [|x s IH]; cbn in *.
  - rewrite same_name_refl. discriminate.
  - destruct (same_name (t_name x) (t_name t)); [discriminate | auto].
Qed.

Lemma lookup_on_table (tn tn' : string) (f : table -> table) (s : schema) :
  (forall t, t_name (f t) = t_name t) ->
  lookup (on_table tn f s) tn'
  = option_map (fun t => if same_name (t_name t) tn then f t else t)
      (lookup s tn').
Proof.
  intros Hf. unfold lookup, on_table.
  induction s as [|x s IH]; cbn; [reflexivity|].
  assert (Hn : t_name (if same_name (t_name x) tn then f x else x)
               = t_name x)
    by (destruct (same_name (t_name x) tn); auto).
  rewrite Hn.
  destruct (same_name (t_name x) tn'); [reflexivity | exact IH].
Qed.

(** After an attempted ADD COLUMN on a table that exists, the table has
    the column: it was added, or it was there. *)
Lemma attempt_add_present (tn : string) (c : column) (s : schema) :
  lookup s tn <> None ->
  table_has (attempt (add_column tn c) s) tn (c_name c) = true.
Proof.
  intros Hl. unfold attempt, add_column, table_has.
  destruct (lookup s tn) as [t|] eqn:E; [|contradiction].
  destruct (has_column t (c_name c)) eqn:Hc.
  - rewrite E. exact Hc.
  - rewrite lookup_on_table by reflexivity. rewrite E. cbn [option_map].
    assert (Hn : same_name (t_name t) tn = true).
    { unfold lookup in E. apply find_some in E. apply E. }
    rewrite Hn. unfold has_column. cbn [t_columns].
    rewrite existsb_app. cbn. rewrite same_name_refl.
    apply orb_true_iff. right. reflexivity.
Qed.

(** An ADD COLUMN for a column the table has is passed over. *)
Lemma attempt_add_again (tn : string) (c : column) (s : schema) :
  table_has s tn (c_name c) = true -> attempt (add_column tn c) s = s.
Proof.
  unfold table_has, attempt, add_column.
  destruct (lookup s tn) as [t|]; [|discriminate].
  intros ->. reflexivity.
Qed.

Lemma table_has_lookup (s : schema) (tn cn : string) :
  table_has s tn cn = true -> lookup s tn <> None.
Proof.
  unfold table_has. destruct (lookup s tn); [discriminate | discriminate].
Qed.

Lemma lookup_kept (s s' : schema) (tn : string) :
  extends s s' -> lookup s tn <> None -> lookup s' tn <> None.
Proof.
  intros He Hl. destruct (lookup s tn) as [t|] eqn:E; [|contradiction].
  destruct (lookup_extends s s' tn t He E) as (t' & -> & _). discriminate.
Qed.

Lemma add_text_columns_present (tn : string) (names : list string)
  (s : schema) :
  lookup s tn <> None ->
  Forall (fun n => table_has (add_text_columns tn names s) tn n = true) names.
Proof.
  revert s.
  induction names as [|n names IH]; intros s Hl; constructor.
  - apply (table_has_extends
             (attempt (add_column tn (mk_column n "TEXT")) s)).
    + apply (add_text_columns_extends tn names).
    + apply (attempt_add_present tn (mk_column n "TEXT")). exact Hl.
  - apply (IH (attempt (add_column tn (mk_column n "TEXT")) s)).
    eapply lookup_kept; [apply attempt_add_extends | exact Hl].
Qed.

Lemma add_text_columns_again (tn : string) (names : list string)
  (s : schema) :
  Forall (fun n => table_has s tn n = true) names ->
  add_text_columns tn names s = s.
Proof.
  unfold add_text_columns.
  induction 1 as [|n names Hn _ IH]; cbn; [reflexivity|].
  rewrite (attempt_add_again tn (mk_column n "TEXT") s Hn). exact IH.
Qed.

End SchemaFacts.

Section InitDb.

Import Schema.

Lemma before_rename_extends (s : schema) : extends s (before_rename s).
Proof.
  unfold before_rename.
  repeat (eapply extends_trans; [|apply attempt_add_extends]).
  apply create_extends.
Qed.

Lemma before_rename_users (s : schema) :
  table_has (before_rename s) "users" "name" = true
  /\ table_has (before_rename s) "users" "date_of_birth" = true
  /\ table_has (before_rename s) "users" "gender" = true.
Proof.
  unfold before_rename.
  pose proof (lookup_create users_table s) as H0.
  cbn [t_name users_table] in H0.
  set (s1 := create_table_if_not_exists users_table s) in *.
  pose proof (attempt_add_present "users" (mk_column "name" "TEXT") s1 H0)
    as Hname.
  set (s2 := attempt (add_column "users" (mk_column "name" "TEXT")) s1) in *.
  assert (H2 : lookup s2 "users" <> None)
    by (eapply lookup_kept; [apply attempt_add_extends | exact H0]).
  pose proof (attempt_add_present "users" (mk_column "date_of_birth" "TEXT")
                s2 H2) as Hdob.
  set (s3 := attempt (add_column "users" (mk_column "date_of_birth" "TEXT"))
               s2) in *.
  assert (H3 : lookup s3 "users" <> None)
    by (eapply lookup_kept; [apply attempt_add_extends | exact H2]).
  pose proof (attempt_add_present "users" (mk_column "gender" "TEXT") s3 H3)
    as Hgender.
  cbn [c_name] in *.
  repeat split.
  - eapply table_has_extends; [apply attempt_add_extends|].
    eapply table_has_extends; [apply attempt_add_extends|]. exact Hname.
  - eapply table_has_extends; [apply attempt_add_extends|]. exact Hdob.
  - exact Hgender.
Qed.

(** The RENAME of [init_db] always raises: by then the users table has a
    gender column, so the target name is taken whether or not the table has
    the column to rename.  The statements under its [except] branch run on
    every start. *)
Lemma init_db_rename_fails (s : schema) :
  init_db s = create_appointments (before_rename s).
Proof.
  unfold init_db. fold (before_rename s).
  destruct (before_rename_users s) as (_ & _ & Hg).
  unfold rename_column. unfold table_has in Hg.
  destruct (lookup (before_rename s) "users") as [t|]; [|reflexivity].
  rewrite Hg.
  destruct (has_column t "sex_assigned_at_birth"); reflexivity.
Qed.

Lemma create_appointments_extends (s : schema) :
  extends s (create_appointments s).
Proof.
  unfold create_appointments. cbv zeta.
  eapply extends_trans; [|apply attempt_add_extends].
  eapply extends_trans; [|apply add_text_columns_extends].
  eapply extends_trans; [|apply add_text_columns_extends].
  eapply extends_trans; [|apply attempt_add_extends].
  apply create_extends.
Qed.

Lemma create_appointments_columns (s : schema) :
  Forall (fun n => table_has (create_appointments s) "appointments" n = true)
    ("diet_info" :: section_columns ++ recommendation_columns
     ++ ["growth_percentile_info"])%list.
Proof.
  unfold create_appointments. cbv zeta.
  pose proof (lookup_create appointments_table s) as H1.
  cbn [t_name appointments_table] in H1.
  set (s1 := create_table_if_not_exists appointments_table s) in *.
  pose proof (attempt_add_present "appointments"
                (mk_column "diet_info" "TEXT") s1 H1) as Hdiet.
  set (s2 := attempt (add_column "appointments"
                        (mk_column "diet_info" "TEXT")) s1) in *.
  assert (H2 : lookup s2 "appointments" <> None)
    by (eapply lookup_kept; [apply attempt_add_extends | exact H1]).
  pose proof (add_text_columns_present "appointments" section_columns s2 H2)
    as Hsec.
  set (s3 := add_text_columns "appointments" section_columns s2) in *.
  assert (H3 : lookup s3 "appointments" <> None)
    by (eapply lookup_kept; [apply add_text_columns_extends | exact H2]).
  pose proof (add_text_columns_present "appointments" recommendation_columns
                s3 H3) as Hrec.
  set (s4 := add_text_columns "appointments" recommendation_columns s3) in *.
  assert (H4 : lookup s4 "appointments" <> None)
    by (eapply lookup_kept; [apply add_text_columns_extends | exact H3]).
  pose proof (attempt_add_present "appointments"
                (mk_column "growth_percentile_info" "TEXT") s4 H4) as Hgrowth.
  set (s5 := attempt (add_column "appointments"
                        (mk_column "growth_percentile_info" "TEXT")) s4) in *.
  assert (E45 : extends s4 s5) by apply attempt_add_extends.
  assert (E34 : extends s3 s4) by apply add_text_columns_extends.
  assert (E23 : extends s2 s3) by apply add_text_columns_extends.
  constructor.
  - eauto using table_has_extends.
  - apply Forall_app. split; [|apply Forall_app; split].
    + eapply Forall_impl; [|exact Hsec]. cbv beta.
      eauto using table_has_extends.
    + eapply Forall_impl; [|exact Hrec]. cbv beta.
      eauto using table_has_extends.
    + constructor; [exact Hgrowth | constructor].
Qed.

Lemma init_db_columns (s : schema) : migrated (init_db s).
Proof.
  rewrite init_db_rename_fails.
  destruct (before_rename_users s) as (Hn & Hd & Hg).
  pose proof (create_appointments_extends (before_rename s)) as He.
  pose proof (create_appointments_columns (before_rename s)) as Hc.
  rewrite Forall_forall in Hc.
  unfold migrated, migrated_columns.
  repeat apply Forall_cons; try apply Forall_nil; cbn [fst snd];
    first [ eapply table_has_extends; [exact He | assumption]
          | apply Hc; unfold section_columns, recommendation_columns;
            cbn; auto 20 ].
Qed.

(** X1.  Whatever the schema of the database file was, after [init_db] the
    users table has the columns name, date_of_birth and gender, and the
    appointments table exists with the thirteen columns the migration adds
    after its creation. *)
Theorem init_db_migrates (s : schema) : migrated (init_db s).
Proof.
  exact (init_db_columns s).
Qed.

Lemma create_again (t : table) (s : schema) :
  lookup s (t_name t) <> None -> create_table_if_not_exists t s = s.
Proof.
  unfold create_table_if_not_exists.
  destruct (lookup s (t_name t)); [reflexivity | contradiction].
Qed.

Lemma migrated_has (s : schema) (tn cn : string) :
  migrated s -> In (tn, cn) migrated_columns -> table_has s tn cn = true.
Proof.
  unfold migrated. rewrite Forall_forall. intros H Hin.
  exact (H (tn, cn) Hin).
Qed.

(** On a schema that has every migrated column, [init_db] changes
    nothing. *)
Lemma init_db_settled (s : schema) : migrated s -> init_db s = s.
Proof.
  intros Hm.
  assert (Hhas : forall tn cn, In (tn, cn) migrated_columns ->
                               table_has s tn cn = true)
    by (intros; apply migrated_has; assumption).
  assert (Hb : before_rename s = s).
  { unfold before_rename.
    rewrite create_again
      by (apply (table_has_lookup s "users" "name"); apply Hhas; cbn; auto).
    rewrite (attempt_add_again "users" (mk_column "name" "TEXT") s)
      by (apply Hhas; cbn; auto).
    rewrite (attempt_add_again "users" (mk_column "date_of_birth" "TEXT") s)
      by (apply Hhas; cbn; auto).
    apply attempt_add_again. apply Hhas. cbn. auto. }
  rewrite init_db_rename_fails, Hb.
  unfold create_appointments. cbv zeta.
  rewrite create_again
    by (apply (table_has_lookup s "appointments" "diet_info");
        apply Hhas; cbn; auto 20).
  rewrite (attempt_add_again "appointments" (mk_column "diet_info" "TEXT"))
    by (apply Hhas; cbn; auto 20).
  rewrite (add_text_columns_again "appointments" section_columns)
    by (unfold section_columns; repeat constructor; apply Hhas; cbn; auto 20).
  rewrite (add_text_columns_again "appointments" recommendation_columns)
    by (unfold recommendation_columns; repeat constructor; apply Hhas; cbn;
        auto 20).
  apply attempt_add_again. apply Hhas. cbn. auto 20.
Qed.

(** X2.  [init_db] only adds.  Every table of the schema it starts from is
    still there, in its place, under its name and with its constraints, and
    keeps its columns in their order; new columns come after them and new
    tables after the old ones.  In particular no column is renamed: a users
    table that has a sex_assigned_at_birth column still has it afterwards,
    beside the gender column. *)
Theorem init_db_only_adds (s : schema) :
  extends s (init_db s)
  /\ (forall tn cn, table_has s tn cn = true ->
                    table_has (init_db s) tn cn = true)
  /\ (table_has s "users" "sex_assigned_at_birth" = true ->
      table_has (init_db s) "users" "sex_assigned_at_birth" = true
      /\ table_has (init_db s) "users" "gender" = true).
Proof.
  assert (He : extends s (init_db s)).
  { rewrite init_db_rename_fails.
    eapply extends_trans;
      [apply before_rename_extends | apply create_appointments_extends]. }
  split; [exact He|]. split.
  - intros tn cn. apply table_has_extends. exact He.
  - intros Hold. split.
    + eapply table_has_extends; [exact He | exact Hold].
    + apply (migrated_has (init_db s) "users" "gender");
        [apply init_db_columns | cbn; auto].
Qed.

(** X3.  [init_db] is idempotent: a second run on the schema the first run
    left finds every table and column in place and changes nothing. *)
Theorem init_db_idempotent (s : schema) : init_db (init_db s) = init_db s.
Proof.
  apply init_db_settled. apply init_db_columns.
Qed.

End InitDb.

Lemma init_db_only_adds_witness :
  Schema.table_has Schema.legacy_schema "users" "sex_assigned_at_birth" = true
  /\ Schema.table_has (Schema.init_db Schema.legacy_schema) "users"
       "sex_assigned_at_birth" = true
  /\ Schema.table_has (Schema.init_db Schema.legacy_schema) "users" "gender"
     = true.
Proof.
  split; [reflexivity|].
  destruct (init_db_only_adds Schema.legacy_schema) as (_ & _ & Hlegacy).
  apply Hlegacy. reflexivity.
Defined.

(** ** Starting an appointment *)

(** [appointment_page] in closed form. *)
Lemma appointment_page_run (rt : Runtime) (clk : clock) (w : world) :
  appointment_page rt clk w
  = match s_user_id (w_session w) with
    | None => (Ok (Redirect "login"), w)
    | Some user_id =>
        if user_id =? 0 then (Ok (Redirect "login"), w)
        else
          match find_user (w_db w) user_id with
          | None =>
              (Ok (Redirect "login"),
               flashed w "User not found. Please log in again." "error")
          | Some user =>
              match birth_date rt user with
              | Raise e =>
                  (Ok (Redirect "main_page"),
                   flashed w
                     ("An error occurred: " ++ str_exn rt e
                      ++ ". Please try again.") "error")
              | Ok dob =>
                  (Ok (Redirect "conversation_page"),
                   appointment_started clk user_id user dob w)
              end
          end
    end.
Proof.
  unfold appointment_page, try_except.
  unfold bind at 1. unfold get_session at 1.
  destruct (s_user_id (w_session w)) as [user_id|]; [|reflexivity].
  destruct (user_id =? 0); [reflexivity|].
  unfold bind at 1. unfold get_db at 1.
  destruct (find_user (w_db w) user_id) as [user|]; [|reflexivity].
  unfold bind at 1. unfold strptime, birth_date.
  destruct (u_date_of_birth user) as [s|]; [|reflexivity].
  destruct (strptime_ymd rt s) as [msg|dob]; [reflexivity|].
  unfold appointment_started, fresh_row, fresh_appointment, display_name.
  destruct (u_name user) as [[|c t]|]; reflexivity.
Qed.

(** X4.  For a logged-in user of the table whose date of birth parses,
    [appointment_page] redirects to the conversation, appends one row to the
    appointments table and leaves the rows that were there: the new row has
    the next id of the counter, the user's id, the age computed from the
    date of birth, N/A for height and weight and NULL in every extracted
    column.  The session holds the appointment under that id, named after
    the user's name or, when that is NULL or empty, the username, with an
    empty transcript. *)
Theorem appointment_page_starts (rt : Runtime) (clk : clock) (w : world)
  (user_id : Z) (user : user_row) (dob : date) :
  can_start rt w user_id user dob ->
  exists w',
    appointment_page rt clk w = (Ok (Redirect "conversation_page"), w')
    /\ appointments (w_db w')
       = (appointments (w_db w)
          ++ [fresh_row clk (w_db w) user_id (age_on (today clk) dob)])%list
    /\ users (w_db w') = users (w_db w)
    /\ s_appointment_data (w_session w')
       = Some (fresh_appointment clk (w_db w) user (age_on (today clk) dob))
    /\ s_conversation_history (w_session w') = Some []
    /\ s_user_id (w_session w') = Some user_id
    /\ w_calls w' = w_calls w.
Proof.
  intros (Hs & Hid & Hu & Hd).
  exists (appointment_started clk user_id user dob w).
  rewrite appointment_page_run, Hs.
  apply Z.eqb_neq in Hid. rewrite Hid, Hu, Hd.
  repeat split. exact Hs.
Qed.

(** X5.  [appointment_page] never raises.  When it does not redirect to the
    conversation (nobody logged in, a user id of no row, a date of birth
    that is NULL or does not parse) it redirects to the login or the main
    page and leaves the tables and the session as they were; a user row
    without a date of birth gets the text of the TypeError flashed. *)
Theorem appointment_page_fails_clean (rt : Runtime) (clk : clock)
  (w : world) :
  exists r w',
    appointment_page rt clk w = (Ok (Redirect r), w')
    /\ (r = "conversation_page" \/ r = "login" \/ r = "main_page")
    /\ (r <> "conversation_page" ->
        w_db w' = w_db w /\ w_session w' = w_session w
        /\ w_calls w' = w_calls w)
    /\ (forall user_id user,
          s_user_id (w_session w) = Some user_id -> user_id <> 0 ->
          find_user (w_db w) user_id = Some user ->
          u_date_of_birth user = None ->
          r = "main_page"
          /\ w_flashes w'
             = (w_flashes w
                ++ [("An error occurred: strptime() argument 1 must be str, not None. Please try again.",
                     "error")])%list).
Proof.
  rewrite appointment_page_run.
  destruct (s_user_id (w_session w)) as [user_id|] eqn:Hs.
  2:{ exists "login", w.
      split; [reflexivity|]. split; [auto|].
      split; [intros _; repeat split|].
      intros u0 us E. discriminate E. }
  destruct (user_id =? 0) eqn:Hz.
  { exists "login", w. apply Z.eqb_eq in Hz.
    split; [reflexivity|]. split; [auto|].
    split; [intros _; repeat split|].
    intros u0 us E Hn. inversion E; subst. contradiction. }
  destruct (find_user (w_db w) user_id) as [user|] eqn:Hu.
  2:{ eexists "login", _. split; [reflexivity|]. split; [auto|].
      split; [intros _; repeat split|].
      intros u0 us E Hn Hf. inversion E; subst.
      rewrite Hu in Hf. discriminate Hf. }
  destruct (birth_date rt user) as [dob|e] eqn:Hd.
  - eexists "conversation_page", _. split; [reflexivity|].
    split; [auto|]. split; [intros H; contradiction|].
    intros u0 us E Hn Hf Hnull. inversion E; subst.
    rewrite Hu in Hf. inversion Hf; subst.
    unfold birth_date in Hd. rewrite Hnull in Hd. discriminate Hd.
  - eexists "main_page", _. split; [reflexivity|].
    split; [auto|]. split; [intros _; repeat split|].
    intros u0 us E Hn Hf Hnull. inversion E; subst.
    rewrite Hu in Hf. inversion Hf; subst.
    unfold birth_date in Hd. rewrite Hnull in Hd. inversion Hd; subst.
    split; reflexivity.
Qed.

(** ** Extraction, beyond the claims *)

(** Case analysis on [extract_diet]: a 400 with nothing sent, a 500 with
    the requests sent and nothing else changed, or a 200 with the rows of
    the appointment updated. *)
Lemma extract_diet_cases (rt : Runtime) (w : world)
  (P : py_result response * world -> Prop) :
  (forall msg, P (Ok (Jsonify 400 [("error", PStr msg)]), w)) ->
  (forall msg rqs,
     (List.length rqs <= 2)%nat ->
     P (Ok (Jsonify 500 [("error", PStr msg)]), more_calls w rqs)) ->
  (forall a d info rqs,
     s_appointment_data (w_session w) = Some a ->
     (List.length rqs <= 2)%nat ->
     P (Ok (Jsonify 200 [("success", PBool true); ("data", PDict d)]),
        stored_world rt d info (ad_id a) (more_calls w rqs))) ->
  P (extract_diet rt w).
Proof.
  intros H400 H500 H200.
  destruct (s_appointment_data (w_session w)) as [a|] eqn:Ha.
  2:{ unfold extract_diet, bind, get_session. rewrite Ha. apply H400. }
  destruct (ad_id a =? 0) eqn:Hid.
  { unfold extract_diet, bind, get_session. rewrite Ha, Hid. apply H400. }
  destruct (transcript (w_session w)) as [|m h] eqn:Hh.
  { unfold extract_diet, bind, get_session. rewrite Ha, Hid.
    unfold transcript in Hh. rewrite Hh. apply H400. }
  assert (Hready : extraction_ready (w_session w) a).
  { repeat split; [exact Ha | apply Z.eqb_neq; exact Hid |].
    rewrite Hh. discriminate. }
  clear Hh.
  set (rq := extraction_request rt (transcript (w_session w))).
  assert (Hsent : sent w rq = more_calls w [rq]) by reflexivity.
  pose proof (extract_diet_ready rt w a Hready) as Hrun.
  unfold try_except, extract_diet_body in Hrun.
  unfold bind at 1 in Hrun. unfold bind at 1 in Hrun. unfold create in Hrun.
  fold rq in Hrun.
  destruct (chat_completions_create rt rq)
    as [msg | [|[content|] others]] eqn:Hreply;
    try (cbv [any_exception ret raise data_get bind] in Hrun;
         rewrite Hrun; apply (H500 _ [rq]); cbn; lia).
  cbn [first_content_stripped ret] in Hrun.
  unfold bind at 1 in Hrun. unfold loads in Hrun.
  destruct (json_loads rt (PyStr.strip content)) as [msg | data] eqn:Hparse;
    [cbv [any_exception ret raise data_get bind] in Hrun;
     rewrite Hrun; apply (H500 _ [rq]); cbn; lia|].
  destruct data as [|b|n|f|s|l|d];
    try (cbv [any_exception ret raise data_get bind] in Hrun;
         rewrite Hrun; apply (H500 _ [rq]); cbn; lia).
  clear Hrun.
  rewrite (extract_diet_parsed rt w a content others d Hready Hreply Hparse).
  fold rq.
  destruct (growth_wanted (dict_get d "height" (PStr "N/A"))
              (dict_get d "weight" (PStr "N/A")) (ad_age_years a)
              (ad_gender a)) eqn:Hw.
  - rewrite (growth_percentiles_called rt _ _ _ _ _ Hw).
    fold (growth_request_for rt a d).
    assert (Hs2 : sent (sent w rq) (growth_request_for rt a d)
                  = more_calls w [rq; growth_request_for rt a d]).
    { unfold sent, more_calls. cbn. rewrite <- app_assoc. reflexivity. }
    rewrite Hs2.
    match goal with
    | |- context [store_extraction rt d ?i (ad_id a) ?w2] =>
        destruct (store_extraction rt d i (ad_id a) w2)
          as [[u|e] w3] eqn:Hstore
    end.
    + apply store_extraction_ok in Hstore. destruct Hstore as [-> _].
      apply H200; [reflexivity | cbn; lia].
    + apply store_extraction_raise in Hstore. subst w3.
      apply H500. cbn. lia.
  - rewrite (growth_percentiles_skipped rt _ _ _ _ _ Hw).
    rewrite Hsent.
    destruct (store_extraction rt d "N/A" (ad_id a) (more_calls w [rq]))
      as [[u|e] w3] eqn:Hstore.
    + apply store_extraction_ok in Hstore. destruct Hstore as [-> _].
      apply H200; [reflexivity | cbn; lia].
    + apply store_extraction_raise in Hstore. subst w3.
      apply H500. cbn. lia.
Qed.

Lemma stored_rows_same (rt : Runtime) (d : dict) (info : string) (id : Z)
  (rows : list appointment_row) :
  Forall2 (same_appointment id) rows
    (map (fun r => if a_id r =? id then extracted_row rt d info r else r)
       rows).
Proof.
  induction rows as [|r rows IH]; cbn; constructor; [|exact IH].
  destruct (a_id r =? id) eqn:E.
  - apply Z.eqb_eq in E. repeat split. intros H. contradiction.
  - repeat split.
Qed.

Lemma same_rows_refl (id : Z) (rows : list appointment_row) :
  Forall2 (same_appointment id) rows rows.
Proof.
  induction rows; constructor; auto. repeat split.
Qed.

Lemma extract_diet_unready (rt : Runtime) (w : world) :
  (s_appointment_data (w_session w) = None ->
   extract_diet rt w
   = (Ok (Jsonify 400 [("error", PStr "No active appointment")]), w))
  /\ (forall a,
        s_appointment_data (w_session w) = Some a ->
        ad_id a = 0 \/ transcript (w_session w) = [] ->
        extract_diet rt w
        = (Ok (Jsonify 400 [("error", PStr "No conversation data available")]),
           w)).
Proof.
  split.
  - intros Ha. unfold extract_diet, bind, get_session. rewrite Ha.
    reflexivity.
  - intros a Ha Hg. unfold extract_diet, bind, get_session. rewrite Ha.
    destruct Hg as [Hid | Hh].
    + rewrite Hid. reflexivity.
    + unfold transcript in Hh. rewrite Hh. rewrite orb_true_r. reflexivity.
Qed.

(** X6.  The guards of [extract_diet]: without an appointment in the
    session the answer is 400 "No active appointment"; with an appointment
    whose id is 0 or with an empty transcript it is 400 "No conversation data
    available".  In both cases no request is sent and the world is as it
    was. *)
Theorem extract_diet_guards (rt : Runtime) (w : world) :
  (s_appointment_data (w_session w) = None ->
   extract_diet rt w
   = (Ok (Jsonify 400 [("error", PStr "No active appointment")]), w))
  /\ (forall a,
        s_appointment_data (w_session w) = Some a ->
        ad_id a = 0 \/ transcript (w_session w) = [] ->
        extract_diet rt w
        = (Ok (Jsonify 400 [("error", PStr "No conversation data available")]),
           w)).
Proof.
  exact (extract_diet_unready rt w).
Qed.

(** X7.  What [extract_diet] never touches.  It never raises; it leaves the
    session (so the transcript stays in it after an extraction), the flashes,
    the users table and both id counters as they were; it sends at most two
    requests; and the appointments table keeps its rows in their order, each
    with its id, user, date, time, age, concerns and creation time, the rows
    of other appointments unchanged in every column. *)
Theorem extract_diet_frame (rt : Runtime) (w : world) :
  exists r w' rqs,
    extract_diet rt w = (Ok r, w')
    /\ w_session w' = w_session w
    /\ w_flashes w' = w_flashes w
    /\ w_calls w' = (w_calls w ++ rqs)%list /\ (List.length rqs <= 2)%nat
    /\ users (w_db w') = users (w_db w)
    /\ users_seq (w_db w') = users_seq (w_db w)
    /\ appointments_seq (w_db w') = appointments_seq (w_db w)
    /\ forall id,
         (forall a, s_appointment_data (w_session w) = Some a -> ad_id a = id)
         ->
         Forall2 (same_appointment id) (appointments (w_db w))
           (appointments (w_db w')).
Proof.
  apply extract_diet_cases.
  - intros msg. eexists _, _, []. split; [reflexivity|].
    repeat split; try (symmetry; apply app_nil_r); try (cbn; lia).
    intros id _. apply same_rows_refl.
  - intros msg rqs Hlen. eexists _, _, rqs. split; [reflexivity|].
    repeat split; try exact Hlen.
    intros id _. apply same_rows_refl.
  - intros a d info rqs Ha Hlen. eexists _, _, rqs. split; [reflexivity|].
    repeat split; try exact Hlen.
    intros id Hid. rewrite <- (Hid a Ha). apply stored_rows_same.
Qed.


(** X9.  A payload that parses to JSON but is not an object (an array, a
    string, a number, null) fails the extraction: the answer is 500 with the
    text of the AttributeError that names the type, and nothing is
    written. *)
Theorem extract_diet_payload_not_object (rt : Runtime) (w : world)
  (a : appointment_data) (content : string) (others : completion)
  (v : pyval) :
  extraction_ready (w_session w) a ->
  let rq := extraction_request rt (transcript (w_session w)) in
  chat_completions_create rt rq = inr (Some content :: others) ->
  json_loads rt (PyStr.strip content) = inr v ->
  (forall d, v <> PDict d) ->
  extract_diet rt w
  = (Ok (Jsonify 500
           [("error",
             PStr ("'" ++ type_name v ++ "' object has no attribute 'get'"))]),
     sent w rq).
Proof.
  intros Hready rq Hreply Hparse Hv.
  rewrite (extract_diet_ready rt w a Hready).
  unfold try_except, extract_diet_body.
  unfold bind at 1. unfold bind at 1. unfold create. fold rq.
  rewrite Hreply. cbn [first_content_stripped ret].
  unfold bind at 1. unfold loads. rewrite Hparse. cbn [ret].
  destruct v as [|b|n|f|s|l|d]; try reflexivity.
  exfalso. exact (Hv d eq_refl).
Qed.


(** ** Conversation, beyond the claims *)

(** A POST with an appointment and a non-empty message sends exactly one
    request, whatever comes back. *)
Lemma conversation_page_sends (rt : Runtime) (w : world)
  (a : appointment_data) (d : dict) :
  s_appointment_data (w_session w) = Some a ->
  truthy (dict_get d "message" (PStr "")) = true ->
  exists res s',
    conversation_page rt POST (PDict d) w
    = (Ok res,
       mk_world (w_db w) s' (w_flashes w)
         (w_calls w
          ++ [chat_request rt a (transcript (w_session w))
                (dict_get d "message" (PStr ""))]))
    /\ (s' = w_session w
        \/ exists reply,
             s' = set_conversation_history (w_session w)
                    (transcript (w_session w)
                     ++ [mk_message "user" (dict_get d "message" (PStr ""));
                         mk_message "assistant" (PStr reply)])).
Proof.
  intros Ha Hm.
  rewrite (conversation_page_post rt w a d Ha Hm).
  unfold try_except, chat_turn, bind, create.
  destruct (chat_completions_create rt _) as [msg | [|[[|c t]|] others]];
    cbn; eexists _, _; split; try reflexivity; auto.
  right. exists (String c t). reflexivity.
Qed.

Lemma conversation_page_idle (rt : Runtime) (w : world)
  (method : http_method) (body : pyval) :
  (s_appointment_data (w_session w) = None ->
   conversation_page rt method body w
   = (Ok (Redirect "appointment_page"), w))
  /\ (forall a,
        s_appointment_data (w_session w) = Some a ->
        conversation_page rt GET body w
        = (Ok (Render "conversation.html" (ConversationContext a)), w)
        /\ (forall d,
              truthy (dict_get d "message" (PStr "")) = false ->
              conversation_page rt POST (PDict d) w
              = (Ok (Jsonify 400 [("error", PStr "No message provided")]), w))
        /\ ((forall d, body <> PDict d) ->
            conversation_page rt POST body w
            = (Raise (AttributeError (type_name body) "get"), w))).
Proof.
  split.
  - intros Ha. unfold conversation_page, bind, get_session. rewrite Ha.
    reflexivity.
  - intros a Ha. unfold conversation_page, bind, get_session. rewrite Ha.
    split; [reflexivity|]. split.
    + intros d Hm. cbn [data_get ret]. rewrite Hm. reflexivity.
    + intros Hb. destruct body as [|b|n|f|s|l|d]; try reflexivity.
      exfalso. exact (Hb d eq_refl).
Qed.

(** X11.  The ways through [conversation_page] that send nothing: without
    an appointment in the session every request is redirected to
    [appointment_page]; a GET renders the page with the appointment; a POST
    whose message is missing or empty is answered 400; and a POST whose JSON
    body is not an object raises the AttributeError unhandled.  In all of
    them the world is as it was. *)
Theorem conversation_page_without_turn (rt : Runtime) (w : world)
  (method : http_method) (body : pyval) :
  (s_appointment_data (w_session w) = None ->
   conversation_page rt method body w
   = (Ok (Redirect "appointment_page"), w))
  /\ (forall a,
        s_appointment_data (w_session w) = Some a ->
        conversation_page rt GET body w
        = (Ok (Render "conversation.html" (ConversationContext a)), w)
        /\ (forall d,
              truthy (dict_get d "message" (PStr "")) = false ->
              conversation_page rt POST (PDict d) w
              = (Ok (Jsonify 400 [("error", PStr "No message provided")]), w))
        /\ ((forall d, body <> PDict d) ->
            conversation_page rt POST body w
            = (Raise (AttributeError (type_name body) "get"), w))).
Proof.
  exact (conversation_page_idle rt w method body).
Qed.

(** X12.  What [conversation_page] never touches: whatever the method, the
    body and the answer of the completion service, the tables and the
    flashes are as before, at most one request is sent, and the session is
    as before or differs only by a transcript with two more entries at its
    end. *)
Theorem conversation_page_frame (rt : Runtime) (w : world)
  (method : http_method) (body : pyval) :
  exists res w' rqs,
    conversation_page rt method body w = (res, w')
    /\ w_db w' = w_db w
    /\ w_flashes w' = w_flashes w
    /\ w_calls w' = (w_calls w ++ rqs)%list /\ (List.length rqs <= 1)%nat
    /\ (w_session w' = w_session w
        \/ exists user_message reply,
             w_session w'
             = set_conversation_history (w_session w)
                 (transcript (w_session w)
                  ++ [mk_message "user" user_message;
                      mk_message "assistant" (PStr reply)])).
Proof.
  pose proof (conversation_page_idle rt w method body)
    as [Hnone Hsome].
  assert (Hsame : forall res,
             conversation_page rt method body w = (res, w) ->
             exists res w' rqs,
               conversation_page rt method body w = (res, w')
               /\ w_db w' = w_db w /\ w_flashes w' = w_flashes w
               /\ w_calls w' = (w_calls w ++ rqs)%list
               /\ (List.length rqs <= 1)%nat
               /\ (w_session w' = w_session w
                   \/ exists user_message reply,
                        w_session w'
                        = set_conversation_history (w_session w)
                            (transcript (w_session w)
                             ++ [mk_message "user" user_message;
                                 mk_message "assistant" (PStr reply)]))).
  { intros res E. exists res, w, []. rewrite E.
    repeat split; auto;
      first [symmetry; apply app_nil_r | cbn; lia]. }
  destruct (s_appointment_data (w_session w)) as [a|] eqn:Ha.
  2:{ eapply Hsame. apply Hnone. reflexivity. }
  destruct (Hsome a eq_refl) as (Hget & Hempty & Hbad).
  destruct method; [eapply Hsame; exact Hget|].
  destruct body as [|b|n|f|s|l|d];
    try (eapply Hsame; apply Hbad; intros d0; discriminate).
  destruct (truthy (dict_get d "message" (PStr ""))) eqn:Hm.
  2:{ eapply Hsame. apply Hempty. exact Hm. }
  destruct (conversation_page_sends rt w a d Ha Hm) as (res & s' & E & Hs).
  eexists (Ok res), _, [_]. split; [exact E|].
  repeat split; [cbn; lia|]. cbn [w_session].
  destruct Hs as [-> | (reply & ->)]; [left; reflexivity|].
  right. eauto.
Qed.

(** X13.  The conversation carries its history.  After a turn that
    succeeded, the request of the next turn holds, behind the system prompt,
    the transcript as it was before the first turn, the user message and the
    assistant reply of the first turn, and the new user message last. *)
Theorem conversation_carries_history (rt : Runtime) (w : world)
  (a : appointment_data) (d1 d2 : dict) (reply : string)
  (others : completion) :
  s_appointment_data (w_session w) = Some a ->
  let m1 := dict_get d1 "message" (PStr "") in
  let m2 := dict_get d2 "message" (PStr "") in
  let rq1 := chat_request rt a (transcript (w_session w)) m1 in
  truthy m1 = true ->
  truthy m2 = true ->
  chat_completions_create rt rq1 = inr (Some reply :: others) ->
  reply <> "" ->
  let w1 := snd (conversation_page rt POST (PDict d1) w) in
  exists rq2,
    w_calls (snd (conversation_page rt POST (PDict d2) w1))
    = (w_calls w ++ [rq1; rq2])%list
    /\ rq_messages rq2
       = (mk_message "system"
            (PStr (pediatrician_prompt rt (ad_patient_name a)
                     (ad_age_years a) (ad_height a) (ad_weight a)))
          :: transcript (w_session w)
          ++ [mk_message "user" m1; mk_message "assistant" (PStr reply);
              mk_message "user" m2])%list.
Proof.
  intros Ha m1 m2 rq1 H1 H2 Hreply Hne w1.
  assert (E1 : conversation_page rt POST (PDict d1) w
               = (Ok (Jsonify 200 [("message", PStr reply)]),
                  mk_world (w_db w)
                    (set_conversation_history (w_session w)
                       (transcript (w_session w)
                        ++ [mk_message "user" m1;
                            mk_message "assistant" (PStr reply)]))
                    (w_flashes w) (w_calls w ++ [rq1]))).
  { rewrite (conversation_page_post rt w a d1 Ha H1).
    unfold try_except, chat_turn, bind, create.
    fold m1. fold rq1. rewrite Hreply.
    destruct reply as [|c t]; [contradiction | reflexivity]. }
  subst w1. rewrite E1. cbn [snd].
  match goal with |- context [conversation_page rt POST (PDict d2) ?x] =>
    set (w1 := x) end.
  assert (Ha1 : s_appointment_data (w_session w1) = Some a) by exact Ha.
  destruct (conversation_page_sends rt w1 a d2 Ha1 H2) as (res & s' & E2 & _).
  rewrite E2. cbn [snd w_calls].
  eexists. split.
  - subst w1. cbn [w_calls]. rewrite <- app_assoc. reflexivity.
  - subst w1. cbn. rewrite <- app_assoc. reflexivity.
Qed.

(** X14.  How an error text is classed.  A text with "429" anywhere in it,
    or with "rate_limit" in any mix of upper and lower case, gets the
    rate-limit apology, also when it speaks of authentication; a text that
    does not mention a rate limit and has "api key" or "authentication" in
    any case gets the authentication apology. *)
Theorem apology_by_substring (before after : string) :
  apology (before ++ "429" ++ after) = rate_limit_apology
  /\ (forall word,
        PyStr.lower word = "rate_limit" ->
        apology (before ++ word ++ after) = rate_limit_apology)
  /\ (forall word,
        PyStr.lower word = "api key" \/ PyStr.lower word = "authentication" ->
        mentions_rate_limit (before ++ word ++ after) = false ->
        apology (before ++ word ++ after) = authentication_apology).
Proof.
  unfold apology. repeat split.
  - unfold mentions_rate_limit. rewrite (contains_app "429").
    rewrite orb_true_r. reflexivity.
  - intros word Hw. unfold mentions_rate_limit.
    rewrite !lower_app, Hw, (contains_app "rate_limit"). reflexivity.
  - intros word Hw Hr. rewrite Hr. unfold mentions_authentication.
    rewrite !lower_app.
    destruct Hw as [-> | ->].
    + rewrite (contains_app "api key"). reflexivity.
    + rewrite (contains_app "authentication"), orb_true_r. reflexivity.
Qed.

(** ** From the appointment to the extraction *)

Lemma rows_with_id_fresh (clk : clock) (d : database) (user_id age : Z) :
  Forall (fun r => 0 < a_id r <= appointments_seq d) (appointments d) ->
  filter (fun r => a_id r =? appointments_seq d + 1)
    (appointments d ++ [fresh_row clk d user_id age])
  = [fresh_row clk d user_id age].
Proof.
  intros Hids. rewrite filter_app. cbn [filter fresh_row a_id].
  rewrite Z.eqb_refl.
  assert (Hnone : filter (fun r => a_id r =? appointments_seq d + 1)
                    (appointments d) = []).
  { induction Hids as [|r l Hr _ IH]; cbn; [reflexivity|].
    destruct (a_id r =? appointments_seq d + 1) eqn:E; [|exact IH].
    apply Z.eqb_eq in E. lia. }
  rewrite Hnone. reflexivity.
Qed.

(** X15.  From the appointment to the extraction.  Right after
    [appointment_page] has started an appointment, [extract_diet] answers
    400 "No conversation data available" and changes nothing.  After one
    successful chat turn the transcript is that turn's two entries, the
    guards of [extract_diet] pass, and the one row the extraction will
    update is the row that [appointment_page] inserted. *)
Theorem fresh_appointment_workflow (rt : Runtime) (clk : clock) (w : world)
  (user_id : Z) (user : user_row) (dob : date) :
  can_start rt w user_id user dob ->
  Forall (fun r => 0 < a_id r <= appointments_seq (w_db w))
    (appointments (w_db w)) ->
  0 <= appointments_seq (w_db w) ->
  let age := age_on (today clk) dob in
  let a := fresh_appointment clk (w_db w) user age in
  let w1 := snd (appointment_page rt clk w) in
  extract_diet rt w1
  = (Ok (Jsonify 400 [("error", PStr "No conversation data available")]), w1)
  /\ forall d reply others,
       let m := dict_get d "message" (PStr "") in
       truthy m = true ->
       chat_completions_create rt (chat_request rt a [] m)
       = inr (Some reply :: others) ->
       reply <> "" ->
       let w2 := snd (conversation_page rt POST (PDict d) w1) in
       extraction_ready (w_session w2) a
       /\ transcript (w_session w2)
          = [mk_message "user" m; mk_message "assistant" (PStr reply)]
       /\ rows_with_id (w_db w2) (ad_id a)
          = [fresh_row clk (w_db w) user_id age].
Proof.
  intros Hstart Hids Hseq age a w1.
  assert (E1 : w1 = appointment_started clk user_id user dob w).
  { subst w1. rewrite appointment_page_run.
    destruct Hstart as (Hs & Hid & Hu & Hd).
    apply Z.eqb_neq in Hid. rewrite Hs, Hid, Hu, Hd. reflexivity. }
  assert (Ha : s_appointment_data (w_session w1) = Some a)
    by (rewrite E1; reflexivity).
  assert (Ht : transcript (w_session w1) = [])
    by (rewrite E1; reflexivity).
  split.
  - apply (proj2 (extract_diet_unready rt w1) a Ha). right. exact Ht.
  - intros d reply others m Hm Hreply Hne w2.
    assert (E2 : w2 = mk_world (w_db w1)
                        (set_conversation_history (w_session w1)
                           [mk_message "user" m;
                            mk_message "assistant" (PStr reply)])
                        (w_flashes w1)
                        (w_calls w1 ++ [chat_request rt a [] m])).
    { subst w2. rewrite (conversation_page_post rt w1 a d Ha Hm).
      unfold try_except, chat_turn, bind, create.
      rewrite Ht. fold m. rewrite Hreply.
      destruct reply as [|c t]; [contradiction | reflexivity]. }
    rewrite E2. cbn [w_session w_db].
    split; [|split].
    + repeat split.
      * rewrite E1. reflexivity.
      * cbn. lia.
      * discriminate.
    + reflexivity.
    + rewrite E1. unfold rows_with_id. cbn.
      apply rows_with_id_fresh. exact Hids.
Qed.

(** ** Signup and login *)

(** Case analysis on a POST to [signup] that keeps what the checks
    established for an accepted form. *)
Lemma signup_cases_free (rt : Runtime) (clk : clock)
  (form : string -> option string) (w : world)
  (P : py_result response * world -> Prop) :
  (forall username password role,
     form "username" = Some username ->
     form "password" = Some password ->
     form "role" = Some role ->
     username <> "" -> password <> "" ->
     find_user_nocase (w_db w) username = None ->
     P (Ok (Redirect "main_page"),
        signed_up rt clk form username password role w)) ->
  (forall msg, In msg signup_errors -> P (Ok (signup_error msg), w)) ->
  P (signup rt POST form clk w).
Proof.
  intros Hacc Hrej.
  unfold signup.
  fold (submitted form "first_name") (submitted form "last_name")
       (submitted form "admin_group") (submitted form "patient_group")
       (submitted form "date_of_birth") (submitted form "gender").
  destruct (form "username") as [username|]; [|signup_rejects Hrej].
  destruct (form "password") as [password|]; [|signup_rejects Hrej].
  destruct (form "role") as [role|]; [|signup_rejects Hrej].
  specialize (Hacc username password role eq_refl eq_refl eq_refl).
  destruct (PyStr.nonempty username) eqn:Hu.
  2:{ rewrite !orb_true_r. signup_rejects Hrej. }
  destruct (PyStr.nonempty password) eqn:Hp.
  2:{ cbn [negb]. rewrite !orb_true_r. signup_rejects Hrej. }
  apply nonempty_true in Hu, Hp.
  specialize (Hacc Hu Hp).
  match goal with
  | |- context [if ?c then ret (signup_error "Please fill in all required fields") else _] =>
      destruct c; [signup_rejects Hrej|]
  end.
  destruct (negb (String.eqb (submitted form "gender") "male"
                  || String.eqb (submitted form "gender") "female"));
    [signup_rejects Hrej|].
  unfold bind at 1. unfold try_except at 1. unfold bind at 1.
  unfold strptime.
  destruct (strptime_ymd rt (submitted form "date_of_birth")) as [msg|dob];
    [signup_rejects Hrej|].
  cbn [ret].
  destruct (age_on (today clk) dob <? 0); [signup_rejects Hrej|].
  destruct (String.eqb role "patient" && (18 <? age_on (today clk) dob));
    [signup_rejects Hrej|].
  cbn [ret].
  destruct (String.eqb role "admin"
            && negb (PyStr.nonempty (submitted form "admin_group")));
    [signup_rejects Hrej|].
  unfold bind at 1. unfold get_db at 1.
  destruct (find_user_nocase (w_db w) username) as [u|] eqn:Hfree;
    [signup_rejects Hrej|].
  unfold try_except, insert_user. unfold bind, get_db. cbv beta iota.
  rewrite (free_username_is_unique _ _ Hfree).
  unfold put_db, find_user_by_username, get_session, put_session, ret.
  cbn [w_db users].
  rewrite find_appended;
    [exact (Hacc eq_refl)
    | exact (free_username_is_unique _ _ Hfree)
    | cbn [u_username]; apply String.eqb_refl].
Qed.

(** X16.  A username that an existing row matches without regard to the
    case of the letters A to Z is never accepted, whatever the rest of the
    form: the signup is rejected and nothing changes. *)
Theorem signup_username_taken (rt : Runtime) (clk : clock)
  (form : string -> option string) (w : world) (username : string)
  (existing : user_row) :
  form "username" = Some username ->
  find_user_nocase (w_db w) username = Some existing ->
  rejected w (signup rt POST form clk w).
Proof.
  intros Hu Htaken.
  apply signup_cases_free.
  - intros u p r Hu' _ _ _ _ Hfree. exfalso.
    rewrite Hu in Hu'. inversion Hu'. subst u.
    rewrite Htaken in Hfree. discriminate Hfree.
  - intros msg Hin. exists msg. split; [exact Hin | reflexivity].
Qed.

Lemma signup_username_taken_witness :
  rejected admin_world
    (signup signup_runtime POST
       (fun key => if String.eqb key "username" then Some "ALICE"
                   else sample_form "patient" "" key)
       sample_clock admin_world).
Proof.
  apply (signup_username_taken signup_runtime sample_clock _ admin_world
           "ALICE" sample_user); reflexivity.
Defined.

(** ** Login and logout *)

Lemma login_post (check_password_hash : string -> string -> bool)
  (form : string -> option string) (w : world) (username password : string) :
  form "username" = Some username ->
  form "password" = Some password ->
  username <> "" -> password <> "" ->
  login check_password_hash POST form w
  = match find_user_nocase (w_db w) username with
    | Some user =>
        if check_password_hash (u_password_hash user) password
        then (Ok (Redirect "main_page"),
              with_session w (log_in (w_session w) user))
        else (Ok (Render "login.html" NoContext),
              flashed w "Invalid username or password" "error")
    | None =>
        (Ok (Render "login.html" NoContext),
         flashed w "Invalid username or password" "error")
    end.
Proof.
  intros Hu Hp Hun Hpn. unfold login. rewrite Hu, Hp.
  destruct username as [|c t]; [contradiction|].
  destruct password as [|c' t']; [contradiction|].
  unfold bind, get_db, get_session, put_session, flash, ret.
  destruct (find_user_nocase (w_db w) (String c t)) as [user|];
    [|reflexivity].
  destruct (check_password_hash (u_password_hash user) (String c' t'));
    reflexivity.
Qed.

Lemma login_cases (check_password_hash : string -> string -> bool)
  (form : string -> option string) (w : world)
  (P : py_result response * world -> Prop) :
  (forall username password user,
     form "username" = Some username ->
     form "password" = Some password ->
     find_user_nocase (w_db w) username = Some user ->
     check_password_hash (u_password_hash user) password = true ->
     P (Ok (Redirect "main_page"),
        with_session w (log_in (w_session w) user))) ->
  (forall msg,
     P (Ok (Render "login.html" NoContext), flashed w msg "error")) ->
  P (login check_password_hash POST form w).
Proof.
  intros Hin Hout. unfold login.
  destruct (form "username") as [[|c t]|] eqn:Hu; try apply Hout.
  destruct (form "password") as [[|c' t']|] eqn:Hp; try apply Hout.
  unfold bind, get_db, get_session, put_session, flash, ret.
  destruct (find_user_nocase (w_db w) (String c t)) as [user|] eqn:Hf;
    [|apply Hout].
  destruct (check_password_hash (u_password_hash user) (String c' t'))
    eqn:Hc; [|apply Hout].
  apply (Hin (String c t) (String c' t') user); auto.
Qed.

(** X17.  A POST to [login] never raises and never touches the tables.  It
    redirects to the main page only when a row matches the username without
    regard to case and the password checks against that row's hash; the
    session then takes the identity of that row and keeps the appointment
    and the transcript it held, whoever started them.  Every other POST
    renders the login page again with an error flashed and the session
    unchanged. *)
Theorem login_outcome (check_password_hash : string -> string -> bool)
  (form : string -> option string) (w : world) :
  exists r w',
    login check_password_hash POST form w = (Ok r, w')
    /\ w_db w' = w_db w
    /\ ((r = Redirect "main_page"
         /\ exists username password user,
              form "username" = Some username
              /\ form "password" = Some password
              /\ find_user_nocase (w_db w) username = Some user
              /\ check_password_hash (u_password_hash user) password = true
              /\ s_user_id (w_session w') = Some (u_id user)
              /\ s_role (w_session w') = Some (u_role user)
              /\ s_admin_group (w_session w') = u_admin_group user
              /\ s_patient_group (w_session w') = u_patient_group user
              /\ s_appointment_data (w_session w')
                 = s_appointment_data (w_session w)
              /\ s_conversation_history (w_session w')
                 = s_conversation_history (w_session w))
        \/ (r = Render "login.html" NoContext
            /\ w_session w' = w_session w
            /\ exists msg,
                 w_flashes w' = (w_flashes w ++ [(msg, "error")])%list)).
Proof.
  apply login_cases.
  - intros username password user Hu Hp Hf Hc.
    eexists _, _. split; [reflexivity|]. split; [reflexivity|].
    left. split; [reflexivity|].
    exists username, password, user. repeat split; assumption.
  - intros msg. eexists _, _. split; [reflexivity|]. split; [reflexivity|].
    right. repeat split. exists msg. reflexivity.
Qed.

Lemma sql_lower_find (l : list user_row) (a b : string) :
  sql_lower a = sql_lower b ->
  find (fun u => String.eqb (sql_lower (u_username u)) (sql_lower a)) l
  = find (fun u => String.eqb (sql_lower (u_username u)) (sql_lower b)) l.
Proof.
  intros ->. reflexivity.
Qed.

(** X18.  Signup and login round trip.  After an accepted signup, a login
    from any session with the same password and the username in any letter
    case succeeds, provided the hash library checks a password against its
    own hash, and gives the session the identity the signup had given it:
    the id, username, name, role and groups of the new row. *)
Theorem signup_then_login (rt : Runtime)
  (check_password_hash : string -> string -> bool) (clk : clock)
  (form login_form : string -> option string) (w w1 : world)
  (username password typed : string) (s : session) :
  signup rt POST form clk w = (Ok (Redirect "main_page"), w1) ->
  form "username" = Some username ->
  form "password" = Some password ->
  login_form "username" = Some typed ->
  login_form "password" = Some password ->
  sql_lower typed = sql_lower username ->
  check_password_hash (generate_password_hash rt password) password = true ->
  exists user,
    find_user_nocase (w_db w1) typed = Some user
    /\ u_username user = username
    /\ login check_password_hash POST login_form (with_session w1 s)
       = (Ok (Redirect "main_page"), with_session w1 (log_in s user))
    /\ s_user_id (log_in s user) = s_user_id (w_session w1)
    /\ s_username (log_in s user) = s_username (w_session w1)
    /\ s_name (log_in s user) = s_name (w_session w1)
    /\ s_role (log_in s user) = s_role (w_session w1)
    /\ s_admin_group (log_in s user) = s_admin_group (w_session w1)
    /\ s_patient_group (log_in s user) = s_patient_group (w_session w1).
Proof.
  intros Hsignup Hu Hp Hlu Hlp Hsame Hcheck.
  revert Hsignup.
  apply (signup_cases_free rt clk form w
           (fun o => o = (Ok (Redirect "main_page"), w1) -> _)).
  2:{ intros msg _ E. inversion E. }
  intros u p r Hu' Hp' _ Hun Hpn Hfree E.
  rewrite Hu in Hu'. inversion Hu'. subst u.
  rewrite Hp in Hp'. inversion Hp'. subst p.
  inversion E. subst w1. clear E.
  set (user := new_user rt clk form (w_db w) username password r).
  assert (Hfind : find_user_nocase
                    (w_db (signed_up rt clk form username password r w))
                    typed = Some user).
  { unfold find_user_nocase, signed_up. cbn [w_db users].
    rewrite (sql_lower_find _ typed username Hsame).
    apply find_appended.
    - unfold find_user_nocase in Hfree.
      induction (users (w_db w)) as [|x l IH]; cbn in *; [reflexivity|].
      destruct (String.eqb (sql_lower (u_username x)) (sql_lower username));
        [discriminate | exact (IH Hfree)].
    - apply String.eqb_refl. }
  exists user. split; [exact Hfind|]. split; [reflexivity|].
  split; [|repeat split].
  assert (Htyped : typed <> "").
  { intros ->. destruct username; [contradiction | discriminate Hsame]. }
  rewrite (login_post check_password_hash login_form _ typed password
             Hlu Hlp Htyped Hpn).
  cbn [with_session w_db]. rewrite Hfind.
  subst user. cbn [new_user u_password_hash]. rewrite Hcheck. reflexivity.
Qed.

(** X19.  After [logout] nothing of the session is left, and every page
    behind the login turns the visitor away without touching the tables:
    reports, people and appointment redirect to the login, the account
    pages to the cover page, the conversation to [appointment_page], and the
    extraction answers 400. *)
Theorem logout_closes_every_page (rt : Runtime) (clk : clock) (w : world)
  (view : option Z) (method : http_method) (body : pyval)
  (form : string -> option string) :
  let w0 := with_session w session_clear in
  logout w = (Ok (Redirect "cover_page"), w0)
  /\ reports_page view w0
     = (Ok (Redirect "login"),
        flashed w0 "Please log in to view your reports." "error")
  /\ people_page w0
     = (Ok (Plain (Redirect "login")),
        flashed w0 "Please log in to view this page." "error")
  /\ appointment_page rt clk w0 = (Ok (Redirect "login"), w0)
  /\ conversation_page rt method body w0
     = (Ok (Redirect "appointment_page"), w0)
  /\ extract_diet rt w0
     = (Ok (Jsonify 400 [("error", PStr "No active appointment")]), w0)
  /\ account_page w0 = (Ok (Plain (Redirect "cover_page")), w0)
  /\ edit_profile rt method form w0 = (Ok (Plain (Redirect "cover_page")), w0).
Proof.
  repeat split.
Qed.

(** ** The tables stay well-formed *)

Lemma NoDup_snoc {A : Type} (l : list A) (x : A) :
  NoDup l -> ~ In x l -> NoDup (l ++ [x]).
Proof.
  intros Hl Hx. apply NoDup_app. repeat split.
  - exact Hl.
  - constructor; [intros [] | constructor].
  - intros y Hy [<- | []]. exact (Hx Hy).
Qed.

Lemma bounded_not_in {A : Type} (id : A -> Z) (l : list A) (n : Z) :
  Forall (fun x => 0 < id x <= n) l -> ~ In (n + 1) (map id l).
Proof.
  intros Hb Hin. apply in_map_iff in Hin. destruct Hin as (x & E & Hx).
  rewrite Forall_forall in Hb. specialize (Hb x Hx). lia.
Qed.

Lemma bounded_more {A : Type} (id : A -> Z) (l : list A) (n : Z) :
  Forall (fun x => 0 < id x <= n) l ->
  Forall (fun x => 0 < id x <= n + 1) l.
Proof.
  apply Forall_impl. intros x Hx. lia.
Qed.

Lemma signed_up_ok (rt : Runtime) (clk : clock)
  (form : string -> option string) (username password role : string)
  (w : world) :
  db_ok (w_db w) ->
  find_user_nocase (w_db w) username = None ->
  db_ok (w_db (signed_up rt clk form username password role w)).
Proof.
  intros [Hus Has Hu Hud Hun Ha Had] Hfree.
  unfold signed_up. cbn [w_db].
  constructor; cbn [users users_seq appointments appointments_seq];
    try assumption.
  - lia.
  - apply Forall_app. split; [apply bounded_more; exact Hu|].
    constructor; [cbn; lia | constructor].
  - rewrite map_app. cbn [map new_user u_id].
    apply NoDup_snoc; [exact Hud | apply bounded_not_in; exact Hu].
  - rewrite map_app. cbn [map new_user u_username].
    apply NoDup_snoc; [exact Hun|].
    intros Hin. apply in_map_iff in Hin. destruct Hin as (x & E & Hx).
    unfold find_user_nocase in Hfree.
    pose proof (find_none _ _ Hfree x Hx) as Hne. cbv beta in Hne.
    rewrite E, String.eqb_refl in Hne. discriminate Hne.
Qed.

Lemma appointment_started_ok (clk : clock) (user_id : Z) (user : user_row)
  (dob : date) (w : world) :
  db_ok (w_db w) -> db_ok (w_db (appointment_started clk user_id user dob w)).
Proof.
  intros [Hus Has Hu Hud Hun Ha Had].
  unfold appointment_started. cbn [w_db].
  constructor; cbn [users users_seq appointments appointments_seq];
    try assumption.
  - lia.
  - apply Forall_app. split; [apply bounded_more; exact Ha|].
    constructor; [cbn; lia | constructor].
  - rewrite map_app. cbn [map fresh_row a_id].
    apply NoDup_snoc; [exact Had | apply bounded_not_in; exact Ha].
Qed.

Lemma stored_world_ok (rt : Runtime) (d : dict) (info : string) (id : Z)
  (w : world) :
  db_ok (w_db w) -> db_ok (w_db (stored_world rt d info id w)).
Proof.
  intros [Hus Has Hu Hud Hun Ha Had].
  unfold stored_world. cbn [w_db].
  assert (Hids : forall l,
             map a_id
               (map (fun r => if a_id r =? id
                              then extracted_row rt d info r else r) l)
             = map a_id l).
  { intros l. rewrite map_map. apply map_ext. intros r.
    destruct (a_id r =? id); reflexivity. }
  constructor; cbn [users users_seq appointments appointments_seq];
    try assumption.
  - rewrite Forall_forall in *. intros r Hr.
    apply in_map_iff in Hr. destruct Hr as (r0 & <- & Hr0).
    specialize (Ha r0 Hr0).
    destruct (a_id r0 =? id); exact Ha.
  - rewrite Hids. exact Had.
Qed.

Lemma conversation_page_db (rt : Runtime) (w : world)
  (method : http_method) (body : pyval) :
  w_db (snd (conversation_page rt method body w)) = w_db w.
Proof.
  pose proof (conversation_page_idle rt w method body) as [Hnone Hsome].
  destruct (s_appointment_data (w_session w)) as [a|] eqn:Ha.
  2:{ rewrite (Hnone eq_refl). reflexivity. }
  destruct (Hsome a eq_refl) as (Hget & Hempty & Hbad).
  destruct method; [rewrite Hget; reflexivity|].
  destruct body as [|b|n|f|s|l|d];
    try (rewrite Hbad; [reflexivity | intros d0; discriminate]).
  destruct (truthy (dict_get d "message" (PStr ""))) eqn:Hm.
  2:{ rewrite (Hempty d Hm). reflexivity. }
  destruct (conversation_page_sends rt w a d Ha Hm) as (res & s' & E & _).
  rewrite E. reflexivity.
Qed.

Lemma reports_page_db (w : world) (view : option Z) :
  w_db (snd (reports_page view w)) = w_db w.
Proof.
  unfold reports_page, select_user, bind, get_session, get_db, flash, ret,
    raise.
  destruct (s_user_id (w_session w)) as [current|]; [|reflexivity].
  destruct view as [v|]; [|reflexivity].
  destruct (v =? 0); [reflexivity|]. cbn [negb].
  destruct (opt_str_ne (s_role (w_session w)) (Some "admin"));
    [reflexivity|].
  destruct (fits_int64 v); [|reflexivity].
  destruct (find_user (w_db w) v) as [t|]; [|reflexivity].
  destruct (opt_str_ne (u_patient_group t) (s_admin_group (w_session w)));
    reflexivity.
Qed.

Lemma people_page_db (w : world) : w_db (snd (people_page w)) = w_db w.
Proof.
  unfold people_page, bind, get_session, get_db, flash, ret.
  destruct (s_user_id (w_session w)); [|reflexivity].
  destruct (opt_str_ne (s_role (w_session w)) (Some "admin"));
    [reflexivity|].
  destruct (s_admin_group (w_session w)) as [[|c t]|]; reflexivity.
Qed.

Lemma account_page_db (w : world) : w_db (snd (account_page w)) = w_db w.
Proof.
  unfold account_page, bind, get_session, get_db, put_session, ret.
  destruct (s_user_id (w_session w)) as [user_id|]; [|reflexivity].
  destruct (find_user (w_db w) user_id) as [user|]; [|reflexivity].
  destruct (String.eqb (u_role user) "admin"
            && cell_truthy (u_admin_group user)); [reflexivity|].
  destruct (String.eqb (u_role user) "patient"
            && cell_truthy (u_patient_group user)); reflexivity.
Qed.

(** X20.  The handlers keep the tables well-formed: starting from tables
    whose row ids are positive, distinct and within the counters and whose
    usernames are distinct without regard to case, the tables are so again
    after [signup], [appointment_page], [extract_diet], [conversation_page],
    [reports_page], [login], [logout], [people_page] and [account_page].  So
    a row id is never handed out twice and [signup] never creates a second
    user under a username that differs only in case. *)
Theorem tables_stay_well_formed (rt : Runtime)
  (check_password_hash : string -> string -> bool) (clk : clock)
  (w : world) :
  db_ok (w_db w) ->
  (forall method form, db_ok (w_db (snd (signup rt method form clk w))))
  /\ db_ok (w_db (snd (appointment_page rt clk w)))
  /\ db_ok (w_db (snd (extract_diet rt w)))
  /\ (forall method body,
        db_ok (w_db (snd (conversation_page rt method body w))))
  /\ (forall view, db_ok (w_db (snd (reports_page view w))))
  /\ (forall method form,
        db_ok (w_db (snd (login check_password_hash method form w))))
  /\ db_ok (w_db (snd (logout w)))
  /\ db_ok (w_db (snd (people_page w)))
  /\ db_ok (w_db (snd (account_page w))).
Proof.
  intros Hok.
  split; [|split; [|split; [|split; [|split; [|split; [|split; [|split]]]]]]].
  - intros [|] form; [exact Hok|].
    apply (signup_cases_free rt clk form w
             (fun o => db_ok (w_db (snd o)))).
    + intros u p r _ _ _ _ _ Hfree. apply signed_up_ok; assumption.
    + intros msg _. exact Hok.
  - rewrite appointment_page_run.
    destruct (s_user_id (w_session w)) as [user_id|]; [|exact Hok].
    destruct (user_id =? 0); [exact Hok|].
    destruct (find_user (w_db w) user_id) as [user|]; [|exact Hok].
    destruct (birth_date rt user) as [dob|e]; [|exact Hok].
    apply appointment_started_ok. exact Hok.
  - apply (extract_diet_cases rt w (fun o => db_ok (w_db (snd o)))).
    + intros msg. exact Hok.
    + intros msg rqs _. exact Hok.
    + intros a d info rqs _ _. cbn [snd].
      apply (stored_world_ok rt d info (ad_id a) (more_calls w rqs)).
      exact Hok.
  - intros method body. rewrite conversation_page_db. exact Hok.
  - intros view. rewrite reports_page_db. exact Hok.
  - intros [|] form; [exact Hok|].
    apply (login_cases check_password_hash form w
             (fun o => db_ok (w_db (snd o)))).
    + intros. exact Hok.
    + intros. exact Hok.
  - exact Hok.
  - rewrite people_page_db. exact Hok.
  - rewrite account_page_db. exact Hok.
Qed.

(** ** The listings *)

Lemma insert_in_order_perm {A : Type} (before : A -> A -> bool) (a : A)
  (l : list A) :
  Permutation (insert_in_order before a l) (a :: l).
Proof.
  induction l as [|b l IH]; cbn; [reflexivity|].
  destruct (before a b); [reflexivity|].
  rewrite IH. apply perm_swap.
Qed.

Lemma order_by_perm {A : Type} (before : A -> A -> bool) (l : list A) :
  Permutation (order_by before l) l.
Proof.
  unfold order_by.
  induction l as [|a l IH]; cbn; [reflexivity|].
  rewrite insert_in_order_perm. now constructor.
Qed.

Section Ordering.

Context {A : Type}.
Variable before : A -> A -> bool.
Hypothesis before_total : forall a b, before a b = false -> before b a = true.
Hypothesis before_trans :
  forall a b c, before a b = true -> before b c = true -> before a c = true.

Lemma insert_in_order_sorted (a : A) (l : list A) :
  in_order before l -> in_order before (insert_in_order before a l).
Proof.
  unfold in_order.
  induction l as [|b l IH]; intros Hl; cbn.
  - constructor; constructor.
  - apply StronglySorted_inv in Hl. destruct Hl as [Hl Hb].
    destruct (before a b) eqn:Hab.
    + constructor; [constructor; assumption|].
      constructor; [exact Hab|].
      rewrite Forall_forall in *. intros x Hx.
      exact (before_trans a b x Hab (Hb x Hx)).
    + constructor; [exact (IH Hl)|].
      rewrite Forall_forall in *. intros x Hx.
      apply (Permutation_in _ (insert_in_order_perm before a l)) in Hx.
      destruct Hx as [<- | Hx]; [exact (before_total a b Hab) | exact (Hb x Hx)].
Qed.

Lemma order_by_sorted (l : list A) : in_order before (order_by before l).
Proof.
  unfold order_by.
  induction l as [|a l IH]; cbn; [constructor|].
  apply insert_in_order_sorted. exact IH.
Qed.

End Ordering.

Lemma ascii_compare_lt_trans (a b c : ascii) :
  Ascii.compare a b = Lt -> Ascii.compare b c = Lt -> Ascii.compare a c = Lt.
Proof.
  unfold Ascii.compare. rewrite !N.compare_lt_iff. apply N.lt_trans.
Qed.

Lemma compare_lt_trans (s1 : string) :
  forall s2 s3,
    String.compare s1 s2 = Lt -> String.compare s2 s3 = Lt ->
    String.compare s1 s3 = Lt.
Proof.
  induction s1 as [|a s1 IH]; intros [|b s2] [|c s3]; cbn;
    try discriminate; try reflexivity.
  destruct (Ascii.compare a b) eqn:Hab; try discriminate;
    destruct (Ascii.compare b c) eqn:Hbc; try discriminate; intros H12 H23.
  - apply Ascii.compare_eq_iff in Hab, Hbc. subst.
    assert (E : Ascii.compare c c = Eq) by apply N.compare_refl.
    rewrite E. exact (IH _ _ H12 H23).
  - apply Ascii.compare_eq_iff in Hab. subst. rewrite Hbc. reflexivity.
  - apply Ascii.compare_eq_iff in Hbc. subst. rewrite Hab. reflexivity.
  - rewrite (ascii_compare_lt_trans a b c Hab Hbc). reflexivity.
Qed.

Lemma compare_refl (s : string) : String.compare s s = Eq.
Proof.
  induction s as [|a s IH]; cbn; [reflexivity|].
  assert (E : Ascii.compare a a = Eq) by apply N.compare_refl.
  rewrite E. exact IH.
Qed.

Lemma ltb_trans (s1 s2 s3 : string) :
  String.ltb s1 s2 = true -> String.ltb s2 s3 = true ->
  String.ltb s1 s3 = true.
Proof.
  unfold String.ltb.
  destruct (String.compare s1 s2) eqn:H12; try discriminate.
  destruct (String.compare s2 s3) eqn:H23; try discriminate.
  rewrite (compare_lt_trans _ _ _ H12 H23). reflexivity.
Qed.

Lemma leb_trans (s1 s2 s3 : string) :
  String.leb s1 s2 = true -> String.leb s2 s3 = true ->
  String.leb s1 s3 = true.
Proof.
  unfold String.leb.
  destruct (String.compare s1 s2) eqn:H12; try discriminate;
    destruct (String.compare s2 s3) eqn:H23; try discriminate; intros _ _.
  - apply String.compare_eq_iff in H12, H23. subst.
    rewrite compare_refl. reflexivity.
  - apply String.compare_eq_iff in H12. subst. rewrite H23. reflexivity.
  - apply String.compare_eq_iff in H23. subst. rewrite H12. reflexivity.
  - rewrite (compare_lt_trans _ _ _ H12 H23). reflexivity.
Qed.

Lemma joined_later_total (a b : person) :
  joined_later a b = false -> joined_later b a = true.
Proof.
  unfold joined_later. intros H.
  destruct (String.leb_total (p_created_at b) (p_created_at a)) as [E | E];
    [congruence | exact E].
Qed.

Lemma joined_later_trans (a b c : person) :
  joined_later a b = true -> joined_later b c = true ->
  joined_later a c = true.
Proof.
  unfold joined_later. intros H1 H2. exact (leb_trans _ _ _ H2 H1).
Qed.

Lemma newer_or_same_total (a b : appointment_row) :
  newer_or_same a b = false -> newer_or_same b a = true.
Proof.
  unfold newer_or_same, String.ltb, String.leb.
  rewrite (String.compare_antisym (a_date a) (a_date b)).
  rewrite (String.compare_antisym (a_time a) (a_time b)).
  rewrite (String.eqb_sym (a_date b) (a_date a)).
  destruct (String.compare (a_date b) (a_date a)) eqn:Hd; cbn;
    try discriminate; try reflexivity.
  apply String.compare_eq_iff in Hd. rewrite Hd, String.eqb_refl. cbn.
  destruct (String.compare (a_time b) (a_time a)); cbn;
    try discriminate; reflexivity.
Qed.

Lemma newer_or_same_trans (a b c : appointment_row) :
  newer_or_same a b = true -> newer_or_same b c = true ->
  newer_or_same a c = true.
Proof.
  unfold newer_or_same. intros H1 H2.
  apply orb_true_iff in H1, H2. apply orb_true_iff.
  destruct H1 as [H1 | H1], H2 as [H2 | H2].
  - left. exact (ltb_trans _ _ _ H2 H1).
  - apply andb_true_iff in H2. destruct H2 as [E _].
    apply String.eqb_eq in E. left. rewrite <- E. exact H1.
  - apply andb_true_iff in H1. destruct H1 as [E _].
    apply String.eqb_eq in E. left. rewrite E. exact H2.
  - apply andb_true_iff in H1, H2.
    destruct H1 as [E1 T1], H2 as [E2 T2].
    apply String.eqb_eq in E1, E2. right.
    rewrite E1, E2, String.eqb_refl. cbn. exact (leb_trans _ _ _ T2 T1).
Qed.

Lemma insert_by_date_in_order (a : appointment_row)
  (l : list appointment_row) :
  insert_by_date a l = insert_in_order newer_or_same a l.
Proof.
  induction l as [|b l IH]; cbn; [reflexivity|]. rewrite IH. reflexivity.
Qed.

Lemma order_by_date_time_desc_order_by (l : list appointment_row) :
  order_by_date_time_desc l = order_by newer_or_same l.
Proof.
  unfold order_by_date_time_desc, order_by.
  induction l as [|a l IH]; cbn; [reflexivity|].
  rewrite IH. apply insert_by_date_in_order.
Qed.

Lemma appointments_of_in_order (d : database) (user_id : Z) :
  in_order newer_or_same (appointments_of d user_id).
Proof.
  unfold appointments_of. rewrite order_by_date_time_desc_order_by.
  apply order_by_sorted;
    [exact newer_or_same_total | exact newer_or_same_trans].
Qed.

Lemma sql_eq_true (cell : option string) (param : string) :
  sql_eq cell param = true <-> cell = Some param.
Proof.
  destruct cell as [s|]; cbn; [|split; discriminate].
  rewrite String.eqb_eq. split; congruence.
Qed.

Lemma people_of_members (d : database) (g : string) (p : person) :
  In p (people_of d g)
  <-> exists u, In u (users d) /\ u_patient_group u = Some g
                /\ p = person_of u.
Proof.
  unfold people_of. split.
  - intros H. apply (Permutation_in _ (order_by_perm _ _)) in H.
    apply in_map_iff in H. destruct H as (u & <- & Hu).
    apply filter_In in Hu. destruct Hu as [Hin Hg].
    exists u. split; [exact Hin|]. split; [|reflexivity].
    apply sql_eq_true. exact Hg.
  - intros (u & Hin & Hg & ->).
    apply (Permutation_in _ (Permutation_sym (order_by_perm _ _))).
    apply in_map. apply filter_In. split; [exact Hin|].
    apply sql_eq_true. exact Hg.
Qed.

Lemma people_page_admin (w : world) (g : string) :
  admin_of w g ->
  people_page w = (Ok (PeoplePage (people_of (w_db w) g)), w).
Proof.
  intros (Hu & Hr & Hg & Hne).
  unfold people_page, bind, get_session, get_db, flash, ret.
  destruct (s_user_id (w_session w)) as [uid|]; [|contradiction].
  rewrite Hr, Hg. cbn [opt_str_ne].
  rewrite String.eqb_refl. cbn [negb].
  destruct g as [|c t]; [contradiction|]. reflexivity.
Qed.

(** X21.  For an admin of a group, [people_page] lists exactly the users
    whose patient group is that group, the latest created first; with
    distinct row ids, the listed users whose id is within the 64 bits of
    an SQLite row id are exactly the users whose reports [reports_page]
    shows this admin. *)
Theorem people_page_lists_reportable (w : world) (g : string) :
  admin_of w g ->
  NoDup (map u_id (users (w_db w))) ->
  exists l,
    people_page w = (Ok (PeoplePage l), w)
    /\ (forall p, In p l
                  <-> exists u, In u (users (w_db w))
                                /\ u_patient_group u = Some g
                                /\ p = person_of u)
    /\ in_order joined_later l
    /\ (forall v, v <> 0 ->
          ((exists p, In p l /\ p_id p = v /\ fits_int64 v = true)
           <-> exists ctx,
                 fst (reports_page (Some v) w)
                 = Ok (Render "reports.html" ctx))).
Proof.
  intros Hadmin Hnd. exists (people_of (w_db w) g).
  split; [exact (people_page_admin w g Hadmin)|].
  split; [intros p; apply people_of_members|].
  split.
  { unfold people_of. apply order_by_sorted;
      [exact joined_later_total | exact joined_later_trans]. }
  destruct Hadmin as (Hu & Hr & Hg & Hne).
  intros v Hv. split.
  - intros (p & Hp & Hid & Hfit). apply people_of_members in Hp.
    destruct Hp as (u & Hin & Hug & ->). cbn in Hid. subst v.
    destruct (reports_page_cases w (u_id u) Hv Hfit)
      as [[_ (t & _ & E)] | [Hn _]].
    + rewrite E. eexists. reflexivity.
    + exfalso. apply Hn. split; [exact Hu|]. split; [exact Hr|].
      exists u. split; [exact (find_user_of_distinct _ u Hnd Hin)|].
      congruence.
  - intros (ctx & Hctx).
    destruct (fits_int64 v) eqn:Hfit.
    2:{ destruct (s_user_id (w_session w)) as [current|] eqn:Hs;
          [|contradiction].
        rewrite (reports_page_overflow w v current Hs Hr Hv Hfit) in Hctx.
        discriminate Hctx. }
    destruct (reports_page_cases w v Hv Hfit)
      as [[(_ & _ & t & Ht & Htg) _] | [_ (target & msg & _ & E)]].
    + apply find_user_in in Ht. destruct Ht as [Hin Hid].
      exists (person_of t). split; [|split; [exact Hid | reflexivity]].
      apply people_of_members. exists t.
      split; [exact Hin|]. split; [congruence | reflexivity].
    + rewrite E in Hctx. discriminate Hctx.
Qed.

(** X22.  [people_page] shows the list to nobody else: it renders exactly
    when the session is that of an admin with a group that is not empty;
    any other request is redirected with an error flashed.  It never changes
    the tables or the session. *)
Theorem people_page_admin_only (w : world) :
  ((exists l, fst (people_page w) = Ok (PeoplePage l))
   <-> exists g, admin_of w g)
  /\ ((forall g, ~ admin_of w g) ->
      exists target msg,
        people_page w = (Ok (Plain (Redirect target)), flashed w msg "error"))
  /\ w_db (snd (people_page w)) = w_db w
  /\ w_session (snd (people_page w)) = w_session w.
Proof.
  assert (Hcases :
            (exists g, admin_of w g)
            \/ ((forall g, ~ admin_of w g)
                /\ exists target msg,
                     people_page w
                     = (Ok (Plain (Redirect target)),
                        flashed w msg "error"))).
  { unfold admin_of, people_page, bind, get_session, get_db, flash, ret.
    destruct (s_user_id (w_session w)) as [uid|].
    2:{ right. split; [intros g (H & _); contradiction|].
        eexists _, _. reflexivity. }
    destruct (opt_str_ne (s_role (w_session w)) (Some "admin")) eqn:Hrole.
    { right. split.
      - intros g (_ & Hr & _). apply opt_str_ne_false in Hr. congruence.
      - eexists _, _. reflexivity. }
    apply opt_str_ne_false in Hrole.
    destruct (s_admin_group (w_session w)) as [[|c t]|] eqn:Hg.
    - right. split; [intros g (_ & _ & E & Hne); congruence|].
      eexists _, _. reflexivity.
    - left. exists (String c t).
      repeat split; [discriminate | exact Hrole | discriminate].
    - right. split; [intros g (_ & _ & E & _); discriminate|].
      eexists _, _. reflexivity. }
  split; [|split; [|split]].
  - split.
    + intros (l & Hl). destruct Hcases as [H | [_ (t & m & E)]]; [exact H|].
      rewrite E in Hl. discriminate Hl.
    + intros (g & Hg). rewrite (people_page_admin w g Hg).
      eexists. reflexivity.
  - intros Hno. destruct Hcases as [(g & Hg) | [_ H]]; [|exact H].
    destruct (Hno g Hg).
  - destruct Hcases as [(g & Hg) | [_ (t & m & E)]].
    + rewrite (people_page_admin w g Hg). reflexivity.
    + rewrite E. reflexivity.
  - destruct Hcases as [(g & Hg) | [_ (t & m & E)]].
    + rewrite (people_page_admin w g Hg). reflexivity.
    + rewrite E. reflexivity.
Qed.

Lemma reports_page_renders (w : world) (view : option Z) :
  (exists target, fst (reports_page view w) = Ok (Redirect target))
  \/ fst (reports_page view w) = Raise OverflowError
  \/ exists user_id other info,
       fst (reports_page view w)
       = Ok (Render "reports.html"
               (ReportsContext (appointments_of (w_db w) user_id) other
                  info)).
Proof.
  unfold reports_page, select_user, bind, get_session, get_db, flash, ret,
    raise.
  destruct (s_user_id (w_session w)) as [current|];
    [|left; eexists; reflexivity].
  destruct view as [v|]; [|right; right; eexists _, _, _; reflexivity].
  destruct (v =? 0); [right; right; eexists _, _, _; reflexivity|].
  cbn [negb].
  destruct (opt_str_ne (s_role (w_session w)) (Some "admin"));
    [left; eexists; reflexivity|].
  destruct (fits_int64 v); [|right; left; reflexivity].
  destruct (find_user (w_db w) v) as [t|]; [|left; eexists; reflexivity].
  destruct (opt_str_ne (u_patient_group t) (s_admin_group (w_session w)));
    [left; eexists; reflexivity | right; right; eexists _, _, _; reflexivity].
Qed.

(** X23.  The appointments [reports_page] renders are always in the order
    of the query, newest first by date and then time, whoever they belong
    to; and [/reports/0] is the requester's own page, since the handler
    takes the id 0 for no id. *)
Theorem reports_newest_first (w : world) :
  reports_page (Some 0) w = reports_page None w
  /\ forall view template l other info,
       fst (reports_page view w)
       = Ok (Render template (ReportsContext l other info)) ->
       in_order newer_or_same l.
Proof.
  split.
  - unfold reports_page, bind, get_session, get_db.
    destruct (s_user_id (w_session w)); reflexivity.
  - intros view template l other info H.
    destruct (reports_page_renders w view)
      as [(target & E) | [E | (u & o & i & E)]];
      rewrite E in H; [discriminate H | discriminate H|].
    injection H as _ <- _ _. apply appointments_of_in_order.
Qed.

(** ** The account page *)

Lemma distinct_by {A B : Type} (f : A -> B) (l : list A) (a b : A) :
  NoDup (map f l) -> In a l -> In b l -> f a = f b -> a = b.
Proof.
  induction l as [|x l IH]; intros Hnd Ha Hb E; [destruct Ha|].
  cbn in Hnd. apply NoDup_cons_iff in Hnd. destruct Hnd as [Hx Hnd].
  destruct Ha as [-> | Ha], Hb as [-> | Hb].
  - reflexivity.
  - exfalso. apply Hx. rewrite E. apply in_map. exact Hb.
  - exfalso. apply Hx. rewrite <- E. apply in_map. exact Ha.
  - exact (IH Hnd Ha Hb E).
Qed.

Lemma cell_truthy_some (cell : option string) :
  cell_truthy cell = true -> exists g, cell = Some g /\ g <> "".
Proof.
  destruct cell as [[|c t]|]; cbn; try discriminate.
  intros _. exists (String c t). split; [reflexivity | discriminate].
Qed.

(** X24.  The two sides of the account page agree: when the account page of
    a user names a group admin, that admin is a user of the table with the
    role admin, and the admin's own account page lists this user among the
    group members. *)
Theorem account_pages_agree (w : world) (user : user_row)
  (members : list (string * option string))
  (admin_username : string) (admin_name : option string) :
  NoDup (map u_id (users (w_db w))) ->
  fst (account_page w)
  = Ok (AccountPage user members (Some (admin_username, admin_name))) ->
  exists admin,
    In admin (users (w_db w))
    /\ u_role admin = "admin"
    /\ u_username admin = admin_username
    /\ u_name admin = admin_name
    /\ u_admin_group admin = u_patient_group user
    /\ forall w',
         w_db w' = w_db w ->
         s_user_id (w_session w') = Some (u_id admin) ->
         exists members',
           account_page w' = (Ok (AccountPage admin members' None), w')
           /\ In (u_username user, u_name user) members'.
Proof.
  intros Hnd.
  unfold account_page at 1.
  unfold bind, get_session, get_db, put_session, ret.
  destruct (s_user_id (w_session w)) as [user_id|]; [|discriminate].
  destruct (find_user (w_db w) user_id) as [u|] eqn:Hu; [|discriminate].
  destruct (String.eqb (u_role u) "admin" && cell_truthy (u_admin_group u));
    [discriminate|].
  destruct (String.eqb (u_role u) "patient"
            && cell_truthy (u_patient_group u)) eqn:Hp; [|discriminate].
  apply andb_true_iff in Hp. destruct Hp as [Hrole Hgroup].
  apply String.eqb_eq in Hrole.
  apply cell_truthy_some in Hgroup. destruct Hgroup as (g & Hg & Hne).
  rewrite Hg.
  destruct (find (fun a => sql_eq (u_admin_group a) g
                           && String.eqb (u_role a) "admin")
              (users (w_db w))) as [a|] eqn:Ha; [|discriminate].
  cbn [option_map fst]. intros E. injection E as -> _ <- <-.
  apply find_some in Ha. destruct Ha as [Hin Ha].
  apply andb_true_iff in Ha. destruct Ha as [Hag Har].
  apply sql_eq_true in Hag. apply String.eqb_eq in Har.
  apply find_user_in in Hu. destruct Hu as [Huin _].
  exists a. split; [exact Hin|]. split; [exact Har|].
  split; [reflexivity|]. split; [reflexivity|].
  split; [congruence|].
  intros w' Hdb Hs.
  unfold account_page, bind, get_session, get_db, put_session, ret.
  rewrite Hs, Hdb, (find_user_of_distinct (w_db w) a Hnd Hin).
  rewrite Har, Hag. cbn [cell_truthy].
  rewrite String.eqb_refl. cbn [andb].
  destruct g as [|c t]; [contradiction|]. cbn [PyStr.nonempty andb].
  eexists. split; [reflexivity|].
  apply (in_map (fun x => (u_username x, u_name x))).
  apply filter_In. split; [exact Huin|].
  apply andb_true_iff. split.
  - apply sql_eq_true. exact Hg.
  - apply String.eqb_eq. exact Hrole.
Qed.

(** ** The profile *)

Lemma taken_by_other_existsb (d : database) (id : Z) (name : string) :
  existsb (fun u => String.eqb (sql_lower (u_username u)) (sql_lower name)
                    && negb (u_id u =? id)) (users d) = true
  <-> taken_by_other d id name.
Proof.
  unfold taken_by_other. rewrite existsb_exists.
  split; intros (u & Hin & H); exists u.
  - apply andb_true_iff in H. destruct H as [E N].
    apply String.eqb_eq in E. apply negb_true_iff, Z.eqb_neq in N. auto.
  - split; [exact Hin|]. destruct H as [N E].
    apply andb_true_iff. split; [apply String.eqb_eq; exact E|].
    apply negb_true_iff, Z.eqb_neq. exact N.
Qed.

Lemma held_by_other_existsb (d : database) (id : Z) (name : string) :
  existsb (fun u => String.eqb (u_username u) name
                    && negb (u_id u =? id)) (users d) = true
  <-> held_by_other d id name.
Proof.
  unfold held_by_other. rewrite existsb_exists.
  split; intros (u & Hin & H); exists u.
  - apply andb_true_iff in H. destruct H as [E N].
    apply String.eqb_eq in E. apply negb_true_iff, Z.eqb_neq in N. auto.
  - split; [exact Hin|]. destruct H as [N E].
    apply andb_true_iff. split; [apply String.eqb_eq; exact E|].
    apply negb_true_iff, Z.eqb_neq. exact N.
Qed.

Lemma held_is_taken (d : database) (id : Z) (name : string) :
  held_by_other d id name -> taken_by_other d id name.
Proof.
  intros (u & Hin & N & E). exists u. rewrite E. auto.
Qed.

Lemma nonempty_false_iff (s : string) :
  PyStr.nonempty s = false <-> s = "".
Proof.
  destruct s; cbn; split; congruence.
Qed.

Lemma edited_rows (rt : Runtime) (form : string -> option string) (id : Z)
  (l : list user_row) :
  let name := profile_name_cell form in
  let hashed (u : user_row) :=
    if PyStr.nonempty (profile_password form)
    then with_password_hash u
           (generate_password_hash rt (profile_password form))
    else u in
  map (fun u => if u_id u =? id then with_name u name else u)
    (map (fun u => if u_id u =? id then hashed u else u)
       (map (fun u => if u_id u =? id
                      then with_username u (profile_username form) else u)
          l))
  = map (fun u => if u_id u =? id then edited_row rt form u else u) l.
Proof.
  intros name hashed. rewrite !map_map. apply map_ext. intros u.
  unfold hashed, edited_row.
  destruct (u_id u =? id) eqn:E; cbn.
  - destruct (PyStr.nonempty (profile_password form)); cbn; rewrite E;
      cbn; rewrite ?E; reflexivity.
  - rewrite E. cbn. rewrite E. reflexivity.
Qed.

(** The runs of a POST by a logged-in user. *)
Lemma edit_profile_cases (rt : Runtime) (form : string -> option string)
  (w : world) (user : user_row) (P : py_result page * world -> Prop) :
  logged_in_as w user ->
  (profile_username form = "" ->
   P (Ok (EditProfilePage user (Some "Username is required.")), w)) ->
  (profile_username form <> "" ->
   PyStr.lower (profile_username form) <> PyStr.lower (u_username user) ->
   taken_by_other (w_db w) (u_id user) (profile_username form) ->
   P (Ok (EditProfilePage user
            (Some "Username already exists. Please choose a different username.")),
      w)) ->
  (profile_username form <> "" ->
   PyStr.lower (profile_username form) = PyStr.lower (u_username user)
   \/ ~ taken_by_other (w_db w) (u_id user) (profile_username form) ->
   held_by_other (w_db w) (u_id user) (profile_username form) ->
   P (Raise (IntegrityError "UNIQUE constraint failed: users.username"),
      w)) ->
  (profile_username form <> "" ->
   PyStr.lower (profile_username form) = PyStr.lower (u_username user)
   \/ ~ taken_by_other (w_db w) (u_id user) (profile_username form) ->
   ~ held_by_other (w_db w) (u_id user) (profile_username form) ->
   P (Ok (Plain (Redirect "account_page")),
      profile_edited rt form (u_id user) w)) ->
  P (edit_profile rt POST form w).
Proof.
  intros [Hs Hfind] Hblank Htaken Hraise Hdone.
  unfold edit_profile, bind, get_session, get_db.
  rewrite Hs, Hfind. cbv beta iota.
  change (PyStr.strip (form_get form "username" ""))
    with (profile_username form).
  change (PyStr.strip (form_get form "password" ""))
    with (profile_password form).
  change (PyStr.strip (form_get form "name" ""))
    with (profile_name form).
  destruct (PyStr.nonempty (profile_username form)) eqn:Hne; cbn [negb].
  2:{ apply Hblank. apply nonempty_false_iff. exact Hne. }
  assert (Hne' : profile_username form <> "").
  { intros E. rewrite E in Hne. discriminate Hne. }
  destruct (negb (String.eqb (PyStr.lower (profile_username form))
                    (PyStr.lower (u_username user)))
            && existsb
                 (fun u =>
                    String.eqb (sql_lower (u_username u))
                      (sql_lower (profile_username form))
                    && negb (u_id u =? u_id user))
                 (users (w_db w))) eqn:Hcheck.
  { apply andb_true_iff in Hcheck. destruct Hcheck as [Hl Ht].
    apply negb_true_iff, String.eqb_neq in Hl.
    apply taken_by_other_existsb in Ht.
    exact (Htaken Hne' Hl Ht). }
  assert (Hfree :
            PyStr.lower (profile_username form) = PyStr.lower (u_username user)
            \/ ~ taken_by_other (w_db w) (u_id user) (profile_username form)).
  { apply andb_false_iff in Hcheck. destruct Hcheck as [Hl | Ht].
    - left. apply negb_false_iff, String.eqb_eq in Hl. exact Hl.
    - right. intros H. apply taken_by_other_existsb in H. congruence. }
  assert (Hrow : existsb (fun u => u_id u =? u_id user) (users (w_db w))
                 = true).
  { apply existsb_exists. exists user.
    apply find_user_in in Hfind. destruct Hfind as [Hin _].
    split; [exact Hin | apply Z.eqb_refl]. }
  unfold ret. unfold update_username, bind, get_db. cbv beta iota.
  rewrite Hrow, andb_true_r.
  destruct (existsb (fun u => String.eqb (u_username u) (profile_username form)
                              && negb (u_id u =? u_id user))
              (users (w_db w))) eqn:Hheld.
  { apply held_by_other_existsb in Hheld.
    exact (Hraise Hne' Hfree Hheld). }
  assert (Hnot : ~ held_by_other (w_db w) (u_id user) (profile_username form)).
  { intros H. apply held_by_other_existsb in H. congruence. }
  specialize (Hdone Hne' Hfree Hnot).
  unfold update_users, bind, get_db, put_db, get_session, put_session, ret.
  cbv beta iota.
  pose proof (edited_rows rt form (u_id user) (users (w_db w))) as Hrows.
  cbv zeta in Hrows.
  unfold profile_edited in Hdone. cbv zeta in Hdone.
  rewrite <- Hrows in Hdone. unfold profile_name_cell in Hdone |- *.
  destruct (PyStr.nonempty (profile_password form));
    cbn [w_db w_session w_flashes w_calls users users_seq appointments
         appointments_seq] in Hdone |- *.
  - exact Hdone.
  - assert (Hid : forall l : list user_row,
               map (fun u => if u_id u =? u_id user then u else u) l = l).
    { intros l. rewrite <- (map_id l) at 2. apply map_ext. intros u.
      destruct (u_id u =? u_id user); reflexivity. }
    rewrite Hid in Hdone. exact Hdone.
Qed.

Lemma edit_profile_run (rt : Runtime) (method : http_method)
  (form : string -> option string) (w : world)
  (P : py_result page * world -> Prop) :
  (s_user_id (w_session w) = None -> P (Ok (Plain (Redirect "cover_page")), w)) ->
  (forall id, s_user_id (w_session w) = Some id ->
              find_user (w_db w) id = None ->
              P (Ok (Plain (Redirect "cover_page")),
                 with_session w session_clear)) ->
  (forall user, logged_in_as w user -> method = GET ->
                P (Ok (EditProfilePage user None), w)) ->
  (forall user, logged_in_as w user -> method = POST ->
                P (edit_profile rt POST form w)) ->
  P (edit_profile rt method form w).
Proof.
  intros Hanon Hstale Hget Hpost.
  destruct (s_user_id (w_session w)) as [id|] eqn:Hs.
  2:{ unfold edit_profile, bind, get_session. rewrite Hs.
      apply Hanon. reflexivity. }
  destruct (find_user (w_db w) id) as [user|] eqn:Hu.
  2:{ unfold edit_profile, bind, get_session, get_db, put_session, ret.
      rewrite Hs, Hu. apply (Hstale id); [reflexivity | exact Hu]. }
  assert (Hl : logged_in_as w user).
  { destruct (find_user_in _ _ _ Hu) as [_ Hid]. unfold logged_in_as.
    rewrite Hid. split; [exact Hs | exact Hu]. }
  destruct method.
  - unfold edit_profile, bind, get_session, get_db, ret.
    rewrite Hs, Hu. apply (Hget user Hl). reflexivity.
  - apply (Hpost user Hl). reflexivity.
Qed.

Lemma same_account_refl (id : Z) (l : list user_row) :
  Forall2 (same_account id) l l.
Proof.
  induction l as [|u l IH]; constructor; [|exact IH].
  unfold same_account. repeat split; reflexivity.
Qed.

Lemma same_account_edited (rt : Runtime) (form : string -> option string)
  (id : Z) (l : list user_row) :
  Forall2 (same_account id) l
    (map (fun u => if u_id u =? id then edited_row rt form u else u) l).
Proof.
  induction l as [|u l IH]; cbn; constructor; [|exact IH].
  unfold same_account.
  destruct (u_id u =? id) eqn:E.
  - apply Z.eqb_eq in E. cbn. repeat split; try reflexivity.
    intros N. contradiction.
  - repeat split; reflexivity.
Qed.

Lemma same_login_refl (s : session) : same_login s s.
Proof.
  unfold same_login. repeat split; reflexivity.
Qed.

(** X25.  [edit_profile] touches the profile and nothing else: of the user
    rows it changes at most the username, the password hash and the name,
    and only in the requester's row; it never changes a role, a group, an
    id, a date, the counters, the appointments, the flashed messages or the
    requests sent; and the session is either cleared (its user is gone) or
    keeps its user id, role, groups and appointment. *)
Theorem edit_profile_frame (rt : Runtime) (method : http_method)
  (form : string -> option string) (w : world) :
  let w' := snd (edit_profile rt method form w) in
  appointments (w_db w') = appointments (w_db w)
  /\ appointments_seq (w_db w') = appointments_seq (w_db w)
  /\ users_seq (w_db w') = users_seq (w_db w)
  /\ w_flashes w' = w_flashes w
  /\ w_calls w' = w_calls w
  /\ (forall id, s_user_id (w_session w) = Some id ->
                 Forall2 (same_account id) (users (w_db w))
                   (users (w_db w')))
  /\ (s_user_id (w_session w) = None -> w' = w)
  /\ (w_session w' = session_clear
      \/ same_login (w_session w) (w_session w')).
Proof.
  cbv zeta.
  assert (Hsame :
            forall w0 : world, w0 = w ->
              appointments (w_db w0) = appointments (w_db w)
              /\ appointments_seq (w_db w0) = appointments_seq (w_db w)
              /\ users_seq (w_db w0) = users_seq (w_db w)
              /\ w_flashes w0 = w_flashes w
              /\ w_calls w0 = w_calls w
              /\ (forall id, s_user_id (w_session w) = Some id ->
                             Forall2 (same_account id) (users (w_db w))
                               (users (w_db w0)))
              /\ (s_user_id (w_session w) = None -> w0 = w)
              /\ (w_session w0 = session_clear
                  \/ same_login (w_session w) (w_session w0))).
  { intros w0 ->.
    split; [reflexivity|]. split; [reflexivity|]. split; [reflexivity|].
    split; [reflexivity|]. split; [reflexivity|].
    split; [intros id _; apply same_account_refl|].
    split; [reflexivity|]. right. apply same_login_refl. }
  apply (edit_profile_run rt method form w
           (fun o =>
              appointments (w_db (snd o)) = appointments (w_db w)
              /\ appointments_seq (w_db (snd o)) = appointments_seq (w_db w)
              /\ users_seq (w_db (snd o)) = users_seq (w_db w)
              /\ w_flashes (snd o) = w_flashes w
              /\ w_calls (snd o) = w_calls w
              /\ (forall id, s_user_id (w_session w) = Some id ->
                             Forall2 (same_account id) (users (w_db w))
                               (users (w_db (snd o))))
              /\ (s_user_id (w_session w) = None -> snd o = w)
              /\ (w_session (snd o) = session_clear
                  \/ same_login (w_session w) (w_session (snd o))))).
  - intros _. apply Hsame. reflexivity.
  - intros id Hs Hu. cbn [snd with_session w_db w_session w_flashes w_calls].
    split; [reflexivity|]. split; [reflexivity|]. split; [reflexivity|].
    split; [reflexivity|]. split; [reflexivity|].
    split; [intros id' _; apply same_account_refl|].
    split; [intros E; congruence|]. left. reflexivity.
  - intros user _ _. apply Hsame. reflexivity.
  - intros user Hl _.
    apply (edit_profile_cases rt form w user); try exact Hl;
      try (intros; apply Hsame; reflexivity).
    intros _ _ _. destruct Hl as [Hs _].
    cbn [snd profile_edited w_db w_session w_flashes w_calls users users_seq
         appointments appointments_seq].
    split; [reflexivity|]. split; [reflexivity|]. split; [reflexivity|].
    split; [reflexivity|]. split; [reflexivity|].
    split.
    { intros id E. rewrite Hs in E. injection E as <-.
      apply same_account_edited. }
    split; [intros E; congruence|].
    right. unfold same_login. repeat split; reflexivity.
Qed.

Lemma find_edited (rt : Runtime) (form : string -> option string)
  (user : user_row) (l : list user_row) :
  find (fun u => u_id u =? u_id user) l = Some user ->
  find (fun u => u_id u =? u_id user)
    (map (fun u => if u_id u =? u_id user then edited_row rt form u else u)
       l)
  = Some (edited_row rt form user).
Proof.
  induction l as [|x l IH]; cbn; [discriminate|].
  destruct (u_id x =? u_id user) eqn:E.
  - intros H. injection H as ->. cbn. rewrite Z.eqb_refl. reflexivity.
  - rewrite E. exact IH.
Qed.

(** X26.  A logged-in user who posts a username that is not empty and that
    no other row holds, in any ASCII case, gets the profile stored and is
    sent to the account page: the row has the new username, the hash of the
    new password (the old hash when the password is left blank) and the new
    name (NULL when the name is left blank), and the session has the new
    username and name. *)
Theorem edit_profile_updates (rt : Runtime) (form : string -> option string)
  (w : world) (user : user_row) :
  logged_in_as w user ->
  profile_username form <> "" ->
  ~ taken_by_other (w_db w) (u_id user) (profile_username form) ->
  let w' := profile_edited rt form (u_id user) w in
  edit_profile rt POST form w = (Ok (Plain (Redirect "account_page")), w')
  /\ find_user (w_db w') (u_id user) = Some (edited_row rt form user)
  /\ u_username (edited_row rt form user) = profile_username form
  /\ (profile_password form = "" ->
      u_password_hash (edited_row rt form user) = u_password_hash user)
  /\ (profile_password form <> "" ->
      u_password_hash (edited_row rt form user)
      = generate_password_hash rt (profile_password form))
  /\ (profile_name form = "" -> u_name (edited_row rt form user) = None)
  /\ (profile_name form <> "" ->
      u_name (edited_row rt form user) = Some (profile_name form))
  /\ s_username (w_session w') = Some (profile_username form)
  /\ s_name (w_session w') = u_name (edited_row rt form user).
Proof.
  intros Hl Hne Hfree w'. subst w'.
  split.
  { apply (edit_profile_cases rt form w user); try exact Hl.
    - intros E. contradiction.
    - intros _ _ Ht. contradiction.
    - intros _ _ Hh. destruct (Hfree (held_is_taken _ _ _ Hh)).
    - intros _ _ _. reflexivity. }
  split.
  { destruct Hl as [_ Hfind]. unfold find_user, profile_edited.
    cbn [w_db users]. apply find_edited. exact Hfind. }
  split; [reflexivity|].
  unfold edited_row, profile_name_cell. cbn [u_password_hash u_name].
  split; [intros ->; reflexivity|].
  split.
  { intros N. destruct (profile_password form); [contradiction|].
    reflexivity. }
  split; [intros ->; reflexivity|].
  split.
  { intros N. destruct (profile_name form); [contradiction|].
    reflexivity. }
  split; reflexivity.
Qed.

(** X27.  [edit_profile] refuses a blank username, and a username that
    differs from the user's own and that another row holds in any ASCII
    case; it shows the form again with the error.  Whenever the answer to a
    POST is anything but the redirect to the account page, nothing has been
    stored and the session is as before. *)
Theorem edit_profile_rejects (rt : Runtime) (form : string -> option string)
  (w : world) (user : user_row) :
  logged_in_as w user ->
  (profile_username form = "" ->
   edit_profile rt POST form w
   = (Ok (EditProfilePage user (Some "Username is required.")), w))
  /\ (profile_username form <> "" ->
      PyStr.lower (profile_username form) <> PyStr.lower (u_username user) ->
      taken_by_other (w_db w) (u_id user) (profile_username form) ->
      edit_profile rt POST form w
      = (Ok (EditProfilePage user
               (Some "Username already exists. Please choose a different username.")),
         w))
  /\ (fst (edit_profile rt POST form w)
      <> Ok (Plain (Redirect "account_page")) ->
      snd (edit_profile rt POST form w) = w).
Proof.
  intros Hl. split; [|split].
  - intros Hblank.
    apply (edit_profile_cases rt form w user); try exact Hl;
      try (intros; contradiction).
    intros _. reflexivity.
  - intros Hne Hlow Htaken.
    apply (edit_profile_cases rt form w user); try exact Hl.
    + intros E. contradiction.
    + intros _ _ _. reflexivity.
    + intros _ [E | N] _; contradiction.
    + intros _ [E | N] _; contradiction.
  - apply (edit_profile_cases rt form w user
             (fun o => fst o <> Ok (Plain (Redirect "account_page")) ->
                       snd o = w)); try exact Hl;
      try (intros; reflexivity).
    intros _ _ _ N. cbn [fst] in N. contradiction.
Qed.

(** X28.  The check of [edit_profile] compares with Python's [lower], the
    table with SQLite's: when the new username equals the user's own under
    [lower] (so the check is skipped) and another row holds exactly the new
    username, the UPDATE violates the UNIQUE constraint and the handler
    raises sqlite3.IntegrityError, which it does not catch; nothing is
    stored. *)
Theorem edit_profile_unique_violation (rt : Runtime)
  (form : string -> option string) (w : world) (user : user_row) :
  logged_in_as w user ->
  profile_username form <> "" ->
  PyStr.lower (profile_username form) = PyStr.lower (u_username user) ->
  held_by_other (w_db w) (u_id user) (profile_username form) ->
  edit_profile rt POST form w
  = (Raise (IntegrityError "UNIQUE constraint failed: users.username"), w).
Proof.
  intros Hl Hne Hlow Hheld.
  apply (edit_profile_cases rt form w user); try exact Hl.
  - intros E. contradiction.
  - intros _ N _. contradiction.
  - intros _ _ _. reflexivity.
  - intros _ _ N. contradiction.
Qed.

Lemma NoDup_replaced {A B : Type} (id : A -> Z) (f : A -> B) (i : Z) (v : B)
  (l : list A) :
  NoDup (map id l) -> NoDup (map f l) ->
  (forall x, In x l -> id x <> i -> f x <> v) ->
  NoDup (map (fun x => if id x =? i then v else f x) l).
Proof.
  induction l as [|x l IH]; intros Hid Hf Hv; cbn; [constructor|].
  cbn in Hid, Hf. apply NoDup_cons_iff in Hid, Hf.
  destruct Hid as [Hxi Hid], Hf as [Hxf Hf].
  constructor.
  - intros Hin. apply in_map_iff in Hin. destruct Hin as (y & E & Hy).
    destruct (id x =? i) eqn:Ex, (id y =? i) eqn:Ey.
    + apply Z.eqb_eq in Ex, Ey. apply Hxi. rewrite Ex, <- Ey.
      apply in_map. exact Hy.
    + apply Z.eqb_neq in Ey. apply (Hv y (or_intror Hy) Ey). exact E.
    + apply Z.eqb_neq in Ex. apply (Hv x (or_introl eq_refl) Ex).
      symmetry. exact E.
    + apply Hxf. rewrite <- E. apply in_map. exact Hy.
  - apply IH; [exact Hid | exact Hf|].
    intros y Hy. apply Hv. right. exact Hy.
Qed.

Lemma profile_edited_ok (rt : Runtime) (form : string -> option string)
  (w : world) (user : user_row) :
  db_ok (w_db w) ->
  (forall u, In u (users (w_db w)) -> u_id u <> u_id user ->
             sql_lower (u_username u) <> sql_lower (profile_username form)) ->
  db_ok (w_db (profile_edited rt form (u_id user) w)).
Proof.
  intros [Hus Has Hu Hud Hun Ha Had] Hother.
  unfold profile_edited. cbn [w_db].
  assert (Hids : map u_id
                   (map (fun u => if u_id u =? u_id user
                                  then edited_row rt form u else u)
                      (users (w_db w)))
                 = map u_id (users (w_db w))).
  { rewrite map_map. apply map_ext. intros u.
    destruct (u_id u =? u_id user); reflexivity. }
  constructor; cbn [users users_seq appointments appointments_seq];
    try assumption.
  - rewrite Forall_forall in *. intros r Hr.
    apply in_map_iff in Hr. destruct Hr as (r0 & <- & Hr0).
    specialize (Hu r0 Hr0).
    destruct (u_id r0 =? u_id user); exact Hu.
  - rewrite Hids. exact Hud.
  - rewrite map_map.
    rewrite (map_ext _
               (fun u => if u_id u =? u_id user
                         then sql_lower (profile_username form)
                         else sql_lower (u_username u))).
    2:{ intros u. destruct (u_id u =? u_id user); reflexivity. }
    apply NoDup_replaced; assumption.
Qed.

(** X29.  On usernames for which Python's [lower] and SQLite's LOWER agree,
    [edit_profile] is safe: from well-formed tables it never raises, and
    the tables are well-formed again, so no two usernames become equal
    without regard to case. *)
Theorem edit_profile_keeps_tables (rt : Runtime) (method : http_method)
  (form : string -> option string) (w : world) :
  db_ok (w_db w) ->
  same_case_rules (profile_username form) ->
  (forall u, In u (users (w_db w)) -> same_case_rules (u_username u)) ->
  (exists p, fst (edit_profile rt method form w) = Ok p)
  /\ db_ok (w_db (snd (edit_profile rt method form w))).
Proof.
  intros Hok Hnew Hold.
  apply (edit_profile_run rt method form w
           (fun o => (exists p, fst o = Ok p) /\ db_ok (w_db (snd o)))).
  - intros _. split; [eexists; reflexivity | exact Hok].
  - intros id _ _. split; [eexists; reflexivity | exact Hok].
  - intros user _ _. split; [eexists; reflexivity | exact Hok].
  - intros user Hl _.
    assert (Hin : In user (users (w_db w))).
    { destruct Hl as [_ Hf]. apply find_user_in in Hf. tauto. }
    assert (Hother :
              PyStr.lower (profile_username form)
              = PyStr.lower (u_username user)
              \/ ~ taken_by_other (w_db w) (u_id user) (profile_username form) ->
              forall u, In u (users (w_db w)) -> u_id u <> u_id user ->
                        sql_lower (u_username u)
                        <> sql_lower (profile_username form)).
    { intros [E | N] u Hu Hid Heq.
      - unfold same_case_rules in Hnew. rewrite Hnew in E.
        rewrite (Hold user Hin) in E. rewrite E in Heq.
        apply Hid. f_equal.
        exact (distinct_by (fun x => sql_lower (u_username x)) _ u user
                 (ok_usernames_distinct _ Hok) Hu Hin Heq).
      - apply N. exists u. auto. }
    apply (edit_profile_cases rt form w user); try exact Hl.
    + intros _. split; [eexists; reflexivity | exact Hok].
    + intros _ _ _. split; [eexists; reflexivity | exact Hok].
    + intros _ Hfree (u & Hu & Hid & E). exfalso.
      apply (Hother Hfree u Hu Hid). rewrite E. reflexivity.
    + intros _ Hfree _. split; [eexists; reflexivity|].
      cbn [snd]. apply profile_edited_ok; [exact Hok|].
      exact (Hother Hfree).
Qed.

(** * The further properties at sample inputs *)

Lemma sample_db_ok : db_ok (sample_db 7).
Proof.
  constructor; cbn; try lia.
  - repeat constructor; cbn; lia.
  - repeat constructor; cbn; intuition discriminate.
  - repeat constructor; cbn; intuition discriminate.
  - repeat constructor; cbn; lia.
  - repeat constructor; cbn; intuition.
Qed.

Lemma patient_can_start :
  can_start (appointment_runtime no_reply) patient_world 1 sample_user
    (mk_date 2017 3 2).
Proof.
  repeat split; try reflexivity. discriminate.
Qed.

Lemma patient_logged_in : logged_in_as patient_world sample_user.
Proof.
  split; reflexivity.
Qed.

Lemma appointment_page_starts_witness :
  can_start (appointment_runtime no_reply) patient_world 1 sample_user
    (mk_date 2017 3 2)
  /\ fst (appointment_page (appointment_runtime no_reply) sample_clock
            patient_world)
     = Ok (Redirect "conversation_page")
  /\ s_appointment_data
       (w_session (snd (appointment_page (appointment_runtime no_reply)
                          sample_clock patient_world)))
     = Some (mk_appointment_data 2 "2024-06-15" "10:30" 7 "N/A" "N/A"
               "Alice Doe" (Some "female")).
Proof.
  split; [exact patient_can_start|].
  destruct (appointment_page_starts (appointment_runtime no_reply)
              sample_clock patient_world 1 sample_user (mk_date 2017 3 2)
              patient_can_start)
    as (w' & Hrun & _ & _ & Hdata & _).
  rewrite Hrun. split; [reflexivity | exact Hdata].
Defined.


Lemma extract_diet_payload_not_object_witness :
  extract_diet array_runtime (sample_world sample_appointment)
  = (Ok (Jsonify 500
           [("error", PStr "'list' object has no attribute 'get'")]),
     sent (sample_world sample_appointment)
       (extraction_request array_runtime sample_history)).
Proof.
  apply (extract_diet_payload_not_object array_runtime
           (sample_world sample_appointment) sample_appointment "[]" []
           (PList []));
    [repeat split; discriminate | reflexivity | reflexivity
    | intros d; discriminate].
Defined.


Lemma conversation_carries_history_witness :
  exists rq2,
    w_calls
      (snd (conversation_page
              (chat_runtime (inr [Some "Thank you. And her weight?"]))
              POST (PDict [("message", PStr "25 kg")])
              (snd (conversation_page
                      (chat_runtime (inr [Some "Thank you. And her weight?"]))
                      POST (PDict sample_body)
                      (sample_world sample_appointment)))))
    = [ chat_request
          (chat_runtime (inr [Some "Thank you. And her weight?"]))
          sample_appointment sample_history (PStr "She is 120 cm tall");
        rq2 ]
    /\ List.length (rq_messages rq2) = 6%nat.
Proof.
  destruct (conversation_carries_history
              (chat_runtime (inr [Some "Thank you. And her weight?"]))
              (sample_world sample_appointment) sample_appointment
              sample_body [("message", PStr "25 kg")]
              "Thank you. And her weight?" [])
    as (rq2 & Hcalls & Hmessages);
    [reflexivity | reflexivity | reflexivity | reflexivity | discriminate |].
  exists rq2. split; [exact Hcalls|].
  rewrite Hmessages. reflexivity.
Defined.

Lemma fresh_appointment_workflow_witness :
  extract_diet (appointment_runtime no_reply)
    (snd (appointment_page (appointment_runtime no_reply) sample_clock
            patient_world))
  = (Ok (Jsonify 400 [("error", PStr "No conversation data available")]),
     snd (appointment_page (appointment_runtime no_reply) sample_clock
            patient_world)).
Proof.
  destruct (fresh_appointment_workflow (appointment_runtime no_reply)
              sample_clock patient_world 1 sample_user (mk_date 2017 3 2)
              patient_can_start)
    as [H _].
  - constructor; [cbn; lia | constructor].
  - cbn. lia.
  - exact H.
Defined.

Lemma signup_then_login_witness :
  fst (login sample_check POST (login_form "CAROL" "secret")
         (with_session
            (snd (signup signup_runtime POST (sample_form "patient" "")
                    sample_clock admin_world))
            anonymous))
  = Ok (Redirect "main_page")
  /\ s_username
       (w_session
          (snd (login sample_check POST (login_form "CAROL" "secret")
                  (with_session
                     (snd (signup signup_runtime POST
                             (sample_form "patient" "") sample_clock
                             admin_world))
                     anonymous))))
     = Some "carol".
Proof.
  destruct (signup_then_login signup_runtime sample_check sample_clock
              (sample_form "patient" "") (login_form "CAROL" "secret")
              admin_world
              (snd (signup signup_runtime POST (sample_form "patient" "")
                      sample_clock admin_world))
              "carol" "secret" "CAROL" anonymous)
    as (user & _ & Hname & Hrun & _);
    try reflexivity.
  rewrite Hrun. split; [reflexivity|].
  cbn [snd with_session w_session log_in s_username].
  rewrite Hname. reflexivity.
Defined.

Lemma tables_stay_well_formed_witness :
  db_ok (w_db admin_world)
  /\ db_ok (w_db (snd (signup signup_runtime POST (sample_form "patient" "")
                         sample_clock admin_world))).
Proof.
  split; [exact sample_db_ok|].
  destruct (tables_stay_well_formed signup_runtime sample_check sample_clock
              admin_world sample_db_ok)
    as [H _].
  exact (H POST (sample_form "patient" "")).
Defined.

Lemma people_page_lists_reportable_witness :
  admin_of admin_world "clinic"
  /\ exists l,
       people_page admin_world = (Ok (PeoplePage l), admin_world)
       /\ In (person_of sample_user) l
       /\ exists ctx,
            fst (reports_page (Some 1) admin_world)
            = Ok (Render "reports.html" ctx).
Proof.
  assert (Hadmin : admin_of admin_world "clinic").
  { repeat split; try reflexivity; discriminate. }
  split; [exact Hadmin|].
  destruct (people_page_lists_reportable admin_world "clinic" Hadmin)
    as (l & Hrun & Hmembers & _ & Hreports).
  { exact (ok_user_ids_distinct _ sample_db_ok). }
  assert (Hin : In (person_of sample_user) l).
  { apply Hmembers. exists sample_user.
    split; [left; reflexivity|]. split; reflexivity. }
  exists l. split; [exact Hrun|]. split; [exact Hin|].
  apply (Hreports 1); [discriminate|].
  exists (person_of sample_user).
  split; [exact Hin | split; reflexivity].
Defined.

Lemma account_pages_agree_witness :
  fst (account_page patient_world)
  = Ok (AccountPage sample_user [] (Some ("drbob", Some "Bob Roe")))
  /\ exists members,
       account_page admin_world
       = (Ok (AccountPage sample_admin members None), admin_world)
       /\ In ("alice", Some "Alice Doe") members.
Proof.
  split; [reflexivity|].
  destruct (account_pages_agree patient_world sample_user [] "drbob"
              (Some "Bob Roe") (ok_user_ids_distinct _ sample_db_ok)
              eq_refl)
    as (admin & Hin & _ & Hname & _ & _ & Hpage).
  destruct Hin as [<- | [<- | []]]; [discriminate Hname|].
  exact (Hpage admin_world eq_refl eq_refl).
Defined.

Lemma edit_profile_updates_witness :
  logged_in_as patient_world sample_user
  /\ fst (edit_profile signup_runtime POST
            (profile_form " alice2 " "" "Alice D") patient_world)
     = Ok (Plain (Redirect "account_page"))
  /\ find_user
       (w_db (snd (edit_profile signup_runtime POST
                     (profile_form " alice2 " "" "Alice D") patient_world)))
       1
     = Some (mk_user 1 "alice2" "hash:secret" "patient" None (Some "clinic")
               (Some "Alice D") "2024-06-01 09:00:00" (Some "2017-03-02")
               (Some "female")).
Proof.
  split; [exact patient_logged_in|].
  destruct (edit_profile_updates signup_runtime
              (profile_form " alice2 " "" "Alice D") patient_world
              sample_user patient_logged_in)
    as (Hrun & Hrow & _).
  - discriminate.
  - intros (u & Hin & Hid & E).
    destruct Hin as [<- | [<- | []]];
      [apply Hid; reflexivity | discriminate E].
  - rewrite Hrun. split; [reflexivity | exact Hrow].
Defined.

Lemma edit_profile_rejects_witness :
  edit_profile signup_runtime POST (profile_form "DrBob" "" "") patient_world
  = (Ok (EditProfilePage sample_user
           (Some "Username already exists. Please choose a different username.")),
     patient_world).
Proof.
  destruct (edit_profile_rejects signup_runtime (profile_form "DrBob" "" "")
              patient_world sample_user patient_logged_in)
    as (_ & Htaken & _).
  apply Htaken.
  - discriminate.
  - discriminate.
  - exists sample_admin.
    split; [right; left; reflexivity|]. split; [discriminate | reflexivity].
Defined.

Lemma latin_logged_in :
  logged_in_as latin_world
    (mk_user 1 a_grave "hash:secret" "patient" None None (Some "A")
       "2024-06-01 09:00:00" (Some "2017-03-02") (Some "female")).
Proof.
  split; reflexivity.
Qed.

Lemma edit_profile_unique_violation_witness :
  find_user_nocase latin_db capital_a_grave
  <> find_user_nocase latin_db a_grave
  /\ edit_profile signup_runtime POST (profile_form capital_a_grave "" "")
       latin_world
     = (Raise (IntegrityError "UNIQUE constraint failed: users.username"),
        latin_world).
Proof.
  split; [discriminate|].
  apply (edit_profile_unique_violation signup_runtime
           (profile_form capital_a_grave "" "") latin_world _
           latin_logged_in).
  - discriminate.
  - reflexivity.
  - eexists. split; [right; left; reflexivity|].
    split; [discriminate | reflexivity].
Defined.

Lemma edit_profile_keeps_tables_witness :
  db_ok (w_db patient_world)
  /\ db_ok (w_db (snd (edit_profile signup_runtime POST
                         (profile_form "alice2" "" "Alice D")
                         patient_world))).
Proof.
  split; [exact sample_db_ok|].
  destruct (edit_profile_keeps_tables signup_runtime POST
              (profile_form "alice2" "" "Alice D") patient_world
              sample_db_ok)
    as [_ H].
  - reflexivity.
  - intros u [<- | [<- | []]]; reflexivity.
  - exact H.
Defined.
